(** * Mining finance backend: repository and analytics layer

    A shallow embedding of the data-access layer ([data/income.go],
    [data/expense.go] with the inventory repository, [data/user.go]), of the
    validation helpers and of the handlers that sit directly on top of it
    ([handlers/income.go], [handlers/expense.go], [handlers/analytics.go],
    [handlers/auth.go]).

    The relational store and GORM are not part of the repository.  They are
    modelled by a small relational layer ([Module Gorm]): a table is the list
    of its rows together with the last value handed out by its id sequence,
    and each GORM call used by the repositories is a function on tables.
    What PostgreSQL computes inside the queries (aggregate sums, the order of
    text, the reading of a text as a timestamp, the rendering of a date) is
    taken from the store as it comes ([Class Postgres]), failures included.
    Store failures of other kinds than these and constraint violations
    (connectivity, timeouts) are not modelled: the store is always
    reachable. *)

From Stdlib Require Import ZArith NArith List String Ascii Floats.
From Stdlib Require Import Lia Permutation Sorted DecimalString.
From Stdlib Require DecimalN DecimalPos DecimalFacts.
From stdpp Require Import base list strings gmap.

Open Scope string_scope.

(** ** float64 arithmetic

    Every monetary field and every quantity is a Go [float64].  The
    repositories are written once over the operations they use; the instance
    [float64_go] interprets them by the kernel's binary64 floats, which is the
    arithmetic the program runs. *)

Class Float64 (F : Type) : Type := {
  fzero : F;                  (* the zero value, and the SQL literal 0 *)
  f100 : F;                   (* the constant 100 *)
  fadd : F → F → F;
  fsub : F → F → F;
  fmul : F → F → F;
  fdiv : F → F → F;
  fltb : F → F → bool;        (* Go's [<] *)
  fleb : F → F → bool;        (* Go's [<=] *)
  feqb : F → F → bool;        (* Go's [==] *)
  sql_leb : F → F → bool;     (* the store's [<=] on double precision *)
}.

Declare Scope float64_scope.
Delimit Scope float64_scope with F.
Notation "x + y" := (fadd x y) : float64_scope.
Notation "x - y" := (fsub x y) : float64_scope.
Notation "x * y" := (fmul x y) : float64_scope.
Notation "x / y" := (fdiv x y) : float64_scope.
Notation "x <? y" := (fltb x y) : float64_scope.
Notation "x <=? y" := (fleb x y) : float64_scope.
Notation "x >? y" := (fltb y x) (at level 70) : float64_scope.
Notation "x >=? y" := (fleb y x) (at level 70) : float64_scope.
Notation "x =? y" := (feqb x y) : float64_scope.

(** The store compares double precision values with a total order in which
    NaN equals itself and is greater than every other value. *)
Definition pg_float8_le (x y : float) : bool :=
  if PrimFloat.is_nan y then true
  else if PrimFloat.is_nan x then false
  else PrimFloat.leb x y.

#[export] Instance float64_go : Float64 float := {|
  fzero := 0%float;
  f100 := 100%float;
  fadd := PrimFloat.add;
  fsub := PrimFloat.sub;
  fmul := PrimFloat.mul;
  fdiv := PrimFloat.div;
  fltb := PrimFloat.ltb;
  fleb := PrimFloat.leb;
  feqb := PrimFloat.eqb;
  sql_leb := pg_float8_le;
|}.

(** ** Time

    A [time.Time] instant is the number of nanoseconds since Go's zero time;
    [time.Duration] is a number of nanoseconds. *)

Definition Time : Type := Z.
Definition Duration : Type := Z.
Bind Scope Z_scope with Time Duration.
Definition zero_time : Time := 0%Z.
Definition Nanosecond : Duration := 1%Z.
Definition Second : Duration := (1000000000 * Nanosecond)%Z.
Definition Minute : Duration := (60 * Second)%Z.
Definition Hour : Duration := (60 * Minute)%Z.
Definition time_Add (t : Time) (d : Duration) : Time := (t + d)%Z.

(** The [date] column of incomes and expenses.  The handlers only ever store
    what [time.Parse("2006-01-02", _)] returns, a civil date at midnight UTC,
    so a date is its year, month and day. *)
Record CivilDate : Type := { year : N; month : N; day : N }.

Definition date_leb (a b : CivilDate) : bool :=
  if (year a <? year b)%N then true
  else if (year b <? year a)%N then false
  else if (month a <? month b)%N then true
  else if (month b <? month a)%N then false
  else (day a <=? day b)%N.

Definition date_eqb (a b : CivilDate) : bool :=
  (year a =? year b)%N && (month a =? month b)%N && (day a =? day b)%N.

Definition is_leap (y : N) : bool :=
  ((y mod 4 =? 0) && (negb (y mod 100 =? 0) || (y mod 400 =? 0)))%N.

Definition daysIn (m y : N) : N :=
  if (m =? 2)%N then (if is_leap y then 29 else 28)%N
  else if ((m =? 4) || (m =? 6) || (m =? 9) || (m =? 11))%N then 30%N
  else 31%N.

(** The days from January 1 of year 1 to January 1 of year [y], and from
    January 1 of year [y] to the first of month [m] of that year. *)
Definition days_before_year (y : N) : Z :=
  let p := (Z.of_N y - 1)%Z in (365 * p + p / 4 - p / 100 + p / 400)%Z.

Fixpoint days_before_month (m : nat) (y : N) : Z :=
  match m with
  | O | S O => 0%Z
  | S m' => (days_before_month m' y + Z.of_N (daysIn (N.of_nat m') y))%Z
  end.

(** The instant at which a civil date starts in UTC, which is the
    [time.Time] the record holds and the [timestamptz] the store keeps. *)
Definition midnight_utc (d : CivilDate) : Time :=
  ((days_before_year (year d) + days_before_month (N.to_nat (month d)) (year d)
    + (Z.of_N (day d) - 1)) * (24 * Hour))%Z.

(** A [timestamptz] of the store: an instant, or one of the two special
    values that lie before and after every instant. *)
Inductive Timestamp : Type :=
  | MinusInfinity
  | Instant (t : Time)
  | PlusInfinity.

Definition timestamp_leb (a b : Timestamp) : bool :=
  match a, b with
  | MinusInfinity, _ => true
  | _, PlusInfinity => true
  | Instant x, Instant y => (x <=? y)%Z
  | _, _ => false
  end.

(** [date BETWEEN lower AND upper] on the date of a record, both bounds
    included. *)
Definition date_between (lower upper : Timestamp) (d : CivilDate) : bool :=
  timestamp_leb lower (Instant (midnight_utc d))
  && timestamp_leb (Instant (midnight_utc d)) upper.

(** Decimal rendering of [n] on at least [width] digits, zero padded. *)
Definition decimal (n : N) : string := NilEmpty.string_of_uint (N.to_uint n).

(** [fmt.Sprintf("%d", n)] on an unsigned number. *)
Definition decimal_id (n : N) : string :=
  match n with N0 => "0" | _ => decimal n end.

Fixpoint zeros (k : nat) : string :=
  match k with O => "" | S k' => String "0" (zeros k') end.

Definition pad_decimal (width : nat) (n : N) : string :=
  let s := match n with N0 => "0" | _ => decimal n end in
  zeros (width - String.length s) ++ s.

(** [TO_CHAR(date, 'YYYY-MM')] and [EXTRACT(YEAR FROM date)] as a session in
    the UTC time zone computes them.  The store has no year zero: the year 0
    of Go is 1 BC, which [YYYY] renders as [0001] and of which the
    extracted year is -1. *)
Definition utc_YYYY_MM (d : CivilDate) : string :=
  pad_decimal 4 (if (year d =? 0)%N then 1%N else year d) ++ "-" ++ pad_decimal 2 (month d).

Definition utc_year (d : CivilDate) : Z :=
  if (year d =? 0)%N then (-1)%Z else Z.of_N (year d).

(** ** Errors and results *)

Inductive error : Type :=
  | ErrRecordNotFound                (* gorm.ErrRecordNotFound *)
  | ErrDuplicatedKey                 (* a primary key or unique index violation *)
  | ErrBcrypt                        (* bcrypt.GenerateFromPassword failed *)
  | ErrRand                          (* crypto/rand failed *)
  | Errorf (msg : string).           (* fmt.Errorf(msg) *)

Inductive result (A : Type) : Type :=
  | Ok (a : A)
  | Err (e : error).
Arguments Ok {A} a.
Arguments Err {A} e.

Definition is_ok {A} (r : result A) : bool :=
  match r with Ok _ => true | Err _ => false end.

(** ** Query building blocks *)

Section Sql.
Context {A : Type}.

(** [ORDER BY]: a stable insertion sort by the given comparison. *)
Fixpoint insert_by (le : A → A → bool) (x : A) (l : list A) : list A :=
  match l with
  | [] => [x]
  | y :: l' => if le x y then x :: y :: l' else y :: insert_by le x l'
  end.

Fixpoint order_by (le : A → A → bool) (l : list A) : list A :=
  match l with
  | [] => []
  | x :: l' => insert_by le x (order_by le l')
  end.

(** [GROUP BY key]: one group per distinct key, with the rows that carry it. *)
Definition group_by (key : A → string) (l : list A) : list (string * list A) :=
  map (λ k, (k, filter (λ r, String.eqb (key r) k) l)) (remove_dups (map key l)).

End Sql.

(** A query fails as a whole when the computation of one of its rows fails. *)
Fixpoint collect {A B : Type} (f : A → result B) (l : list A) : result (list B) :=
  match l with
  | [] => Ok []
  | x :: l' =>
      match f x with
      | Err e => Err e
      | Ok y => match collect f l' with
                | Err e => Err e
                | Ok ys => Ok (y :: ys)
                end
      end
  end.

(** ** The store

    PostgreSQL is outside the repository.  What it computes inside the
    queries of the repositories is taken as it comes, the way [Bcrypt] is
    further down:
    - [SUM]: the aggregate over the values of a column, at least one, in the
      order of the rows.  It answers with the sum or fails, a sum that leaves
      the range of the column being an error of the store and not an
      infinity;
    - [text_leb]: the order of the database's collation on text
      ([ORDER BY name], [ORDER BY month]);
    - [timestamptz_in]: the reading of a text parameter as a timestamp
      ([date BETWEEN ? AND ?]); it fails on a text the store cannot read;
    - [to_char_YYYY_MM] and [extract_year]: [TO_CHAR(date, 'YYYY-MM')] and
      [EXTRACT(YEAR FROM date)], which depend on the time zone of the
      session. *)
Class Postgres (F : Type) : Type := {
  SUM : list F → result F;
  text_leb : string → string → bool;
  timestamptz_in : string → result Timestamp;
  to_char_YYYY_MM : CivilDate → string;
  extract_year : CivilDate → Z;
}.

(** [COALESCE(SUM(col), 0)]: the sum over no row is NULL, replaced by 0. *)
Definition sql_sum {F} `{Float64 F} `{Postgres F} (l : list F) : result F :=
  match l with
  | [] => Ok fzero
  | _ => SUM l
  end.

(** ** The relational layer *)

Module Gorm.

(** [gorm.Model]: primary key, bookkeeping timestamps and the soft-delete
  marker ([gorm.DeletedAt], a nullable time). *)
Record Model : Type := {
  ID : N;
  CreatedAt : Time;
  UpdatedAt : Time;
  DeletedAt : option Time;
}.

(** What the layer needs to know of a row type: where its [gorm.Model] is,
  which column defaults the INSERT fills in for zero-valued fields
  ([gorm:"default:..."] tags), and which pairs of rows violate a unique
  index other than the primary key. *)
Class Schema (R : Type) : Type := {
  model : R → Model;
  with_model : Model → R → R;
  column_defaults : R → R;
  unique_clash : R → R → bool;
}.

Record Table (R : Type) : Type := {
  rows : list R;        (* in insertion order *)
  last_id : N;          (* last value of the id sequence *)
}.
Arguments rows {R} t.
Arguments last_id {R} t.

Definition empty {R} : Table R := {| rows := []; last_id := 0 |}.

Section Ops.
Context {R : Type} `{Schema R}.

Definition id_of (r : R) : N := ID (model r).
Definition deleted_at (r : R) : option Time := DeletedAt (model r).

(** [deleted_at IS NULL] *)
Definition is_live (r : R) : bool :=
  match deleted_at r with None => true | Some _ => false end.

(** A raw SQL [SELECT ... WHERE cond]: no clause is added. *)
Definition Raw_where (cond : R → bool) (t : Table R) : list R :=
  filter (λ r, cond r) (rows t).

(** [db.Where(cond).Find(&rows)] and [db.Model(&R{}).Where(cond)...Scan]:
    the soft-delete clause [deleted_at IS NULL] is added to [cond]. *)
Definition Find (cond : R → bool) (t : Table R) : list R :=
  filter (λ r, cond r && is_live r) (rows t).

(** [db.Where(cond).First(&row)]: the live match with the least primary
    key, [ErrRecordNotFound] when there is none. *)
Definition First (cond : R → bool) (t : Table R) : result R :=
  match order_by (λ a b, (id_of a <=? id_of b)%N) (Find cond t) with
  | [] => Err ErrRecordNotFound
  | r :: _ => Ok r
  end.

Definition set_deleted_at (d : option Time) (r : R) : R :=
  let m := model r in
  with_model {| ID := ID m; CreatedAt := CreatedAt m;
                UpdatedAt := UpdatedAt m; DeletedAt := d |} r.

Definition set_updated_at (now : Time) (r : R) : R :=
  let m := model r in
  with_model {| ID := ID m; CreatedAt := CreatedAt m;
                UpdatedAt := now; DeletedAt := DeletedAt m |} r.

(** [db.Where(cond).Delete(&R{})] on a model with a [gorm.DeletedAt]
    field: [UPDATE ... SET deleted_at = now WHERE cond AND deleted_at IS
    NULL].  Matching no row is not an error. *)
Definition Delete (cond : R → bool) (now : Time) (t : Table R) : Table R :=
  {| rows := map (λ r, if cond r && is_live r
                       then set_deleted_at (Some now) r else r) (rows t);
     last_id := last_id t |}.

(** [db.Model(&R{}).Where(cond).Updates(map)]: the assignments [f] are
    applied to every live match and [updated_at] is refreshed.  Matching no
    row is not an error.  None of the assignments the repositories make this
    way concerns a column with a unique index. *)
Definition Updates (cond : R → bool) (f : R → R) (now : Time) (t : Table R) : Table R :=
  {| rows := map (λ r, if cond r && is_live r
                       then set_updated_at now (f r) else r) (rows t);
     last_id := last_id t |}.

(** No row of [l] other than the one with primary key [id] clashes with
    [r] on a unique index. *)
Definition unique_ok (r : R) (id : N) (l : list R) : bool :=
  forallb (λ r', (id_of r' =? id)%N || negb (unique_clash r r')) l.

Definition has_id (id : N) (l : list R) : bool :=
  existsb (λ r, (id_of r =? id)%N) l.

(** [db.Create(&row)].  A zero primary key is drawn from the sequence, the
    zero timestamps are set to [now] and the column defaults are filled
    in; the row as stored is written back through the pointer.  Returns
    the row as the caller sees it afterwards. *)
Definition Create (now : Time) (r : R) (t : Table R)
  : R * option error * Table R :=
  let m := model r in
  let fresh := (ID m =? 0)%N in
  let id := if fresh then (last_id t + 1)%N else ID m in
  let seq := if fresh then (last_id t + 1)%N else last_id t in
  let stamp (x : Time) := if (x =? zero_time)%Z then now else x in
  let r' := with_model {| ID := id; CreatedAt := stamp (CreatedAt m);
                          UpdatedAt := stamp (UpdatedAt m);
                          DeletedAt := DeletedAt m |} (column_defaults r) in
  if has_id id (rows t) || negb (unique_ok r' id (rows t))
  then (r, Some ErrDuplicatedKey, {| rows := rows t; last_id := seq |})
  else (r', None, {| rows := rows t ++ [r']; last_id := seq |}).

(** Overwrite every column of the row with primary key [id_of r]. *)
Definition overwrite (keep_created : bool) (r : R) (l : list R) : list R :=
  map (λ old, if (id_of old =? id_of r)%N
              then (if keep_created
                    then let m := model r in
                         with_model {| ID := ID m;
                                       CreatedAt := CreatedAt (model old);
                                       UpdatedAt := UpdatedAt m;
                                       DeletedAt := DeletedAt m |} r
                    else r)
              else old) l.

(** [db.Save(&row)].  With a zero primary key it is [Create].  Otherwise
    every column is written, [updated_at] refreshed, to the live row with
    that key; when there is none the row is upserted: inserted, or
    written over the soft-deleted row with that key ([created_at] is then
    kept). *)
Definition Save (now : Time) (r : R) (t : Table R)
  : R * option error * Table R :=
  if (id_of r =? 0)%N then Create now r t
  else
    let r' := set_updated_at now r in
    if negb (unique_ok r' (id_of r) (rows t))
    then (r', Some ErrDuplicatedKey, t)
    else if existsb (λ old, (id_of old =? id_of r)%N && is_live old) (rows t)
    then (r', None, {| rows := overwrite false r' (rows t);
                       last_id := last_id t |})
    else if has_id (id_of r) (rows t)
    then (r', None, {| rows := overwrite true r' (rows t);
                       last_id := last_id t |})
    else (r', None, {| rows := rows t ++ [r']; last_id := last_id t |}).

(** The row stored under primary key [id], deleted or not. *)
Definition stored (id : N) (t : Table R) : option R :=
  List.find (λ r, (id_of r =? id)%N) (rows t).

(** Primary keys are unique. *)
Definition pk_unique (t : Table R) : Prop := NoDup (map id_of (rows t)).

End Ops.

End Gorm.

Import Gorm.

(** ** The data model ([data/models.go]) *)

Definition PaymentPaid : string := "paid".
Definition PaymentUnpaid : string := "unpaid".
Definition PaymentPartial : string := "partial".

Definition RoleAdmin : string := "admin".
Definition RoleStandard : string := "standard".

Definition ExpenseEquipment : string := "equipment".
Definition ExpenseLabor : string := "labor".
Definition ExpenseChemicals : string := "chemicals".
Definition ExpenseFuel : string := "fuel".
Definition ExpenseMaintenance : string := "maintenance".
Definition ExpenseTransport : string := "transport".
Definition ExpenseOther : string := "other".

Module User.

(** [Location] is the field [handlers/auth.go] writes in [UpdateProfile]. *)
Record t : Type := {
  Model : Gorm.Model;
  Email : string;
  Name : string;
  Phone : option string;
  Location : option string;
  Password : string;
  Role : string;
  OTPCode : string;
  OTPExpiresAt : option Time;
}.

Definition with_Model (m : Gorm.Model) (u : t) : t :=
  {| Model := m; Email := Email u; Name := Name u; Phone := Phone u;
     Location := Location u; Password := Password u; Role := Role u;
     OTPCode := OTPCode u; OTPExpiresAt := OTPExpiresAt u |}.

Definition with_Password (p : string) (u : t) : t :=
  {| Model := Model u; Email := Email u; Name := Name u; Phone := Phone u;
     Location := Location u; Password := p; Role := Role u;
     OTPCode := OTPCode u; OTPExpiresAt := OTPExpiresAt u |}.

Definition with_Role (r : string) (u : t) : t :=
  {| Model := Model u; Email := Email u; Name := Name u; Phone := Phone u;
     Location := Location u; Password := Password u; Role := r;
     OTPCode := OTPCode u; OTPExpiresAt := OTPExpiresAt u |}.

Definition with_OTP (code : string) (expires : option Time) (u : t) : t :=
  {| Model := Model u; Email := Email u; Name := Name u; Phone := Phone u;
     Location := Location u; Password := Password u; Role := Role u;
     OTPCode := code; OTPExpiresAt := expires |}.

Definition with_profile (name : string) (phone location : option string) (u : t) : t :=
  {| Model := Model u; Email := Email u; Name := name; Phone := phone;
     Location := location; Password := Password u; Role := Role u;
     OTPCode := OTPCode u; OTPExpiresAt := OTPExpiresAt u |}.

(** [Role] has [default:'standard']; [Email] has a unique index. *)
#[global] Instance schema : Schema t := {|
  model := Model;
  with_model := with_Model;
  column_defaults u := if String.eqb (Role u) "" then with_Role RoleStandard u else u;
  unique_clash a b := String.eqb (Email a) (Email b);
|}.

End User.

Module Income.

Record t (F : Type) : Type := {
  Model : Gorm.Model;
  Date : CivilDate;
  MineralType : string;
  Quantity : F;
  Unit : string;
  PricePerUnit : F;
  TotalAmount : F;
  CustomerName : string;
  CustomerContact : string;
  PaymentStatus : string;
  AmountPaid : F;
  AmountDue : F;
  Notes : option string;
  UserID : N;
}.
Arguments Model {F} _.
Arguments Date {F} _.
Arguments MineralType {F} _.
Arguments Quantity {F} _.
Arguments Unit {F} _.
Arguments PricePerUnit {F} _.
Arguments TotalAmount {F} _.
Arguments CustomerName {F} _.
Arguments CustomerContact {F} _.
Arguments PaymentStatus {F} _.
Arguments AmountPaid {F} _.
Arguments AmountDue {F} _.
Arguments Notes {F} _.
Arguments UserID {F} _.

Section Setters.
Context {F : Type}.

Definition with_Model (m : Gorm.Model) (i : t F) : t F :=
  {| Model := m; Date := Date i; MineralType := MineralType i;
     Quantity := Quantity i; Unit := Unit i; PricePerUnit := PricePerUnit i;
     TotalAmount := TotalAmount i; CustomerName := CustomerName i;
     CustomerContact := CustomerContact i; PaymentStatus := PaymentStatus i;
     AmountPaid := AmountPaid i; AmountDue := AmountDue i; Notes := Notes i;
     UserID := UserID i |}.

Definition with_TotalAmount (x : F) (i : t F) : t F :=
  {| Model := Model i; Date := Date i; MineralType := MineralType i;
     Quantity := Quantity i; Unit := Unit i; PricePerUnit := PricePerUnit i;
     TotalAmount := x; CustomerName := CustomerName i;
     CustomerContact := CustomerContact i; PaymentStatus := PaymentStatus i;
     AmountPaid := AmountPaid i; AmountDue := AmountDue i; Notes := Notes i;
     UserID := UserID i |}.

Definition with_AmountDue (x : F) (i : t F) : t F :=
  {| Model := Model i; Date := Date i; MineralType := MineralType i;
     Quantity := Quantity i; Unit := Unit i; PricePerUnit := PricePerUnit i;
     TotalAmount := TotalAmount i; CustomerName := CustomerName i;
     CustomerContact := CustomerContact i; PaymentStatus := PaymentStatus i;
     AmountPaid := AmountPaid i; AmountDue := x; Notes := Notes i;
     UserID := UserID i |}.

Definition with_PaymentStatus (s : string) (i : t F) : t F :=
  {| Model := Model i; Date := Date i; MineralType := MineralType i;
     Quantity := Quantity i; Unit := Unit i; PricePerUnit := PricePerUnit i;
     TotalAmount := TotalAmount i; CustomerName := CustomerName i;
     CustomerContact := CustomerContact i; PaymentStatus := s;
     AmountPaid := AmountPaid i; AmountDue := AmountDue i; Notes := Notes i;
     UserID := UserID i |}.

(** [PaymentStatus] has [default:'unpaid']; the defaults of [AmountPaid] and
    [AmountDue] are their zero value. *)
#[global] Instance schema : Schema (t F) := {|
  model := Model;
  with_model := with_Model;
  column_defaults i :=
    if String.eqb (PaymentStatus i) "" then with_PaymentStatus PaymentUnpaid i else i;
  unique_clash _ _ := false;
|}.

End Setters.
End Income.

Module Expense.

Record t (F : Type) : Type := {
  Model : Gorm.Model;
  Date : CivilDate;
  Category : string;
  Description : string;
  Amount : F;
  SupplierName : string;
  SupplierContact : option string;
  PaymentStatus : string;
  AmountPaid : F;
  AmountDue : F;
  Notes : option string;
  UserID : N;
}.
Arguments Model {F} _.
Arguments Date {F} _.
Arguments Category {F} _.
Arguments Description {F} _.
Arguments Amount {F} _.
Arguments SupplierName {F} _.
Arguments SupplierContact {F} _.
Arguments PaymentStatus {F} _.
Arguments AmountPaid {F} _.
Arguments AmountDue {F} _.
Arguments Notes {F} _.
Arguments UserID {F} _.

Section Setters.
Context {F : Type}.

Definition with_Model (m : Gorm.Model) (e : t F) : t F :=
  {| Model := m; Date := Date e; Category := Category e;
     Description := Description e; Amount := Amount e;
     SupplierName := SupplierName e; SupplierContact := SupplierContact e;
     PaymentStatus := PaymentStatus e; AmountPaid := AmountPaid e;
     AmountDue := AmountDue e; Notes := Notes e; UserID := UserID e |}.

Definition with_AmountDue (x : F) (e : t F) : t F :=
  {| Model := Model e; Date := Date e; Category := Category e;
     Description := Description e; Amount := Amount e;
     SupplierName := SupplierName e; SupplierContact := SupplierContact e;
     PaymentStatus := PaymentStatus e; AmountPaid := AmountPaid e;
     AmountDue := x; Notes := Notes e; UserID := UserID e |}.

Definition with_PaymentStatus (s : string) (e : t F) : t F :=
  {| Model := Model e; Date := Date e; Category := Category e;
     Description := Description e; Amount := Amount e;
     SupplierName := SupplierName e; SupplierContact := SupplierContact e;
     PaymentStatus := s; AmountPaid := AmountPaid e;
     AmountDue := AmountDue e; Notes := Notes e; UserID := UserID e |}.

#[global] Instance schema : Schema (t F) := {|
  model := Model;
  with_model := with_Model;
  column_defaults e :=
    if String.eqb (PaymentStatus e) "" then with_PaymentStatus PaymentUnpaid e else e;
  unique_clash _ _ := false;
|}.

End Setters.
End Expense.

Module InventoryItem.

Record t (F : Type) : Type := {
  Model : Gorm.Model;
  Name : string;
  Type_ : string;               (* the field [Type] *)
  Quantity : F;
  Unit : string;
  MinStockLevel : F;
  CurrentValue : F;
  LastUpdated : Time;
  UserID : N;
}.
Arguments Model {F} _.
Arguments Name {F} _.
Arguments Type_ {F} _.
Arguments Quantity {F} _.
Arguments Unit {F} _.
Arguments MinStockLevel {F} _.
Arguments CurrentValue {F} _.
Arguments LastUpdated {F} _.
Arguments UserID {F} _.

Section Setters.
Context {F : Type}.

Definition with_Model (m : Gorm.Model) (i : t F) : t F :=
  {| Model := m; Name := Name i; Type_ := Type_ i; Quantity := Quantity i;
     Unit := Unit i; MinStockLevel := MinStockLevel i;
     CurrentValue := CurrentValue i; LastUpdated := LastUpdated i;
     UserID := UserID i |}.

Definition with_LastUpdated (now : Time) (i : t F) : t F :=
  {| Model := Model i; Name := Name i; Type_ := Type_ i; Quantity := Quantity i;
     Unit := Unit i; MinStockLevel := MinStockLevel i;
     CurrentValue := CurrentValue i; LastUpdated := now; UserID := UserID i |}.

Definition with_Quantity (q : F) (i : t F) : t F :=
  {| Model := Model i; Name := Name i; Type_ := Type_ i; Quantity := q;
     Unit := Unit i; MinStockLevel := MinStockLevel i;
     CurrentValue := CurrentValue i; LastUpdated := LastUpdated i;
     UserID := UserID i |}.

#[global] Instance schema : Schema (t F) := {|
  model := Model;
  with_model := with_Model;
  column_defaults i := i;
  unique_clash _ _ := false;
|}.

End Setters.
End InventoryItem.

Module FinancialSummary.
Record t (F : Type) : Type := {
  TotalIncome : F;
  TotalExpenses : F;
  NetProfit : F;
  TotalReceivables : F;
  TotalPayables : F;
  ProfitMargin : F;
}.
Arguments TotalIncome {F} _.
Arguments TotalExpenses {F} _.
Arguments NetProfit {F} _.
Arguments TotalReceivables {F} _.
Arguments TotalPayables {F} _.
Arguments ProfitMargin {F} _.
End FinancialSummary.

Module MonthlyData.
Record t (F : Type) : Type := {
  Month : string;
  Income : F;
  Expenses : F;
  Profit : F;
}.
Arguments Month {F} _.
Arguments Income {F} _.
Arguments Expenses {F} _.
Arguments Profit {F} _.
End MonthlyData.

Module CategoryBreakdown.
Record t (F : Type) : Type := {
  Category : string;
  Amount : F;
  Percentage : F;
}.
Arguments Category {F} _.
Arguments Amount {F} _.
Arguments Percentage {F} _.
End CategoryBreakdown.

(** ** Income repository ([IncomeRepository], GORM-backed) *)

Module IncomeRepository.
Section Repo.
Context {F : Type} `{Float64 F} `{Postgres F}.
Abbreviation Income := (Income.t F).

Definition owned_by (userID : N) (i : Income) : bool :=
  (Income.UserID i =? userID)%N.

Definition newest_first (a b : Income) : bool :=
  date_leb (Income.Date b) (Income.Date a).

(** [Where("user_id = ?").Order("date DESC").Find] *)
Definition GetAll (db : Table Income) (userID : N) : result (list Income) :=
  Ok (order_by newest_first (Find (owned_by userID) db)).

(** [Where("id = ? AND user_id = ?").First] *)
Definition GetOne (db : Table Income) (id userID : N) : result Income :=
  match First (λ i, (id_of i =? id)%N && owned_by userID i) db with
  | Err e => Err e
  | Ok income => Ok income
  end.

(** The two assignments both [Insert] and [Update] make before writing. *)
Definition recalculate (income : Income) : Income :=
  let income := Income.with_TotalAmount
                  (Income.Quantity income * Income.PricePerUnit income)%F income in
  Income.with_AmountDue
    (Income.TotalAmount income - Income.AmountPaid income)%F income.

(** Returns the record as the caller's pointer holds it afterwards, the
    returned id and error, and the table. *)
Definition Insert (db : Table Income) (now : Time) (income : Income)
  : Income * N * option error * Table Income :=
  let income := recalculate income in
  let '(income, err, db) := Create now income db in
  (income, id_of income, err, db).

Definition Update (db : Table Income) (now : Time) (income : Income)
  : Income * option error * Table Income :=
  let income := recalculate income in
  Save now income db.

(** [Where("id = ? AND user_id = ?").Delete(&Income{})] *)
Definition Delete (db : Table Income) (now : Time) (id userID : N)
  : option error * Table Income :=
  (None, Gorm.Delete (λ i, (id_of i =? id)%N && owned_by userID i) now db).

(** [Where("user_id = ? AND date BETWEEN ? AND ?").Order("date DESC").Find]:
    the two bounds reach the store as the texts the caller passed, and the
    query fails when the store cannot read one of them as a timestamp. *)
Definition GetByDateRange (db : Table Income) (userID : N) (startDate endDate : string)
  : result (list Income) :=
  match timestamptz_in startDate with
  | Err e => Err e
  | Ok lower =>
      match timestamptz_in endDate with
      | Err e => Err e
      | Ok upper =>
          Ok (order_by newest_first
                (Find (λ i, owned_by userID i
                            && date_between lower upper (Income.Date i)) db))
      end
  end.

Definition is_outstanding (status : string) : bool :=
  String.eqb status PaymentUnpaid || String.eqb status PaymentPartial.

Definition GetFinancialSummary (db : Table Income) (userID : N)
  : result (FinancialSummary.t F) :=
  match sql_sum (map Income.TotalAmount
                   (Find (λ i, owned_by userID i && is_live i) db)) with
  | Err e => Err e
  | Ok totalIncome =>
      match sql_sum (map Income.AmountDue
                       (Find (λ i, owned_by userID i && is_live i
                                   && is_outstanding (Income.PaymentStatus i)) db)) with
      | Err e => Err e
      | Ok totalReceivables =>
          Ok {| FinancialSummary.TotalIncome := totalIncome;
                FinancialSummary.TotalExpenses := fzero;
                FinancialSummary.NetProfit := fzero;
                FinancialSummary.TotalReceivables := totalReceivables;
                FinancialSummary.TotalPayables := fzero;
                FinancialSummary.ProfitMargin := fzero |}
      end
  end.

Definition month_order (a b : MonthlyData.t F) : bool :=
  text_leb (MonthlyData.Month a) (MonthlyData.Month b).

(** One row of the monthly query: the month and the sum of its group. *)
Definition month_row (g : string * list Income) : result (MonthlyData.t F) :=
  match sql_sum (map Income.TotalAmount (snd g)) with
  | Err e => Err e
  | Ok income => Ok {| MonthlyData.Month := fst g;
                       MonthlyData.Income := income;
                       MonthlyData.Expenses := fzero;
                       MonthlyData.Profit := fzero |}
  end.

(** The raw query
    [SELECT TO_CHAR(date, 'YYYY-MM') as month, COALESCE(SUM(total_amount), 0) as income
     FROM incomes WHERE user_id = ? AND EXTRACT(YEAR FROM date) = ?
     GROUP BY TO_CHAR(date, 'YYYY-MM') ORDER BY month] *)
Definition GetMonthlyData (db : Table Income) (userID : N) (year_ : Z)
  : result (list (MonthlyData.t F)) :=
  let selected :=
    Raw_where (λ i, owned_by userID i && (extract_year (Income.Date i) =? year_)%Z) db in
  match collect month_row (group_by (λ i, to_char_YYYY_MM (Income.Date i)) selected) with
  | Err e => Err e
  | Ok monthlyData => Ok (order_by month_order monthlyData)
  end.

End Repo.
End IncomeRepository.

(** ** Expense repository *)

Module ExpenseRepository.
Section Repo.
Context {F : Type} `{Float64 F} `{Postgres F}.
Abbreviation Expense := (Expense.t F).

Definition owned_by (userID : N) (e : Expense) : bool :=
  (Expense.UserID e =? userID)%N.

Definition newest_first (a b : Expense) : bool :=
  date_leb (Expense.Date b) (Expense.Date a).

Definition GetAll (db : Table Expense) (userID : N) : result (list Expense) :=
  Ok (order_by newest_first (Find (owned_by userID) db)).

Definition GetOne (db : Table Expense) (id userID : N) : result Expense :=
  match First (λ e, (id_of e =? id)%N && owned_by userID e) db with
  | Err e => Err e
  | Ok expense => Ok expense
  end.

Definition recalculate (expense : Expense) : Expense :=
  Expense.with_AmountDue
    (Expense.Amount expense - Expense.AmountPaid expense)%F expense.

Definition Insert (db : Table Expense) (now : Time) (expense : Expense)
  : Expense * N * option error * Table Expense :=
  let expense := recalculate expense in
  let '(expense, err, db) := Create now expense db in
  (expense, id_of expense, err, db).

Definition Update (db : Table Expense) (now : Time) (expense : Expense)
  : Expense * option error * Table Expense :=
  let expense := recalculate expense in
  Save now expense db.

Definition Delete (db : Table Expense) (now : Time) (id userID : N)
  : option error * Table Expense :=
  (None, Gorm.Delete (λ e, (id_of e =? id)%N && owned_by userID e) now db).

Definition GetByDateRange (db : Table Expense) (userID : N) (startDate endDate : string)
  : result (list Expense) :=
  match timestamptz_in startDate with
  | Err e => Err e
  | Ok lower =>
      match timestamptz_in endDate with
      | Err e => Err e
      | Ok upper =>
          Ok (order_by newest_first
                (Find (λ e, owned_by userID e
                            && date_between lower upper (Expense.Date e)) db))
      end
  end.

Definition largest_first (a b : CategoryBreakdown.t F) : bool :=
  sql_leb (CategoryBreakdown.Amount b) (CategoryBreakdown.Amount a).

(** The rows the raw query
    [SELECT category, COALESCE(SUM(amount), 0) as amount FROM expenses
     WHERE user_id = ? AND deleted_at IS NULL GROUP BY category ORDER BY amount DESC]
    scans into [breakdown]; [Percentage] is not selected and keeps its zero
    value. *)
Definition category_row (g : string * list Expense) : result (CategoryBreakdown.t F) :=
  match sql_sum (map Expense.Amount (snd g)) with
  | Err e => Err e
  | Ok amount => Ok {| CategoryBreakdown.Category := fst g;
                       CategoryBreakdown.Amount := amount;
                       CategoryBreakdown.Percentage := fzero |}
  end.

Definition category_rows (db : Table Expense) (userID : N)
  : result (list (CategoryBreakdown.t F)) :=
  match collect category_row
          (group_by Expense.Category
             (Raw_where (λ e, owned_by userID e && is_live e) db)) with
  | Err e => Err e
  | Ok breakdown => Ok (order_by largest_first breakdown)
  end.

(** [for _, item := range breakdown { totalAmount += item.Amount }] *)
Definition total_amount (breakdown : list (CategoryBreakdown.t F)) : F :=
  fold_left (λ totalAmount item, (totalAmount + CategoryBreakdown.Amount item)%F)
            breakdown fzero.

(** The body of the second loop, for one item. *)
Definition set_percentage (totalAmount : F) (item : CategoryBreakdown.t F)
  : CategoryBreakdown.t F :=
  if (totalAmount >? fzero)%F
  then {| CategoryBreakdown.Category := CategoryBreakdown.Category item;
          CategoryBreakdown.Amount := CategoryBreakdown.Amount item;
          CategoryBreakdown.Percentage :=
            ((CategoryBreakdown.Amount item / totalAmount) * f100)%F |}
  else item.

Definition GetCategoryBreakdown (db : Table Expense) (userID : N)
  : result (list (CategoryBreakdown.t F)) :=
  match category_rows db userID with
  | Err e => Err e
  | Ok breakdown =>
      let totalAmount := total_amount breakdown in
      Ok (map (set_percentage totalAmount) breakdown)
  end.

Definition month_order (a b : MonthlyData.t F) : bool :=
  text_leb (MonthlyData.Month a) (MonthlyData.Month b).

Definition month_row (g : string * list Expense) : result (MonthlyData.t F) :=
  match sql_sum (map Expense.Amount (snd g)) with
  | Err e => Err e
  | Ok expenses => Ok {| MonthlyData.Month := fst g;
                         MonthlyData.Income := fzero;
                         MonthlyData.Expenses := expenses;
                         MonthlyData.Profit := fzero |}
  end.

(** The raw query
    [SELECT TO_CHAR(date, 'YYYY-MM') as month, COALESCE(SUM(amount), 0) as expenses
     FROM expenses WHERE user_id = ? AND EXTRACT(YEAR FROM date) = ?
     GROUP BY TO_CHAR(date, 'YYYY-MM') ORDER BY month] *)
Definition GetMonthlyData (db : Table Expense) (userID : N) (year_ : Z)
  : result (list (MonthlyData.t F)) :=
  let selected :=
    Raw_where (λ e, owned_by userID e && (extract_year (Expense.Date e) =? year_)%Z) db in
  match collect month_row (group_by (λ e, to_char_YYYY_MM (Expense.Date e)) selected) with
  | Err e => Err e
  | Ok monthlyData => Ok (order_by month_order monthlyData)
  end.

Definition is_outstanding (status : string) : bool :=
  String.eqb status PaymentUnpaid || String.eqb status PaymentPartial.

(** [db.Model(&Expense{}).Where(...)]: the soft-delete clause is added by the
    layer; the payables are returned in the [TotalReceivables] field. *)
Definition GetFinancialSummary (db : Table Expense) (userID : N)
  : result (FinancialSummary.t F) :=
  match sql_sum (map Expense.Amount (Find (owned_by userID) db)) with
  | Err e => Err e
  | Ok totalExpenses =>
      match sql_sum (map Expense.AmountDue
                       (Find (λ e, owned_by userID e
                                   && is_outstanding (Expense.PaymentStatus e)) db)) with
      | Err e => Err e
      | Ok totalPayables =>
          Ok {| FinancialSummary.TotalIncome := fzero;
                FinancialSummary.TotalExpenses := totalExpenses;
                FinancialSummary.NetProfit := fzero;
                FinancialSummary.TotalReceivables := totalPayables;
                FinancialSummary.TotalPayables := fzero;
                FinancialSummary.ProfitMargin := fzero |}
      end
  end.

End Repo.
End ExpenseRepository.

(** ** Inventory repository *)

Module InventoryRepository.
Section Repo.
Context {F : Type} `{Float64 F} `{Postgres F}.
Abbreviation InventoryItem := (InventoryItem.t F).

Definition owned_by (userID : N) (i : InventoryItem) : bool :=
  (InventoryItem.UserID i =? userID)%N.

(** [ORDER BY name ASC]: the order of the database's collation. *)
Definition by_name (a b : InventoryItem) : bool :=
  text_leb (InventoryItem.Name a) (InventoryItem.Name b).

Definition by_quantity (a b : InventoryItem) : bool :=
  sql_leb (InventoryItem.Quantity a) (InventoryItem.Quantity b).

(** [Where("user_id = ?").Order("name ASC").Find] *)
Definition GetAll (db : Table InventoryItem) (userID : N) : result (list InventoryItem) :=
  Ok (order_by by_name (Find (owned_by userID) db)).

Definition GetOne (db : Table InventoryItem) (id userID : N) : result InventoryItem :=
  match First (λ i, (id_of i =? id)%N && owned_by userID i) db with
  | Err e => Err e
  | Ok item => Ok item
  end.

Definition Insert (db : Table InventoryItem) (now : Time) (item : InventoryItem)
  : InventoryItem * N * option error * Table InventoryItem :=
  let item := InventoryItem.with_LastUpdated now item in
  let '(item, err, db) := Create now item db in
  (item, id_of item, err, db).

Definition Update (db : Table InventoryItem) (now : Time) (item : InventoryItem)
  : InventoryItem * option error * Table InventoryItem :=
  let item := InventoryItem.with_LastUpdated now item in
  Save now item db.

Definition Delete (db : Table InventoryItem) (now : Time) (id userID : N)
  : option error * Table InventoryItem :=
  (None, Gorm.Delete (λ i, (id_of i =? id)%N && owned_by userID i) now db).

(** [Where("user_id = ? AND quantity <= min_stock_level").Order("quantity ASC").Find] *)
Definition GetLowStockItems (db : Table InventoryItem) (userID : N)
  : result (list InventoryItem) :=
  Ok (order_by by_quantity
        (Find (λ i, owned_by userID i
                    && sql_leb (InventoryItem.Quantity i) (InventoryItem.MinStockLevel i)) db)).

Definition UpdateQuantity (db : Table InventoryItem) (now : Time) (id userID : N) (quantity : F)
  : option error * Table InventoryItem :=
  (None, Updates (λ i, (id_of i =? id)%N && owned_by userID i)
                 (λ i, InventoryItem.with_LastUpdated now
                         (InventoryItem.with_Quantity quantity i))
                 now db).

End Repo.
End InventoryRepository.

(** ** User repository ([data/user.go]) *)

(** [golang.org/x/crypto/bcrypt] is outside the repository.  One call of
    [GenerateFromPassword] (with the salt it draws) is a function from the
    password to a hash or a failure; [CompareHashAndPassword] answers whether
    it returned [nil]. *)
Class Bcrypt : Type := {
  GenerateFromPassword : string → result string;
  CompareHashAndPassword : string → string → bool;
}.

Module UserRepository.
Section Repo.
Context `{Bcrypt}.

Definition HashPassword (password : string) : result string :=
  match GenerateFromPassword password with
  | Err e => Err e
  | Ok hashedBytes => Ok hashedBytes
  end.

Definition has_email (email : string) (u : User.t) : bool :=
  String.eqb (User.Email u) email.

(** [Where("email = ?").First] *)
Definition GetByEmail (db : Table User.t) (email : string) : result User.t :=
  match First (has_email email) db with
  | Err e => Err e
  | Ok user => Ok user
  end.

(** [db.First(&user, id)] *)
Definition GetOne (db : Table User.t) (id : N) : result User.t :=
  match First (λ u, (id_of u =? id)%N) db with
  | Err e => Err e
  | Ok user => Ok user
  end.

Definition Insert (db : Table User.t) (now : Time) (user : User.t)
  : User.t * N * option error * Table User.t :=
  match HashPassword (User.Password user) with
  | Err e => (user, 0%N, Some e, db)
  | Ok hashedPassword =>
      let user := User.with_Password hashedPassword user in
      let '(user, err, db) := Create now user db in
      (user, id_of user, err, db)
  end.

Definition Update (db : Table User.t) (now : Time) (user : User.t)
  : User.t * option error * Table User.t :=
  if negb (String.eqb (User.Password user) "")
  then match HashPassword (User.Password user) with
       | Err e => (user, Some e, db)
       | Ok hashedPassword =>
           Save now (User.with_Password hashedPassword user) db
       end
  else Save now user db.

(** [Model(&User{}).Where("id = ?").Update("password", hashedPassword)] *)
Definition ResetPassword (db : Table User.t) (now : Time) (userID : N) (newPassword : string)
  : option error * Table User.t :=
  match HashPassword newPassword with
  | Err e => (Some e, db)
  | Ok hashedPassword =>
      (None, Updates (λ u, (id_of u =? userID)%N)
                     (User.with_Password hashedPassword) now db)
  end.

Definition PasswordMatches (user : User.t) (plainText : string) : bool * option error :=
  if CompareHashAndPassword (User.Password user) plainText
  then (true, None) else (false, None).

(** [rand.Int(rand.Reader, 900000)] is the argument [draw]: a number below
    900000 or a failure of the random source. *)
Definition generateOTP (draw : result N) : result string :=
  match draw with
  | Err e => Err e
  | Ok n => Ok (pad_decimal 6 (n + 100000)%N)
  end.

Definition GenerateAndSaveOTP (db : Table User.t) (now : Time) (draw : result N)
  (email : string) : result string * Table User.t :=
  match generateOTP draw with
  | Err e => (Err e, db)
  | Ok otp =>
      let expiresAt := time_Add now (10 * Minute)%Z in
      (Ok otp, Updates (has_email email) (User.with_OTP otp (Some expiresAt)) now db)
  end.

(** [otp_expires_at > ?]: false on NULL. *)
Definition expires_after (now : Time) (u : User.t) : bool :=
  match User.OTPExpiresAt u with
  | Some t => (now <? t)%Z
  | None => false
  end.

Definition VerifyOTP (db : Table User.t) (now : Time) (email otp : string) : result bool :=
  match First (λ u, has_email email u && String.eqb (User.OTPCode u) otp
                    && expires_after now u) db with
  | Err ErrRecordNotFound => Ok false
  | Err e => Err e
  | Ok _ => Ok true
  end.

Definition ResetPasswordWithOTP (db : Table User.t) (now : Time)
  (email otp newPassword : string) : option error * Table User.t :=
  match VerifyOTP db now email otp with
  | Err e => (Some e, db)
  | Ok false => (Some (Errorf "invalid or expired OTP"), db)
  | Ok true =>
      match HashPassword newPassword with
      | Err e => (Some e, db)
      | Ok hashedPassword =>
          (None, Updates (has_email email)
                         (λ u, User.with_OTP "" None (User.with_Password hashedPassword u))
                         now db)
      end
  end.

End Repo.
End UserRepository.

(** ** Validation helpers and responses ([pkg/utils]) *)

Module utils.

(** White space as [strings.TrimSpace] sees it on the UTF-8 bytes of the
    string: the ASCII white space, U+0085, U+00A0, U+1680, U+2000 to U+200A,
    U+2028, U+2029, U+202F, U+205F and U+3000. *)
Fixpoint all_space (s : string) : bool :=
  match s with
  | "" => true
  | String c1 s1 =>
      let b1 := N_of_ascii c1 in
      if ((9 <=? b1) && (b1 <=? 13) || (b1 =? 32))%N then all_space s1
      else match s1 with
           | "" => false
           | String c2 s2 =>
               let b2 := N_of_ascii c2 in
               if ((b1 =? 194) && ((b2 =? 133) || (b2 =? 160)))%N then all_space s2
               else match s2 with
                    | "" => false
                    | String c3 s3 =>
                        let b3 := N_of_ascii c3 in
                        if ((b1 =? 225) && (b2 =? 154) && (b3 =? 128)
                            || (b1 =? 226) && (b2 =? 128)
                               && ((128 <=? b3) && (b3 <=? 138)
                                   || (b3 =? 168) || (b3 =? 169) || (b3 =? 175))
                            || (b1 =? 226) && (b2 =? 129) && (b3 =? 159)
                            || (b1 =? 227) && (b2 =? 128) && (b3 =? 128))%N
                        then all_space s3 else false
                    end
           end
  end.

(** [strings.TrimSpace(value) != ""] *)
Definition ValidateRequired (value : string) : bool := negb (all_space value).

Definition is_digit (c : ascii) : bool :=
  let b := N_of_ascii c in ((48 <=? b) && (b <=? 57))%N.

(** The regular expression [^\+?[1-9]\d{1,14}$]. *)
Definition ValidatePhone (phone : string) : bool :=
  if String.eqb phone "" then true
  else
    let digits := match phone with String "+" s => s | _ => phone end in
    match digits with
    | String c rest =>
        is_digit c && negb (Ascii.eqb c "0")
        && forallb is_digit (list_ascii_of_string rest)
        && (1 <=? String.length rest)%nat && (String.length rest <=? 14)%nat
    | "" => false
    end.

Definition ValidatePassword (password : string) : bool :=
  (6 <=? String.length password)%nat.

Definition is_letter (c : ascii) : bool :=
  let b := N_of_ascii c in
  ((65 <=? b) && (b <=? 90) || (97 <=? b) && (b <=? 122))%N.

(** The character classes [[a-zA-Z0-9._%+-]] and [[a-zA-Z0-9.-]]. *)
Definition is_local_char (c : ascii) : bool :=
  is_letter c || is_digit c || Ascii.eqb c "." || Ascii.eqb c "_"
  || Ascii.eqb c "%" || Ascii.eqb c "+" || Ascii.eqb c "-".

Definition is_domain_char (c : ascii) : bool :=
  is_letter c || is_digit c || Ascii.eqb c "." || Ascii.eqb c "-".

Definition all_chars (p : ascii → bool) (s : string) : bool :=
  forallb p (list_ascii_of_string s).

(** One way of reading [email] as [local @ domain . tld], the [@] at index
    [i] and the dot at index [j]. *)
Definition email_split_ok (email : string) (i j : nat) : bool :=
  let local := substring 0 i email in
  let domain := substring (S i) (j - S i) email in
  let tld := substring (S j) (String.length email - S j) email in
  (i <? j)%nat
  && match get i email with Some c => Ascii.eqb c "@" | None => false end
  && match get j email with Some c => Ascii.eqb c "." | None => false end
  && (1 <=? String.length local)%nat && all_chars is_local_char local
  && (1 <=? String.length domain)%nat && all_chars is_domain_char domain
  && (2 <=? String.length tld)%nat && all_chars is_letter tld.

(** The regular expression
    [^[a-zA-Z0-9._%+-]+@[a-zA-Z0-9.-]+\.[a-zA-Z]{2,}$]: some reading of the
    string as local part, [@], domain, dot and top-level domain fits. *)
Definition ValidateEmail (email : string) : bool :=
  let positions := seq 0 (String.length email) in
  existsb (λ i, existsb (λ j, email_split_ok email i j) positions) positions.

Section Numbers.
Context {F : Type} `{Float64 F}.
Definition ValidatePositiveNumber (value : F) : bool := (value >? fzero)%F.
Definition ValidateNonNegativeNumber (value : F) : bool := (value >=? fzero)%F.
End Numbers.

(** What a handler hands to the response writers: [WriteSuccessResponse(w,
    message, data)] or [WriteErrorResponse(w, message, statusCode)].  The
    encoding of [data] as JSON is the encoder's. *)
Inductive response (A : Type) : Type :=
  | WriteSuccessResponse (message : string) (data : A)
  | WriteErrorResponse (message : string) (statusCode : N).
Arguments WriteSuccessResponse {A} message data.
Arguments WriteErrorResponse {A} message statusCode.

Definition StatusOK : N := 200.
Definition StatusBadRequest : N := 400.
Definition StatusUnauthorized : N := 401.
Definition StatusForbidden : N := 403.
Definition StatusNotFound : N := 404.
Definition StatusInternalServerError : N := 500.

Definition WriteValidationError {A} (message : string) : response A :=
  WriteErrorResponse message StatusBadRequest.
Definition WriteUnauthorizedError {A} (message : string) : response A :=
  WriteErrorResponse message StatusUnauthorized.
Definition WriteNotFoundError {A} (message : string) : response A :=
  WriteErrorResponse message StatusNotFound.
Definition WriteInternalServerError {A} (message : string) : response A :=
  WriteErrorResponse message StatusInternalServerError.

Definition status {A} (r : response A) : N :=
  match r with
  | WriteSuccessResponse _ _ => StatusOK
  | WriteErrorResponse _ code => code
  end.

(** The claims of a token: the three of the application and, of the
    registered ones, the two that [GenerateJWT] sets. *)
Module Claims.
Record t : Type := {
  UserID : string;
  Email : string;
  Role : string;
  ExpiresAt : Time;
  IssuedAt : Time;
}.
End Claims.

(** [github.com/golang-jwt/jwt] is outside the repository:
    [jwt.NewWithClaims(jwt.SigningMethodHS256, claims).SignedString(jwtSecret)]
    is a function from the claims to a token or a failure. *)
Class Jwt : Type := {
  SignedString : Claims.t → result string;
}.

(** [now] is what [time.Now()] returns during the call. *)
Definition GenerateJWT `{Jwt} (now : Time) (userID email role : string) : result string :=
  let claims := {| Claims.UserID := userID;
                   Claims.Email := email;
                   Claims.Role := role;
                   Claims.ExpiresAt := time_Add now (24 * Hour)%Z;
                   Claims.IssuedAt := now |} in
  SignedString claims.

Definition GenerateToken `{Jwt} (now : Time) (userID email role : string) : result string :=
  GenerateJWT now userID email role.

End utils.

(** ** Standard library calls of the handlers *)

Definition digit_value (c : ascii) : option N :=
  if utils.is_digit c then Some (N_of_ascii c - 48)%N else None.

(** The value of a non-empty string of decimal digits. *)
Fixpoint decimal_value (acc : N) (s : string) : option N :=
  match s with
  | "" => Some acc
  | String c s' =>
      match digit_value c with
      | Some d => decimal_value (acc * 10 + d)%N s'
      | None => None
      end
  end.

(** [strconv.ParseUint(s, 10, 32)] *)
Definition ParseUint32 (s : string) : option N :=
  match s with
  | "" => None
  | _ => match decimal_value 0 s with
         | Some n => if (n <? 2 ^ 32)%N then Some n else None
         | None => None
         end
  end.

(** [strconv.Atoi(s)] on a 64-bit platform. *)
Definition Atoi (s : string) : option Z :=
  let '(negative, digits) :=
    match s with
    | String "-" s' => (true, s')
    | String "+" s' => (false, s')
    | _ => (false, s)
    end in
  match digits with
  | "" => None
  | _ => match decimal_value 0 digits with
         | Some n =>
             let z := if negative then (- Z.of_N n)%Z else Z.of_N n in
             if ((- 2 ^ 63 <=? z) && (z <? 2 ^ 63))%Z then Some z else None
         | None => None
         end
  end.

(** [time.Parse("2006-01-02", s)] *)
Definition time_Parse (s : string) : option CivilDate :=
  match list_ascii_of_string s with
  | [y1; y2; y3; y4; sep1; m1; m2; sep2; d1; d2] =>
      if Ascii.eqb sep1 "-" && Ascii.eqb sep2 "-" then
        match decimal_value 0 (string_of_list_ascii [y1; y2; y3; y4]),
              decimal_value 0 (string_of_list_ascii [m1; m2]),
              decimal_value 0 (string_of_list_ascii [d1; d2]) with
        | Some y, Some m, Some d =>
            if ((1 <=? m) && (m <=? 12) && (1 <=? d) && (d <=? daysIn m y))%N
            then Some {| year := y; month := m; day := d |}
            else None
        | _, _, _ => None
        end
      else None
  | _ => None
  end.

(** ** Income handlers ([handlers/income.go])

    [CreateIncomeRequest] and [UpdateIncomeRequest] have the same fields.
    The fields [ItemName], [GemstoneType] and [SalesType] of the requests are
    left out: [data/models.go] has no such columns.  A handler's arguments are
    what it reads from the request: the caller id the middleware put in the
    headers (0 when absent), the [id] URL parameter and the decoded body
    ([None] when decoding fails). *)

Module IncomeHandler.
Import utils.

Record IncomeRequest (F : Type) : Type := {
  Date : string;
  MineralType : string;
  Quantity : F;
  Unit : string;
  PricePerUnit : F;
  TotalAmount : F;
  CustomerName : string;
  CustomerContact : string;
  PaymentStatus : string;
  AmountPaid : F;
  AmountDue : option F;
  Notes : option string;
}.
Arguments Date {F} _.
Arguments MineralType {F} _.
Arguments Quantity {F} _.
Arguments Unit {F} _.
Arguments PricePerUnit {F} _.
Arguments TotalAmount {F} _.
Arguments CustomerName {F} _.
Arguments CustomerContact {F} _.
Arguments PaymentStatus {F} _.
Arguments AmountPaid {F} _.
Arguments AmountDue {F} _.
Arguments Notes {F} _.

Section Handlers.
Context {F : Type} `{Float64 F} `{Postgres F}.
Abbreviation Income := (Income.t F).

Definition valid_status (paymentStatus : string) : bool :=
  String.eqb paymentStatus PaymentPaid || String.eqb paymentStatus PaymentUnpaid
  || String.eqb paymentStatus PaymentPartial.

(** The field checks shared by create and update, followed by the parsing of
    the date: the first failing check decides the message. *)
Definition validate (req : IncomeRequest F) : string + CivilDate :=
  if negb (ValidateRequired (Date req)) then inl "Date is required"
  else if negb (ValidateRequired (MineralType req)) then inl "Mineral type is required"
  else if negb (ValidatePositiveNumber (Quantity req)) then inl "Quantity must be positive"
  else if negb (ValidateRequired (Unit req)) then inl "Unit is required"
  else if negb (ValidatePositiveNumber (PricePerUnit req))
       then inl "Price per unit must be positive"
  else if negb (ValidateRequired (CustomerName req)) then inl "Customer name is required"
  else if negb (ValidateNonNegativeNumber (AmountPaid req))
       then inl "Amount paid cannot be negative"
  else match time_Parse (Date req) with
       | None => inl "Invalid date format. Use YYYY-MM-DD"
       | Some date =>
           if negb (valid_status (PaymentStatus req)) then inl "Invalid payment status"
           else inr date
       end.

(** [totalAmount] and [amountDue] as the handler derives them from the request. *)
Definition request_total (req : IncomeRequest F) : F :=
  if (TotalAmount req =? fzero)%F then (Quantity req * PricePerUnit req)%F
  else TotalAmount req.

Definition request_due (req : IncomeRequest F) : F :=
  match AmountDue req with
  | Some due => due
  | None => (request_total req - AmountPaid req)%F
  end.

Definition GetIncome (db : Table Income) (userID : N) (idStr : string) : response Income :=
  if (userID =? 0)%N then WriteUnauthorizedError "User not authenticated"
  else match ParseUint32 idStr with
       | None => WriteValidationError "Invalid income ID"
       | Some id =>
           match IncomeRepository.GetOne db id userID with
           | Err _ => WriteNotFoundError "Income record not found"
           | Ok income => WriteSuccessResponse "Income record retrieved successfully" income
           end
       end.

Definition CreateIncome (db : Table Income) (now : Time) (userID : N)
  (body : option (IncomeRequest F)) : response Income * Table Income :=
  if (userID =? 0)%N then (WriteUnauthorizedError "User not authenticated", db)
  else match body with
       | None => (WriteValidationError "Invalid request body", db)
       | Some req =>
           match validate req with
           | inl message => (WriteValidationError message, db)
           | inr date =>
               let income : Income :=
                 {| Income.Model := {| ID := 0; CreatedAt := zero_time;
                                       UpdatedAt := zero_time; DeletedAt := None |};
                    Income.Date := date;
                    Income.MineralType := MineralType req;
                    Income.Quantity := Quantity req;
                    Income.Unit := Unit req;
                    Income.PricePerUnit := PricePerUnit req;
                    Income.TotalAmount := request_total req;
                    Income.CustomerName := CustomerName req;
                    Income.CustomerContact := CustomerContact req;
                    Income.PaymentStatus := PaymentStatus req;
                    Income.AmountPaid := AmountPaid req;
                    Income.AmountDue := request_due req;
                    Income.Notes := Notes req;
                    Income.UserID := userID |} in
               let '(income, incomeID, err, db) := IncomeRepository.Insert db now income in
               match err with
               | Some _ => (WriteInternalServerError "Failed to create income record", db)
               | None =>
                   let m := Income.Model income in
                   let income :=
                     Income.with_Model {| ID := incomeID; CreatedAt := CreatedAt m;
                                          UpdatedAt := UpdatedAt m;
                                          DeletedAt := DeletedAt m |} income in
                   (WriteSuccessResponse "Income record created successfully" income, db)
               end
           end
       end.

Definition UpdateIncome (db : Table Income) (now : Time) (userID : N) (idStr : string)
  (body : option (IncomeRequest F)) : response Income * Table Income :=
  if (userID =? 0)%N then (WriteUnauthorizedError "User not authenticated", db)
  else match ParseUint32 idStr with
       | None => (WriteValidationError "Invalid income ID", db)
       | Some id =>
           match body with
           | None => (WriteValidationError "Invalid request body", db)
           | Some req =>
               match IncomeRepository.GetOne db id userID with
               | Err _ => (WriteNotFoundError "Income record not found", db)
               | Ok income =>
                   match validate req with
                   | inl message => (WriteValidationError message, db)
                   | inr date =>
                       let income : Income :=
                         {| Income.Model := Income.Model income;
                            Income.Date := date;
                            Income.MineralType := MineralType req;
                            Income.Quantity := Quantity req;
                            Income.Unit := Unit req;
                            Income.PricePerUnit := PricePerUnit req;
                            Income.TotalAmount := request_total req;
                            Income.CustomerName := CustomerName req;
                            Income.CustomerContact := CustomerContact req;
                            Income.PaymentStatus := PaymentStatus req;
                            Income.AmountPaid := AmountPaid req;
                            Income.AmountDue := request_due req;
                            Income.Notes := Notes req;
                            Income.UserID := Income.UserID income |} in
                       let '(income, err, db) := IncomeRepository.Update db now income in
                       match err with
                       | Some _ =>
                           (WriteInternalServerError "Failed to update income record", db)
                       | None =>
                           (WriteSuccessResponse "Income record updated successfully" income,
                            db)
                       end
                   end
               end
           end
       end.

Definition DeleteIncome (db : Table Income) (now : Time) (userID : N) (idStr : string)
  : response unit * Table Income :=
  if (userID =? 0)%N then (WriteUnauthorizedError "User not authenticated", db)
  else match ParseUint32 idStr with
       | None => (WriteValidationError "Invalid income ID", db)
       | Some id =>
           let '(err, db) := IncomeRepository.Delete db now id userID in
           match err with
           | Some _ => (WriteInternalServerError "Failed to delete income record", db)
           | None => (WriteSuccessResponse "Income record deleted successfully" tt, db)
           end
       end.

(** [startDate] and [endDate] are the query parameters [start_date] and
    [end_date], empty when absent. *)
Definition GetIncomeByDateRange (db : Table Income) (userID : N) (startDate endDate : string)
  : response (list Income) :=
  if (userID =? 0)%N then WriteUnauthorizedError "User not authenticated"
  else if String.eqb startDate "" || String.eqb endDate ""
  then WriteValidationError "Start date and end date are required"
  else match IncomeRepository.GetByDateRange db userID startDate endDate with
       | Err _ => WriteInternalServerError "Failed to retrieve income records"
       | Ok incomes => WriteSuccessResponse "Income records retrieved successfully" incomes
       end.

End Handlers.
End IncomeHandler.

(** ** Expense handlers ([handlers/expense.go]) *)

Module ExpenseHandler.
Import utils.

(** [CreateExpenseRequest] and [UpdateExpenseRequest] have the same fields. *)
Record ExpenseRequest (F : Type) : Type := {
  Date : string;
  Category : string;
  Description : string;
  Amount : F;
  SupplierName : string;
  SupplierContact : string;
  PaymentStatus : string;
  AmountPaid : F;
  Notes : string;
}.
Arguments Date {F} _.
Arguments Category {F} _.
Arguments Description {F} _.
Arguments Amount {F} _.
Arguments SupplierName {F} _.
Arguments SupplierContact {F} _.
Arguments PaymentStatus {F} _.
Arguments AmountPaid {F} _.
Arguments Notes {F} _.

Section Handlers.
Context {F : Type} `{Float64 F} `{Postgres F}.
Abbreviation Expense := (Expense.t F).

Definition valid_category (category : string) : bool :=
  String.eqb category ExpenseEquipment || String.eqb category ExpenseLabor
  || String.eqb category ExpenseChemicals || String.eqb category ExpenseFuel
  || String.eqb category ExpenseMaintenance || String.eqb category ExpenseTransport
  || String.eqb category ExpenseOther.

Definition valid_status (paymentStatus : string) : bool :=
  String.eqb paymentStatus PaymentPaid || String.eqb paymentStatus PaymentUnpaid
  || String.eqb paymentStatus PaymentPartial.

Definition validate (req : ExpenseRequest F) : string + CivilDate :=
  if negb (ValidateRequired (Date req)) then inl "Date is required"
  else if negb (ValidateRequired (Category req)) then inl "Category is required"
  else if negb (ValidateRequired (Description req)) then inl "Description is required"
  else if negb (ValidatePositiveNumber (Amount req)) then inl "Amount must be positive"
  else if negb (ValidateRequired (SupplierName req)) then inl "Supplier name is required"
  else if negb (ValidateNonNegativeNumber (AmountPaid req))
       then inl "Amount paid cannot be negative"
  else match time_Parse (Date req) with
       | None => inl "Invalid date format. Use YYYY-MM-DD"
       | Some date =>
           if negb (valid_category (Category req)) then inl "Invalid expense category"
           else if negb (valid_status (PaymentStatus req)) then inl "Invalid payment status"
           else inr date
       end.

(** A string field of the request as the nullable column it is stored in. *)
Definition nullable (s : string) : option string :=
  if String.eqb s "" then None else Some s.

Definition GetExpense (db : Table Expense) (userID : N) (idStr : string) : response Expense :=
  if (userID =? 0)%N then WriteUnauthorizedError "User not authenticated"
  else match ParseUint32 idStr with
       | None => WriteValidationError "Invalid expense ID"
       | Some id =>
           match ExpenseRepository.GetOne db id userID with
           | Err _ => WriteNotFoundError "Expense record not found"
           | Ok expense => WriteSuccessResponse "Expense record retrieved successfully" expense
           end
       end.

Definition CreateExpense (db : Table Expense) (now : Time) (userID : N)
  (body : option (ExpenseRequest F)) : response Expense * Table Expense :=
  if (userID =? 0)%N then (WriteUnauthorizedError "User not authenticated", db)
  else match body with
       | None => (WriteValidationError "Invalid request body", db)
       | Some req =>
           match validate req with
           | inl message => (WriteValidationError message, db)
           | inr date =>
               let expense : Expense :=
                 {| Expense.Model := {| ID := 0; CreatedAt := zero_time;
                                        UpdatedAt := zero_time; DeletedAt := None |};
                    Expense.Date := date;
                    Expense.Category := Category req;
                    Expense.Description := Description req;
                    Expense.Amount := Amount req;
                    Expense.SupplierName := SupplierName req;
                    Expense.SupplierContact := nullable (SupplierContact req);
                    Expense.PaymentStatus := PaymentStatus req;
                    Expense.AmountPaid := AmountPaid req;
                    Expense.AmountDue := fzero;
                    Expense.Notes := nullable (Notes req);
                    Expense.UserID := userID |} in
               let '(expense, expenseID, err, db) :=
                 ExpenseRepository.Insert db now expense in
               match err with
               | Some _ => (WriteInternalServerError "Failed to create expense record", db)
               | None =>
                   let m := Expense.Model expense in
                   let expense :=
                     Expense.with_Model {| ID := expenseID; CreatedAt := CreatedAt m;
                                           UpdatedAt := UpdatedAt m;
                                           DeletedAt := DeletedAt m |} expense in
                   (WriteSuccessResponse "Expense record created successfully" expense, db)
               end
           end
       end.

Definition UpdateExpense (db : Table Expense) (now : Time) (userID : N) (idStr : string)
  (body : option (ExpenseRequest F)) : response Expense * Table Expense :=
  if (userID =? 0)%N then (WriteUnauthorizedError "User not authenticated", db)
  else match ParseUint32 idStr with
       | None => (WriteValidationError "Invalid expense ID", db)
       | Some id =>
           match body with
           | None => (WriteValidationError "Invalid request body", db)
           | Some req =>
               match ExpenseRepository.GetOne db id userID with
               | Err _ => (WriteNotFoundError "Expense record not found", db)
               | Ok expense =>
                   match validate req with
                   | inl message => (WriteValidationError message, db)
                   | inr date =>
                       let amountDue := (Amount req - AmountPaid req)%F in
                       let expense : Expense :=
                         {| Expense.Model := Expense.Model expense;
                            Expense.Date := date;
                            Expense.Category := Category req;
                            Expense.Description := Description req;
                            Expense.Amount := Amount req;
                            Expense.SupplierName := SupplierName req;
                            Expense.SupplierContact := nullable (SupplierContact req);
                            Expense.PaymentStatus := PaymentStatus req;
                            Expense.AmountPaid := AmountPaid req;
                            Expense.AmountDue := amountDue;
                            Expense.Notes := nullable (Notes req);
                            Expense.UserID := Expense.UserID expense |} in
                       let '(expense, err, db) :=
                         ExpenseRepository.Update db now expense in
                       match err with
                       | Some _ =>
                           (WriteInternalServerError "Failed to update expense record", db)
                       | None =>
                           (WriteSuccessResponse "Expense record updated successfully" expense,
                            db)
                       end
                   end
               end
           end
       end.

Definition DeleteExpense (db : Table Expense) (now : Time) (userID : N) (idStr : string)
  : response unit * Table Expense :=
  if (userID =? 0)%N then (WriteUnauthorizedError "User not authenticated", db)
  else match ParseUint32 idStr with
       | None => (WriteValidationError "Invalid expense ID", db)
       | Some id =>
           let '(err, db) := ExpenseRepository.Delete db now id userID in
           match err with
           | Some _ => (WriteInternalServerError "Failed to delete expense record", db)
           | None => (WriteSuccessResponse "Expense record deleted successfully" tt, db)
           end
       end.

Definition GetExpenseByDateRange (db : Table Expense) (userID : N)
  (startDate endDate : string) : response (list Expense) :=
  if (userID =? 0)%N then WriteUnauthorizedError "User not authenticated"
  else if String.eqb startDate "" || String.eqb endDate ""
  then WriteValidationError "Start date and end date are required"
  else match ExpenseRepository.GetByDateRange db userID startDate endDate with
       | Err _ => WriteInternalServerError "Failed to retrieve expense records"
       | Ok expenses => WriteSuccessResponse "Expense records retrieved successfully" expenses
       end.

End Handlers.
End ExpenseHandler.

(** ** Analytics handler ([handlers/analytics.go]) *)

Module AnalyticsHandler.
Import utils.
Section Handlers.
Context {F : Type} `{Float64 F} `{Postgres F}.
Abbreviation MonthlyData := (MonthlyData.t F).

Definition with_Income (x : F) (d : MonthlyData) : MonthlyData :=
  {| MonthlyData.Month := MonthlyData.Month d; MonthlyData.Income := x;
     MonthlyData.Expenses := MonthlyData.Expenses d;
     MonthlyData.Profit := MonthlyData.Profit d |}.

Definition with_Expenses (x : F) (d : MonthlyData) : MonthlyData :=
  {| MonthlyData.Month := MonthlyData.Month d; MonthlyData.Income := MonthlyData.Income d;
     MonthlyData.Expenses := x; MonthlyData.Profit := MonthlyData.Profit d |}.

Definition with_Profit (x : F) (d : MonthlyData) : MonthlyData :=
  {| MonthlyData.Month := MonthlyData.Month d; MonthlyData.Income := MonthlyData.Income d;
     MonthlyData.Expenses := MonthlyData.Expenses d; MonthlyData.Profit := x |}.

(** [&data.MonthlyData{Month: month}] *)
Definition new_entry (month_ : string) : MonthlyData :=
  {| MonthlyData.Month := month_; MonthlyData.Income := fzero;
     MonthlyData.Expenses := fzero; MonthlyData.Profit := fzero |}.

(** [if monthlyData[k] == nil { monthlyData[k] = &MonthlyData{Month: k} }]
    followed by an assignment to a field of [monthlyData[k]]. *)
Definition upsert (k : string) (assign : MonthlyData → MonthlyData)
  (monthlyData : gmap string MonthlyData) : gmap string MonthlyData :=
  <[k := assign (default (new_entry k) (monthlyData !! k))]> monthlyData.

(** The first loop. *)
Definition add_income (monthlyData : gmap string MonthlyData) (incomeData : list MonthlyData)
  : gmap string MonthlyData :=
  fold_left (λ acc item, upsert (MonthlyData.Month item)
                                (with_Income (MonthlyData.Income item)) acc)
            incomeData monthlyData.

(** The second loop. *)
Definition add_expenses (monthlyData : gmap string MonthlyData)
  (expenseData : list MonthlyData) : gmap string MonthlyData :=
  fold_left (λ acc item, upsert (MonthlyData.Month item)
                                (with_Expenses (MonthlyData.Expenses item)) acc)
            expenseData monthlyData.

(** The body of the third loop, on one entry. *)
Definition set_profit (data : MonthlyData) : MonthlyData :=
  with_Profit (MonthlyData.Income data - MonthlyData.Expenses data)%F data.

(** The map when the third loop has run. *)
Definition combine (incomeData expenseData : list MonthlyData) : gmap string MonthlyData :=
  set_profit <$> add_expenses (add_income ∅ incomeData) expenseData.

(** [for _, data := range monthlyData { ...; result = append(result, data) }]:
    the language leaves the order in which a map is ranged over open, so
    [result] is any arrangement of the entries. *)
Definition ranges_over (monthlyData : gmap string MonthlyData) (result : list MonthlyData)
  : Prop :=
  Permutation result (map snd (map_to_list monthlyData)).

(** The year asked for: the current one when the parameter is absent. *)
Definition requested_year (yearStr : string) (current_year : Z) : option Z :=
  if String.eqb yearStr "" then Some current_year
  else match Atoi yearStr with
       | None => None
       | Some y => if ((y <? 2000) || (3000 <? y))%Z then None else Some y
       end.

(** [GetMonthlyData]: the responses the handler may write. *)
Definition GetMonthlyData (incomes : Table (Income.t F)) (expenses : Table (Expense.t F))
  (userID : N) (yearStr : string) (current_year : Z) (resp : response (list MonthlyData))
  : Prop :=
  if (userID =? 0)%N then resp = WriteUnauthorizedError "User not authenticated"
  else match requested_year yearStr current_year with
       | None => resp = WriteValidationError "Invalid year"
       | Some year_ =>
           match IncomeRepository.GetMonthlyData incomes userID year_ with
           | Err _ => resp = WriteInternalServerError "Failed to retrieve monthly income data"
           | Ok incomeData =>
               match ExpenseRepository.GetMonthlyData expenses userID year_ with
               | Err _ =>
                   resp = WriteInternalServerError "Failed to retrieve monthly expense data"
               | Ok expenseData =>
                   ∃ result, ranges_over (combine incomeData expenseData) result
                             ∧ resp = WriteSuccessResponse
                                        "Monthly data retrieved successfully" result
               end
           end
       end.

(** [GetFinancialSummary] *)
Definition GetFinancialSummary (incomes : Table (Income.t F)) (expenses : Table (Expense.t F))
  (userID : N) : response (FinancialSummary.t F) :=
  if (userID =? 0)%N then WriteUnauthorizedError "User not authenticated"
  else match IncomeRepository.GetFinancialSummary incomes userID with
       | Err _ => WriteInternalServerError "Failed to retrieve income summary"
       | Ok incomeSummary =>
           match ExpenseRepository.GetFinancialSummary expenses userID with
           | Err _ => WriteInternalServerError "Failed to retrieve expense summary"
           | Ok expenseSummary =>
               let netProfit := (FinancialSummary.TotalIncome incomeSummary
                                 - FinancialSummary.TotalExpenses expenseSummary)%F in
               let profitMargin :=
                 if (FinancialSummary.TotalIncome incomeSummary >? fzero)%F
                 then ((netProfit / FinancialSummary.TotalIncome incomeSummary) * f100)%F
                 else fzero in
               WriteSuccessResponse "Financial summary retrieved successfully"
                 {| FinancialSummary.TotalIncome := FinancialSummary.TotalIncome incomeSummary;
                    FinancialSummary.TotalExpenses :=
                      FinancialSummary.TotalExpenses expenseSummary;
                    FinancialSummary.NetProfit := netProfit;
                    FinancialSummary.TotalReceivables :=
                      FinancialSummary.TotalReceivables incomeSummary;
                    FinancialSummary.TotalPayables :=
                      FinancialSummary.TotalReceivables expenseSummary;
                    FinancialSummary.ProfitMargin := profitMargin |}
           end
       end.

End Handlers.
End AnalyticsHandler.

(** ** Profile update ([handlers/auth.go]) *)

Module AuthHandler.
Import utils.
Section Handlers.
Context `{Bcrypt}.

Record ProfileRequest : Type := {
  Name : string;
  Phone : option string;
  Location : option string;
}.

Record Profile : Type := {
  id : N;
  email : string;
  name : string;
  phone : option string;
  location : option string;
  role : string;
}.

Definition UpdateProfile (db : Table User.t) (now : Time) (userID : N)
  (body : option ProfileRequest) : response Profile * Table User.t :=
  if (userID =? 0)%N then (WriteUnauthorizedError "User not authenticated", db)
  else match body with
       | None => (WriteValidationError "Invalid request body", db)
       | Some req =>
           if negb (ValidateRequired (Name req))
           then (WriteValidationError "Name is required", db)
           else if match Phone req with
                   | Some p => negb (String.eqb p "") && negb (ValidatePhone p)
                   | None => false
                   end
           then (WriteValidationError "Invalid phone number format", db)
           else match UserRepository.GetOne db userID with
                | Err _ => (WriteNotFoundError "User not found", db)
                | Ok user =>
                    let user := User.with_profile (Name req) (Phone req) (Location req) user in
                    let '(user, err, db) := UserRepository.Update db now user in
                    match err with
                    | Some _ => (WriteInternalServerError "Failed to update profile", db)
                    | None =>
                        (WriteSuccessResponse "Profile updated successfully"
                           {| id := id_of user; email := User.Email user;
                              name := User.Name user; phone := User.Phone user;
                              location := User.Location user; role := User.Role user |},
                         db)
                    end
                end
       end.

Context {signer : Jwt}.

Record LoginRequest : Type := {
  login_Email : string;
  login_Password : string;
}.

Record SignupRequest : Type := {
  signup_Email : string;
  signup_Name : string;
  signup_Phone : string;
  signup_Password : string;
  signup_AdminCode : string;
}.

Record ResetPasswordRequest : Type := {
  reset_Email : string;
  reset_OTP : string;
  reset_NewPassword : string;
}.

(** The [user] object of the login and signup responses. *)
Record UserInfo : Type := {
  info_id : N;
  info_email : string;
  info_name : string;
  info_phone : option string;
  info_role : string;
}.

Record Session : Type := {
  token : string;
  user : UserInfo;
}.

(** [now] is the time at which the token is generated. *)
Definition Login (db : Table User.t) (now : Time) (body : option LoginRequest)
  : response Session :=
  match body with
  | None => WriteValidationError "Invalid request body"
  | Some req =>
      if negb (ValidateEmail (login_Email req))
      then WriteValidationError "Invalid email format"
      else if negb (ValidatePassword (login_Password req))
      then WriteValidationError "Password must be at least 6 characters"
      else match UserRepository.GetByEmail db (login_Email req) with
           | Err _ => WriteUnauthorizedError "Invalid email or password"
           | Ok user =>
               match UserRepository.PasswordMatches user (login_Password req) with
               | (_, Some _) | (false, None) =>
                   WriteUnauthorizedError "Invalid email or password"
               | (true, None) =>
                   match GenerateToken now (decimal_id (id_of user)) (User.Email user)
                                       (User.Role user) with
                   | Err _ => WriteInternalServerError "Failed to generate token"
                   | Ok token =>
                       WriteSuccessResponse "Login successful"
                         {| token := token;
                            user := {| info_id := id_of user;
                                       info_email := User.Email user;
                                       info_name := User.Name user;
                                       info_phone := User.Phone user;
                                       info_role := User.Role user |} |}
                   end
               end
           end
  end.

(** [body] is the request as decoded from JSON or read from the form fields
    (the form has no admin code); [None] when the JSON body cannot be
    decoded.  A form that cannot be parsed is answered 400 "Invalid form
    data" in the same way and is left out. *)
Definition Signup (db : Table User.t) (now : Time) (body : option SignupRequest)
  : response Session * Table User.t :=
  match body with
  | None => (WriteValidationError "Invalid request body", db)
  | Some req =>
      if negb (ValidateEmail (signup_Email req))
      then (WriteValidationError "Invalid email format", db)
      else if negb (ValidateRequired (signup_Name req))
      then (WriteValidationError "Name is required", db)
      else if negb (ValidatePassword (signup_Password req))
      then (WriteValidationError "Password must be at least 6 characters", db)
      else if negb (String.eqb (signup_Phone req) "") && negb (ValidatePhone (signup_Phone req))
      then (WriteValidationError "Invalid phone number format", db)
      else match UserRepository.GetByEmail db (signup_Email req) with
           | Ok _ => (WriteValidationError "Email already registered", db)
           | Err _ =>
               if negb (String.eqb (signup_AdminCode req) "")
                  && negb (String.eqb (signup_AdminCode req) "MINING2025ADMIN")
               then (WriteValidationError "Invalid admin code", db)
               else
                 let role := if String.eqb (signup_AdminCode req) "" then RoleStandard
                             else RoleAdmin in
                 let user : User.t :=
                   {| User.Model := {| ID := 0; CreatedAt := zero_time;
                                       UpdatedAt := zero_time; DeletedAt := None |};
                      User.Email := signup_Email req;
                      User.Name := signup_Name req;
                      User.Phone := if String.eqb (signup_Phone req) "" then None
                                    else Some (signup_Phone req);
                      User.Location := None;
                      User.Password := signup_Password req;
                      User.Role := role;
                      User.OTPCode := "";
                      User.OTPExpiresAt := None |} in
                 let '(user, userID, err, db) := UserRepository.Insert db now user in
                 match err with
                 | Some _ => (WriteInternalServerError "Failed to create user", db)
                 | None =>
                     match GenerateToken now (decimal_id userID) (User.Email user)
                                         (User.Role user) with
                     | Err _ => (WriteInternalServerError "Failed to generate token", db)
                     | Ok token =>
                         (WriteSuccessResponse "User created successfully"
                            {| token := token;
                               user := {| info_id := userID;
                                          info_email := User.Email user;
                                          info_name := User.Name user;
                                          info_phone := User.Phone user;
                                          info_role := User.Role user |} |},
                          db)
                     end
                 end
           end
  end.

(** [body] is the decoded email; [draw] is what the random source gives
    should a code be generated. *)
Definition ForgotPassword (db : Table User.t) (now : Time) (draw : result N)
  (body : option string) : response unit * Table User.t :=
  match body with
  | None => (WriteValidationError "Invalid request body", db)
  | Some email =>
      if negb (ValidateEmail email) then (WriteValidationError "Invalid email format", db)
      else match UserRepository.GetByEmail db email with
           | Err _ =>
               (WriteSuccessResponse "If the email exists, an OTP has been sent" tt, db)
           | Ok _ =>
               match UserRepository.GenerateAndSaveOTP db now draw email with
               | (Err _, db) => (WriteInternalServerError "Failed to generate OTP", db)
               | (Ok _, db) =>
                   (WriteSuccessResponse "If the email exists, an OTP has been sent" tt, db)
               end
           end
  end.

Definition ResetPassword (db : Table User.t) (now : Time)
  (body : option ResetPasswordRequest) : response unit * Table User.t :=
  match body with
  | None => (WriteValidationError "Invalid request body", db)
  | Some req =>
      if negb (ValidateEmail (reset_Email req))
      then (WriteValidationError "Invalid email format", db)
      else if negb (ValidateRequired (reset_OTP req))
      then (WriteValidationError "OTP is required", db)
      else if negb (ValidatePassword (reset_NewPassword req))
      then (WriteValidationError "Password must be at least 6 characters", db)
      else match UserRepository.ResetPasswordWithOTP db now (reset_Email req)
                   (reset_OTP req) (reset_NewPassword req) with
           | (Some _, db) => (WriteValidationError "Invalid or expired OTP", db)
           | (None, db) => (WriteSuccessResponse "Password reset successfully" tt, db)
           end
  end.

End Handlers.
End AuthHandler.

(** ** Inventory handlers (the inventory part of [handlers/auth.go]) *)

Module InventoryHandler.
Import utils.

(** [CreateInventoryRequest] and [UpdateInventoryRequest] have the same
    fields. *)
Record InventoryRequest (F : Type) : Type := {
  Name : string;
  Type_ : string;
  Quantity : F;
  Unit : string;
  MinStockLevel : F;
  CurrentValue : F;
}.
Arguments Name {F} _.
Arguments Type_ {F} _.
Arguments Quantity {F} _.
Arguments Unit {F} _.
Arguments MinStockLevel {F} _.
Arguments CurrentValue {F} _.

Section Handlers.
Context {F : Type} `{Float64 F}.
Abbreviation InventoryItem := (InventoryItem.t F).

Definition validate (req : InventoryRequest F) : option string :=
  if negb (ValidateRequired (Name req)) then Some "Name is required"
  else if negb (ValidateRequired (Type_ req)) then Some "Type is required"
  else if negb (String.eqb (Type_ req) "mineral") && negb (String.eqb (Type_ req) "supply")
       then Some "Type must be either 'mineral' or 'supply'"
  else if negb (ValidateNonNegativeNumber (Quantity req))
       then Some "Quantity cannot be negative"
  else if negb (ValidateRequired (Unit req)) then Some "Unit is required"
  else if negb (ValidateNonNegativeNumber (MinStockLevel req))
       then Some "Minimum stock level cannot be negative"
  else if negb (ValidateNonNegativeNumber (CurrentValue req))
       then Some "Current value cannot be negative"
  else None.




Definition DeleteInventoryItem (db : Table InventoryItem) (now : Time) (userID : N)
  (idStr : string) : response unit * Table InventoryItem :=
  if (userID =? 0)%N then (WriteUnauthorizedError "User not authenticated", db)
  else match ParseUint32 idStr with
       | None => (WriteValidationError "Invalid inventory item ID", db)
       | Some id =>
           let '(err, db) := InventoryRepository.Delete db now id userID in
           match err with
           | Some _ => (WriteInternalServerError "Failed to delete inventory item", db)
           | None => (WriteSuccessResponse "Inventory item deleted successfully" tt, db)
           end
       end.

(** [body] is the decoded quantity. *)
Definition UpdateQuantity (db : Table InventoryItem) (now : Time) (userID : N)
  (idStr : string) (body : option F) : response InventoryItem * Table InventoryItem :=
  if (userID =? 0)%N then (WriteUnauthorizedError "User not authenticated", db)
  else match ParseUint32 idStr with
       | None => (WriteValidationError "Invalid inventory item ID", db)
       | Some id =>
           match body with
           | None => (WriteValidationError "Invalid request body", db)
           | Some quantity =>
               if negb (ValidateNonNegativeNumber quantity)
               then (WriteValidationError "Quantity cannot be negative", db)
               else
                 let '(err, db) :=
                   InventoryRepository.UpdateQuantity db now id userID quantity in
                 match err with
                 | Some _ => (WriteInternalServerError "Failed to update quantity", db)
                 | None =>
                     match InventoryRepository.GetOne db id userID with
                     | Err _ =>
                         (WriteInternalServerError "Failed to retrieve updated item", db)
                     | Ok item =>
                         (WriteSuccessResponse "Quantity updated successfully" item, db)
                     end
                 end
           end
       end.

End Handlers.
End InventoryHandler.

(** ** Sample data

    A small store on which the operations are run: user 1 with one sale of
    gold and one purchase of fuel, and stand-ins for bcrypt, for the token
    signer and for PostgreSQL with the same interfaces (they only serve to
    run the repositories and the handlers on examples). *)

Module Examples.

(** The stand-in for the store: sums of double precision that fail when the
    running sum leaves the range, text in the order of its bytes, bounds
    read when they are dates written [YYYY-MM-DD], taken at midnight UTC, and
    a session in the UTC time zone. *)
Definition float8_pl (a b : float) : result float :=
  let s := (a + b)%float in
  if PrimFloat.is_infinity s && negb (PrimFloat.is_infinity a)
     && negb (PrimFloat.is_infinity b)
  then Err (Errorf "value out of range: overflow")
  else Ok s.

Definition float8_sum (l : list float) : result float :=
  match l with
  | [] => Ok 0%float
  | x :: l' =>
      fold_left (λ acc y, match acc with
                          | Ok a => float8_pl a y
                          | Err e => Err e
                          end) l' (Ok x)
  end.

Definition iso_date_in (s : string) : result Timestamp :=
  match time_Parse s with
  | Some d => Ok (Instant (midnight_utc d))
  | None => Err (Errorf "invalid input syntax for type timestamp with time zone")
  end.

#[global] Instance example_store : Postgres float := {|
  SUM := float8_sum;
  text_leb := String.leb;
  timestamptz_in := iso_date_in;
  to_char_YYYY_MM := utc_YYYY_MM;
  extract_year := utc_year;
|}.

(** The stand-in for the token signer: the token spells out the claims. *)
Definition example_jwt : utils.Jwt := {|
  utils.SignedString claims :=
    Ok (utils.Claims.UserID claims ++ ":" ++ utils.Claims.Email claims ++ ":"
        ++ utils.Claims.Role claims ++ ":"
        ++ decimal_id (Z.to_N (utils.Claims.IssuedAt claims)) ++ ":"
        ++ decimal_id (Z.to_N (utils.Claims.ExpiresAt claims)));
|}.

Definition example_bcrypt : Bcrypt := {|
  GenerateFromPassword password :=
    if (72 <? String.length password)%nat then Err ErrBcrypt
    else Ok ("$2a$10$" ++ password);
  CompareHashAndPassword hash password := String.eqb hash ("$2a$10$" ++ password);
|}.

(** The hash stored for Alice, as a signup left it. *)
Definition alice_hash : string := "$2a$10$N9qo8uLOickgx2ZMRZoMye".

Definition alice : User.t := {|
  User.Model := {| ID := 1; CreatedAt := 1000; UpdatedAt := 1000; DeletedAt := None |};
  User.Email := "alice@mine.io";
  User.Name := "Alice";
  User.Phone := None;
  User.Location := None;
  User.Password := alice_hash;
  User.Role := RoleStandard;
  User.OTPCode := "";
  User.OTPExpiresAt := None;
|}.

Definition bob : User.t := {|
  User.Model := {| ID := 2; CreatedAt := 1000; UpdatedAt := 1000; DeletedAt := None |};
  User.Email := "bob@mine.io";
  User.Name := "Bob";
  User.Phone := None;
  User.Location := None;
  User.Password := "$2a$10$7EqJtq98hPqEX7fNZaFWoO";
  User.Role := RoleStandard;
  User.OTPCode := "";
  User.OTPExpiresAt := None;
|}.

Definition users : Table User.t := {| rows := [alice; bob]; last_id := 2 |}.

(** The users when Bob has asked for a code and holds "123456" until
    [1000 + 10 min]. *)
Definition users_bob_pending : Table User.t := {|
  rows := [alice; User.with_OTP "123456" (Some (1000 + 10 * Minute)%Z) bob];
  last_id := 2;
|}.

Definition rename_request : AuthHandler.ProfileRequest := {|
  AuthHandler.Name := "Alice M.";
  AuthHandler.Phone := None;
  AuthHandler.Location := Some "Kolwezi";
|}.

Definition gold_sale : Income.t float := {|
  Income.Model := {| ID := 1; CreatedAt := 1000; UpdatedAt := 1000; DeletedAt := None |};
  Income.Date := {| year := 2025; month := 1; day := 10 |};
  Income.MineralType := "gold";
  Income.Quantity := 10%float;
  Income.Unit := "g";
  Income.PricePerUnit := 50%float;
  Income.TotalAmount := 500%float;
  Income.CustomerName := "Acme";
  Income.CustomerContact := "";
  Income.PaymentStatus := PaymentPartial;
  Income.AmountPaid := 300%float;
  Income.AmountDue := 200%float;
  Income.Notes := None;
  Income.UserID := 1;
|}.

Definition incomes : Table (Income.t float) := {| rows := [gold_sale]; last_id := 1 |}.

Definition fuel_purchase : Expense.t float := {|
  Expense.Model := {| ID := 1; CreatedAt := 1000; UpdatedAt := 1000; DeletedAt := None |};
  Expense.Date := {| year := 2025; month := 1; day := 15 |};
  Expense.Category := ExpenseFuel;
  Expense.Description := "diesel";
  Expense.Amount := 120%float;
  Expense.SupplierName := "Depot";
  Expense.SupplierContact := None;
  Expense.PaymentStatus := PaymentPartial;
  Expense.AmountPaid := 20%float;
  Expense.AmountDue := 100%float;
  Expense.Notes := None;
  Expense.UserID := 1;
|}.

Definition expenses : Table (Expense.t float) := {| rows := [fuel_purchase]; last_id := 1 |}.

(** A second sale as a caller hands it to [Insert], with a total and an amount
    due that do not fit its quantity, price and amount paid. *)
Definition new_sale : Income.t float := {|
  Income.Model := {| ID := 0; CreatedAt := 0; UpdatedAt := 0; DeletedAt := None |};
  Income.Date := {| year := 2025; month := 2; day := 3 |};
  Income.MineralType := "copper";
  Income.Quantity := 8%float;
  Income.Unit := "kg";
  Income.PricePerUnit := 3%float;
  Income.TotalAmount := 9999%float;
  Income.CustomerName := "Smelter";
  Income.CustomerContact := "";
  Income.PaymentStatus := PaymentPartial;
  Income.AmountPaid := 20%float;
  Income.AmountDue := 1%float;
  Income.Notes := None;
  Income.UserID := 1;
|}.




(** A purchase of user 1 in January 2025. *)
Definition purchase {F} `{Float64 F} (id : N) (category : string) (amount paid : F)
  : Expense.t F := {|
  Expense.Model := {| ID := id; CreatedAt := 1000; UpdatedAt := 1000; DeletedAt := None |};
  Expense.Date := {| year := 2025; month := 1; day := 20 |};
  Expense.Category := category;
  Expense.Description := "";
  Expense.Amount := amount;
  Expense.SupplierName := "Depot";
  Expense.SupplierContact := None;
  Expense.PaymentStatus := PaymentPartial;
  Expense.AmountPaid := paid;
  Expense.AmountDue := (amount - paid)%F;
  Expense.Notes := None;
  Expense.UserID := 1;
|}.

(** Two purchases of fuel and one of labor. *)
Definition three_purchases : Table (Expense.t float) := {|
  rows := [purchase 1 ExpenseFuel 70%float 0%float;
           purchase 2 ExpenseLabor 80%float 80%float;
           purchase 3 ExpenseFuel 50%float 10%float];
  last_id := 3;
|}.

(** An inventory: three live items of user 1 (one at its threshold, one
    below, one above), a deleted item of user 1 and an item of user 2. *)
Definition stock (id : N) (name : string) (quantity minimum : float)
  (deleted : option Time) (userID : N) : InventoryItem.t float := {|
  InventoryItem.Model := {| ID := id; CreatedAt := 1000; UpdatedAt := 1000;
                            DeletedAt := deleted |};
  InventoryItem.Name := name;
  InventoryItem.Type_ := "supply";
  InventoryItem.Quantity := quantity;
  InventoryItem.Unit := "pcs";
  InventoryItem.MinStockLevel := minimum;
  InventoryItem.CurrentValue := 0%float;
  InventoryItem.LastUpdated := 1000;
  InventoryItem.UserID := userID;
|}.

Definition inventory : Table (InventoryItem.t float) := {|
  rows := [stock 1 "drill bits" 5%float 5%float None 1;
           stock 2 "ore" 50%float 10%float None 1;
           stock 3 "cyanide" 2%float 10%float None 1;
           stock 4 "rope" 0%float 10%float (Some 1500%Z) 1;
           stock 5 "diesel" 1%float 10%float None 2];
  last_id := 5;
|}.

(** Monthly series as the two repositories return them. *)
Definition month_of_income (k : string) (x : float) : MonthlyData.t float :=
  {| MonthlyData.Month := k; MonthlyData.Income := x;
     MonthlyData.Expenses := 0%float; MonthlyData.Profit := 0%float |}.

Definition month_of_expenses (k : string) (x : float) : MonthlyData.t float :=
  {| MonthlyData.Month := k; MonthlyData.Income := 0%float;
     MonthlyData.Expenses := x; MonthlyData.Profit := 0%float |}.

Definition income_series : list (MonthlyData.t float) :=
  [month_of_income "2025-01" 500%float; month_of_income "2025-03" 70%float].

Definition expense_series : list (MonthlyData.t float) :=
  [month_of_expenses "2025-01" 120%float; month_of_expenses "2025-02" 30%float].

(** An arrangement of the merged months that is not chronological. *)
Definition merged_months : list (MonthlyData.t float) :=
  [{| MonthlyData.Month := "2025-03"; MonthlyData.Income := 70%float;
      MonthlyData.Expenses := 0%float; MonthlyData.Profit := 70%float |};
   {| MonthlyData.Month := "2025-01"; MonthlyData.Income := 500%float;
      MonthlyData.Expenses := 120%float; MonthlyData.Profit := 380%float |};
   {| MonthlyData.Month := "2025-02"; MonthlyData.Income := 0%float;
      MonthlyData.Expenses := 30%float; MonthlyData.Profit := (-30)%float |}].

Definition income_request : IncomeHandler.IncomeRequest float := {|
  IncomeHandler.Date := "2025-01-10";
  IncomeHandler.MineralType := "gold";
  IncomeHandler.Quantity := 10%float;
  IncomeHandler.Unit := "g";
  IncomeHandler.PricePerUnit := 50%float;
  IncomeHandler.TotalAmount := 0%float;
  IncomeHandler.CustomerName := "Acme";
  IncomeHandler.CustomerContact := "";
  IncomeHandler.PaymentStatus := PaymentPaid;
  IncomeHandler.AmountPaid := 500%float;
  IncomeHandler.AmountDue := None;
  IncomeHandler.Notes := None;
|}.


Definition expense_request : ExpenseHandler.ExpenseRequest float := {|
  ExpenseHandler.Date := "2025-01-15";
  ExpenseHandler.Category := ExpenseFuel;
  ExpenseHandler.Description := "diesel";
  ExpenseHandler.Amount := 120%float;
  ExpenseHandler.SupplierName := "Depot";
  ExpenseHandler.SupplierContact := "";
  ExpenseHandler.PaymentStatus := PaymentPaid;
  ExpenseHandler.AmountPaid := 120%float;
  ExpenseHandler.Notes := "";
|}.

(** A registration. *)
Definition carol_signup : AuthHandler.SignupRequest := {|
  AuthHandler.signup_Email := "carol@mine.io";
  AuthHandler.signup_Name := "Carol";
  AuthHandler.signup_Phone := "+243811234567";
  AuthHandler.signup_Password := "copper-belt";
  AuthHandler.signup_AdminCode := "";
|}.

(** The users after Bob's account was soft-deleted, and a registration with
    his email. *)
Definition users_without_bob : Table User.t :=
  Gorm.Delete (λ u, (id_of u =? 2)%N) 2000 users.

Definition bob_again : AuthHandler.SignupRequest := {|
  AuthHandler.signup_Email := "bob@mine.io";
  AuthHandler.signup_Name := "Bob";
  AuthHandler.signup_Phone := "";
  AuthHandler.signup_Password := "open-pit-2";
  AuthHandler.signup_AdminCode := "";
|}.

End Examples.

(** ** Vocabulary of the properties *)

(** A row type stores its [gorm.Model] faithfully, and the column defaults do
    not concern it. *)
Class SchemaLaws (R : Type) `{Schema R} : Prop := {
  model_with_model : ∀ m (r : R), model (with_model m r) = m;
  model_column_defaults : ∀ r : R, model (column_defaults r) = model r;
  with_model_twice : ∀ m m' (r : R), with_model m (with_model m' r) = with_model m r;
}.

(** What the proofs use of the comparisons: a value equal to zero is not
    greater than zero, and the store's order is total and transitive. *)
Class Float64Laws (F : Type) `{Float64 F} : Prop := {
  zero_not_positive : ∀ x : F, (x =? fzero)%F = true → (x >? fzero)%F = false;
  sql_leb_total : ∀ x y : F, sql_leb x y = true ∨ sql_leb y x = true;
  sql_leb_trans : ∀ x y z : F, sql_leb x y = true → sql_leb y z = true → sql_leb x z = true;
}.

(** What the proofs use of the collation: its order is total and
    transitive. *)
Class PostgresLaws (F : Type) `{Postgres F} : Prop := {
  text_leb_total : ∀ a b : string, text_leb a b = true ∨ text_leb b a = true;
  text_leb_trans : ∀ a b c : string,
    text_leb a b = true → text_leb b c = true → text_leb a c = true;
}.

Definition sf_is_nan (s : spec_float) : bool :=
  match s with S754_nan => true | _ => false end.

(** The table without its soft-deleted rows. *)
Definition live_part {R} `{Schema R} (t : Table R) : Table R :=
  {| rows := filter (λ r, is_live r) (rows t); last_id := last_id t |}.

Section Vocabulary.
Context {F : Type} `{Float64 F}.
Abbreviation MonthlyData := (MonthlyData.t F).

(** The two equations of an income record. *)
Definition income_amounts_consistent (s : Income.t F) : Prop :=
  Income.TotalAmount s = (Income.Quantity s * Income.PricePerUnit s)%F
  ∧ Income.AmountDue s = (Income.TotalAmount s - Income.AmountPaid s)%F.

(** The equation of an expense record. *)
Definition expense_amounts_consistent (s : Expense.t F) : Prop :=
  Expense.AmountDue s = (Expense.Amount s - Expense.AmountPaid s)%F.

(** The fields the caller supplies and the repository does not derive. *)
Definition same_income_inputs (s income : Income.t F) : Prop :=
  Income.Quantity s = Income.Quantity income
  ∧ Income.PricePerUnit s = Income.PricePerUnit income
  ∧ Income.AmountPaid s = Income.AmountPaid income.

Definition same_expense_inputs (s expense : Expense.t F) : Prop :=
  Expense.Amount s = Expense.Amount expense
  ∧ Expense.AmountPaid s = Expense.AmountPaid expense.

(** The entry of a series for a month: the last one, should the month occur
    more than once (it does not in what the repositories return). *)
Definition series_entry (k : string) (l : list MonthlyData) : option MonthlyData :=
  List.find (λ x, String.eqb (MonthlyData.Month x) k) (rev l).

(** The figure a series contributes to a month: zero when the month is
    absent from it. *)
Definition series_value (get : MonthlyData → F) (l : list MonthlyData) (k : string) : F :=
  match series_entry k l with
  | Some x => get x
  | None => fzero
  end.

(** What one of the first two loops does to the entry of one month. *)
Definition key_fold (assign : MonthlyData → MonthlyData → MonthlyData) (k : string)
  (l : list MonthlyData) (o : option MonthlyData) : option MonthlyData :=
  fold_left (λ o item, if String.eqb (MonthlyData.Month item) k
                       then Some (assign item (default (AnalyticsHandler.new_entry k) o))
                       else o) l o.

End Vocabulary.


(** The live expenses of a user, and those of one category among them. *)
Definition live_expenses {F} (db : Table (Expense.t F)) (userID : N) : list (Expense.t F) :=
  Raw_where (λ e, ExpenseRepository.owned_by userID e && is_live e) db.


(** An item is low on stock when its quantity is at most its minimum stock
    level, in the store's order. *)
Definition low_on_stock {F} `{Float64 F} (i : InventoryItem.t F) : bool :=
  sql_leb (InventoryItem.Quantity i) (InventoryItem.MinStockLevel i).

Definition ascending_quantity {F} `{Float64 F} (items : list (InventoryItem.t F)) : Prop :=
  StronglySorted (λ a b, sql_leb (InventoryItem.Quantity a) (InventoryItem.Quantity b) = true)
                 items.

(** The password column of the user stored under [id]. *)
Definition stored_password (id : N) (db : Table User.t) : option string :=
  User.Password <$> stored id db.

(** The row the reset writes for a user of the email. *)
Definition reset_row (now : Time) (hashedPassword : string) (u : User.t) : User.t :=
  set_updated_at now (User.with_OTP "" None (User.with_Password hashedPassword u)).

(** A date of the calendar, and the number of days of a year. *)
Definition calendar_date (d : CivilDate) : bool :=
  ((1 <=? month d) && (month d <=? 12) && (1 <=? day d)
   && (day d <=? daysIn (month d) (year d)))%N.

Definition year_length (y : N) : Z := if is_leap y then 366%Z else 365%Z.

(** Newest first: no entry is followed by one of a later date. *)
Definition newest_first_sorted {A} (date : A → CivilDate) (l : list A) : Prop :=
  StronglySorted (λ a b, date_leb (date b) (date a) = true) l.

(** Two states of the income table between which a user sees no difference:
    every read of the repository scoped to the user answers the same. *)
Definition same_income_reads {F} `{Float64 F} `{Postgres F} (userID : N)
  (db db' : Table (Income.t F)) : Prop :=
  IncomeRepository.GetAll db' userID = IncomeRepository.GetAll db userID
  ∧ (∀ id, IncomeRepository.GetOne db' id userID = IncomeRepository.GetOne db id userID)
  ∧ (∀ d1 d2, IncomeRepository.GetByDateRange db' userID d1 d2
              = IncomeRepository.GetByDateRange db userID d1 d2)
  ∧ IncomeRepository.GetFinancialSummary db' userID
    = IncomeRepository.GetFinancialSummary db userID
  ∧ (∀ y, IncomeRepository.GetMonthlyData db' userID y
          = IncomeRepository.GetMonthlyData db userID y).

Definition same_expense_reads {F} `{Float64 F} `{Postgres F} (userID : N)
  (db db' : Table (Expense.t F)) : Prop :=
  ExpenseRepository.GetAll db' userID = ExpenseRepository.GetAll db userID
  ∧ (∀ id, ExpenseRepository.GetOne db' id userID = ExpenseRepository.GetOne db id userID)
  ∧ (∀ d1 d2, ExpenseRepository.GetByDateRange db' userID d1 d2
              = ExpenseRepository.GetByDateRange db userID d1 d2)
  ∧ ExpenseRepository.GetFinancialSummary db' userID
    = ExpenseRepository.GetFinancialSummary db userID
  ∧ ExpenseRepository.GetCategoryBreakdown db' userID
    = ExpenseRepository.GetCategoryBreakdown db userID
  ∧ (∀ y, ExpenseRepository.GetMonthlyData db' userID y
          = ExpenseRepository.GetMonthlyData db userID y).

Definition same_inventory_reads {F} `{Float64 F} `{Postgres F} (userID : N)
  (db db' : Table (InventoryItem.t F)) : Prop :=
  InventoryRepository.GetAll db' userID = InventoryRepository.GetAll db userID
  ∧ (∀ id, InventoryRepository.GetOne db' id userID
           = InventoryRepository.GetOne db id userID)
  ∧ InventoryRepository.GetLowStockItems db' userID
    = InventoryRepository.GetLowStockItems db userID.

(** Orders of the listings: by name, by amount from the largest, by month. *)
Definition names_ascending {F} `{Postgres F} (items : list (InventoryItem.t F)) : Prop :=
  StronglySorted (λ a b, text_leb (InventoryItem.Name a) (InventoryItem.Name b) = true)
                 items.

Definition amounts_descending {F} `{Float64 F} (items : list (CategoryBreakdown.t F))
  : Prop :=
  StronglySorted (λ a b, sql_leb (CategoryBreakdown.Amount b) (CategoryBreakdown.Amount a)
                         = true) items.

Definition months_ascending {F} `{Postgres F} (items : list (MonthlyData.t F)) : Prop :=
  StronglySorted (λ a b, text_leb (MonthlyData.Month a) (MonthlyData.Month b) = true)
                 items.

(** The rows a monthly rollup counts for a user, a year and a month key:
    soft-deleted ones included. *)
Definition incomes_of_month {F} `{Postgres F} (db : Table (Income.t F)) (userID : N)
  (year_ : Z) (k : string) : list (Income.t F) :=
  filter (λ i, IncomeRepository.owned_by userID i
               && (extract_year (Income.Date i) =? year_)%Z
               && String.eqb (to_char_YYYY_MM (Income.Date i)) k) (rows db).

Definition expenses_of_month {F} `{Postgres F} (db : Table (Expense.t F)) (userID : N)
  (year_ : Z) (k : string) : list (Expense.t F) :=
  filter (λ e, ExpenseRepository.owned_by userID e
               && (extract_year (Expense.Date e) =? year_)%Z
               && String.eqb (to_char_YYYY_MM (Expense.Date e)) k) (rows db).

(** The live incomes of a user, and the records with an amount still due. *)
Definition live_incomes {F} (db : Table (Income.t F)) (userID : N) : list (Income.t F) :=
  Raw_where (λ i, IncomeRepository.owned_by userID i && is_live i) db.

Definition outstanding_incomes {F} (l : list (Income.t F)) : list (Income.t F) :=
  filter (λ i, IncomeRepository.is_outstanding (Income.PaymentStatus i)) l.

Definition outstanding_expenses {F} (l : list (Expense.t F)) : list (Expense.t F) :=
  filter (λ e, ExpenseRepository.is_outstanding (Expense.PaymentStatus e)) l.

(** * Properties *)

(** ** Ordering and grouping *)

Section SqlFacts.
Context {A : Type}.
Implicit Types (le : A → A → bool) (l : list A).

Lemma insert_by_perm le x l : Permutation (insert_by le x l) (x :: l).
Proof.
  induction l as [|y l IH]; simpl; [reflexivity|].
  destruct (le x y); [reflexivity|].
  rewrite IH. apply perm_swap.
Qed.

Lemma order_by_perm le l : Permutation (order_by le l) l.
Proof.
  induction l as [|x l IH]; simpl; [reflexivity|].
  rewrite insert_by_perm. by constructor.
Qed.

Lemma order_by_elem_of le l x : x ∈ order_by le l ↔ x ∈ l.
Proof. by rewrite (order_by_perm le l). Qed.

Lemma order_by_nil le l : order_by le l = [] ↔ l = [].
Proof.
  split; [|by intros ->].
  intros E. pose proof (order_by_perm le l) as P. rewrite E in P.
  by apply Permutation_nil in P.
Qed.

Lemma order_by_NoDup_map {B} (f : A → B) le l :
  NoDup (map f l) → NoDup (map f (order_by le l)).
Proof.
  by rewrite order_by_perm.
Qed.

(** With a total and transitive comparison the outcome is sorted. *)
Section Sorted.
Context (le : A → A → bool).
Hypothesis le_total : ∀ x y, le x y = true ∨ le y x = true.
Hypothesis le_trans : ∀ x y z, le x y = true → le y z = true → le x z = true.

Lemma insert_by_sorted x l :
  StronglySorted (λ a b, le a b = true) l →
  StronglySorted (λ a b, le a b = true) (insert_by le x l).
Proof using le_total le_trans.
  induction 1 as [|y l Hs IH Hy]; simpl.
  - repeat constructor.
  - destruct (le x y) eqn:E.
    + constructor; [by constructor|].
      constructor; [done|].
      eapply Forall_impl; [exact Hy|]. intros z Hz. by eapply le_trans.
    + constructor; [exact IH|].
      assert (Hyx : le y x = true) by (destruct (le_total x y); congruence).
      eapply Permutation_Forall; [symmetry; apply insert_by_perm|].
      by constructor.
Qed.

Lemma order_by_sorted l : StronglySorted (λ a b, le a b = true) (order_by le l).
Proof using le_total le_trans.
  induction l; simpl; [constructor|by apply insert_by_sorted].
Qed.

End Sorted.

Lemma group_by_keys (key : A → string) l :
  map fst (group_by key l) = remove_dups (map key l).
Proof.
  unfold group_by. rewrite map_map. simpl. apply map_id.
Qed.

Lemma group_by_NoDup (key : A → string) l : NoDup (map fst (group_by key l)).
Proof. rewrite group_by_keys. apply NoDup_remove_dups. Qed.

Lemma group_by_elem_of (key : A → string) l k rs :
  (k, rs) ∈ group_by key l ↔
  (∃ x, x ∈ l ∧ key x = k) ∧ rs = filter (λ r, String.eqb (key r) k) l.
Proof.
  unfold group_by. rewrite list_elem_of_In, in_map_iff. split.
  - intros (k' & [= <- <-] & Hin).
    apply list_elem_of_In, elem_of_remove_dups, list_elem_of_In, in_map_iff in Hin.
    destruct Hin as (x & Hx & Hin). split; [|done].
    exists x. by rewrite list_elem_of_In.
  - intros [(x & Hx & Hk) ->]. exists k. split; [done|].
    apply list_elem_of_In, elem_of_remove_dups, list_elem_of_In, in_map_iff.
    exists x. by rewrite <- list_elem_of_In.
Qed.

End SqlFacts.

Section Collect.
Context {A B : Type} (f : A → result B).
Implicit Types (l : list A) (ys : list B).

Lemma collect_Ok_elem_of l ys y :
  collect f l = Ok ys → y ∈ ys ↔ ∃ x, x ∈ l ∧ f x = Ok y.
Proof.
  revert ys. induction l as [|x l IH]; simpl; intros ys.
  - intros [= <-]. split; [by intros ?%elem_of_nil|by intros (? & ?%elem_of_nil & _)].
  - destruct (f x) as [y0|] eqn:Ex; [|done].
    destruct (collect f l) as [ys0|]; [|done]. intros [= <-].
    rewrite elem_of_cons, (IH ys0 eq_refl). split.
    + intros [->|(x' & Hin & Hx')]; [exists x; split; [by left|done]|].
      exists x'. split; [by right|done].
    + intros (x' & [->|Hin]%elem_of_cons & Hx'); [left; congruence|].
      right. by exists x'.
Qed.

Lemma collect_Ok_map {C} (g : A → C) (h : B → C) l ys :
  (∀ x y, f x = Ok y → h y = g x) → collect f l = Ok ys → map h ys = map g l.
Proof.
  intros Hgh. revert ys. induction l as [|x l IH]; simpl; intros ys.
  - by intros [= <-].
  - destruct (f x) as [y0|] eqn:Ex; [|done].
    destruct (collect f l) as [ys0|]; [|done]. intros [= <-]. simpl.
    by rewrite (Hgh x y0 Ex), (IH ys0 eq_refl).
Qed.

Lemma collect_Err l e : collect f l = Err e → ∃ x, x ∈ l ∧ f x = Err e.
Proof.
  induction l as [|x l IH]; simpl; [done|].
  destruct (f x) as [y0|e0] eqn:Ex.
  - destruct (collect f l) as [ys0|e1]; [done|]. intros [= <-].
    destruct (IH eq_refl) as (x' & Hin & Hx'). exists x'. split; [by right|done].
  - intros [= <-]. exists x. split; [by left|done].
Qed.

Lemma collect_total l :
  (∀ x, x ∈ l → is_ok (f x) = true) → is_ok (collect f l) = true.
Proof.
  induction l as [|x l IH]; simpl; intros Hall; [done|].
  pose proof (Hall x ltac:(by left)) as Hx. destruct (f x); [|done].
  assert (is_ok (collect f l) = true) as Hl.
  { apply IH. intros x' Hin. apply Hall. by right. }
  by destruct (collect f l).
Qed.

End Collect.

(** ** The relational layer *)

#[global] Instance user_schema_laws : SchemaLaws User.t.
Proof.
  split; [done| |done]. intros r. simpl. by destruct (String.eqb (User.Role r) "").
Qed.

#[global] Instance income_schema_laws {F} : SchemaLaws (Income.t F).
Proof.
  split; [done| |done].
  intros r. simpl. by destruct (String.eqb (Income.PaymentStatus r) "").
Qed.

#[global] Instance expense_schema_laws {F} : SchemaLaws (Expense.t F).
Proof.
  split; [done| |done].
  intros r. simpl. by destruct (String.eqb (Expense.PaymentStatus r) "").
Qed.

#[global] Instance inventory_schema_laws {F} : SchemaLaws (InventoryItem.t F).
Proof. by split. Qed.

Section GormFacts.
Context {R : Type} `{SchemaLaws R}.
Implicit Types (t : Table R) (r : R) (cond : R → bool).

Lemma Find_elem_of cond t r :
  r ∈ Find cond t ↔ r ∈ rows t ∧ cond r = true ∧ is_live r = true.
Proof.
  unfold Find. rewrite list_elem_of_filter, Is_true_true, andb_true_iff. tauto.
Qed.

Lemma Raw_where_elem_of cond t r :
  r ∈ Raw_where cond t ↔ r ∈ rows t ∧ cond r = true.
Proof. unfold Raw_where. rewrite list_elem_of_filter, Is_true_true. tauto. Qed.

Lemma First_Ok cond t r :
  First cond t = Ok r → r ∈ rows t ∧ cond r = true ∧ is_live r = true.
Proof.
  unfold First. destruct (order_by _ _) as [|r' l] eqn:E; [done|].
  intros [= ->]. apply Find_elem_of.
  apply (order_by_elem_of (λ a b, (id_of a <=? id_of b)%N)). rewrite E. by left.
Qed.

Lemma First_Err cond t e :
  First cond t = Err e →
  e = ErrRecordNotFound ∧ ∀ r, r ∈ rows t → cond r = true → is_live r = false.
Proof.
  unfold First. destruct (order_by _ _) as [|r' l] eqn:E; [|done].
  intros [= <-]. split; [done|]. intros r Hin Hc.
  apply order_by_nil in E. destruct (is_live r) eqn:Hl; [|done].
  assert (r ∈ Find cond t) as Hf by by apply Find_elem_of.
  rewrite E in Hf. by apply elem_of_nil in Hf.
Qed.

Lemma First_not_found cond t :
  (∀ r, r ∈ rows t → cond r = true → is_live r = false) →
  First cond t = Err ErrRecordNotFound.
Proof.
  intros Hno. destruct (First cond t) as [r|e] eqn:E.
  - apply First_Ok in E as (Hin & Hc & Hl). rewrite (Hno r Hin Hc) in Hl. done.
  - by apply First_Err in E as [-> _].
Qed.

Lemma First_found cond t r :
  r ∈ rows t → cond r = true → is_live r = true → ∃ r', First cond t = Ok r'.
Proof.
  intros Hin Hc Hl. destruct (First cond t) as [r'|e] eqn:E; [by eexists|].
  apply First_Err in E as [_ Hno]. rewrite (Hno r Hin Hc) in Hl. done.
Qed.

Lemma map_unchanged (f : R → R) (l : list R) :
  (∀ r, r ∈ l → f r = r) → map f l = l.
Proof.
  induction l as [|x l IH]; intros Hf; simpl; [done|].
  rewrite Hf by left. rewrite IH; [done|]. intros r Hr. apply Hf. by right.
Qed.

(** A delete that matches no live row leaves the table as it is. *)
Lemma Delete_no_match cond now t :
  (∀ r, r ∈ rows t → cond r = true → is_live r = false) →
  Delete cond now t = t.
Proof.
  intros Hno. unfold Delete. destruct t as [l n]. simpl in *. f_equal.
  apply map_unchanged. intros r Hr.
  destruct (cond r) eqn:Hc; [|done]. by rewrite (Hno r Hr Hc).
Qed.

Lemma id_of_set_deleted_at d r : id_of (set_deleted_at d r) = id_of r.
Proof. unfold id_of, set_deleted_at. by rewrite model_with_model. Qed.

Lemma is_live_set_deleted_at now r : is_live (set_deleted_at (Some now) r) = false.
Proof. unfold is_live, deleted_at, set_deleted_at. by rewrite model_with_model. Qed.

Lemma id_of_set_updated_at now r : id_of (set_updated_at now r) = id_of r.
Proof. unfold id_of, set_updated_at. by rewrite model_with_model. Qed.

(** After a delete no row that matches the condition is live. *)
Lemma Delete_not_live cond now t r :
  r ∈ rows (Delete cond now t) →
  (∃ r0, r0 ∈ rows t ∧ cond r0 = true ∧ is_live r0 = true
         ∧ r = set_deleted_at (Some now) r0)
  ∨ (r ∈ rows t ∧ (cond r = false ∨ is_live r = false)).
Proof.
  unfold Delete. simpl. rewrite list_elem_of_In, in_map_iff.
  intros (r0 & Hr & Hin%list_elem_of_In).
  destruct (cond r0) eqn:Hc, (is_live r0) eqn:Hl; simpl in Hr; subst r;
    [left; by exists r0|right..]; split; auto.
Qed.

Lemma find_app_fresh (p : R → bool) (l : list R) r :
  (∀ x, x ∈ l → p x = false) → p r = true → List.find p (l ++ [r]) = Some r.
Proof.
  intros Hl Hr. induction l as [|x l IH]; simpl.
  - by rewrite Hr.
  - rewrite (Hl x) by left. apply IH. intros y Hy. apply Hl. by right.
Qed.

Lemma has_id_false id (l : list R) :
  has_id id l = false → ∀ x, x ∈ l → (id_of x =? id)%N = false.
Proof.
  unfold has_id. intros Hno x Hx.
  destruct (id_of x =? id)%N eqn:E; [|done].
  assert (existsb (λ r, (id_of r =? id)%N) l = true) as Hex.
  { apply existsb_exists. exists x. by rewrite <- list_elem_of_In. }
  congruence.
Qed.


(** What a successful [Create] stores: the row it returns, which is the
    caller's row with the column defaults and a [gorm.Model] filled in. *)
Lemma Create_stored now r t r' t' :
  Create now r t = (r', None, t') →
  stored (id_of r') t' = Some r' ∧ ∃ m, r' = with_model m (column_defaults r).
Proof.
  unfold Create.
  set (id := if (ID (model r) =? 0)%N then _ else _).
  set (row := with_model _ (column_defaults r)).
  destruct (has_id id (rows t) || _) eqn:E; [done|].
  intros [= <- <-]. apply orb_false_iff in E as [Hfresh _].
  assert (id_of row = id) as Hid by (unfold id_of, row; by rewrite model_with_model).
  split; [|by eexists].
  unfold stored. simpl. rewrite Hid. apply find_app_fresh.
  - by apply has_id_false.
  - rewrite Hid. apply N.eqb_refl.
Qed.






End GormFacts.

Section PrimaryKey.
Context {R : Type} `{SchemaLaws R}.

Lemma pk_unique_inj (t : Table R) (a b : R) :
  pk_unique t → a ∈ rows t → b ∈ rows t → id_of a = id_of b → a = b.
Proof.
  unfold pk_unique. induction (rows t) as [|x l IH]; simpl.
  { intros _ Ha. by apply elem_of_nil in Ha. }
  intros [Hx Hl]%NoDup_cons [->|Ha]%elem_of_cons [->|Hb]%elem_of_cons Hid; auto.
  - exfalso. apply Hx. rewrite Hid. apply list_elem_of_In, in_map.
    by apply list_elem_of_In.
  - exfalso. apply Hx. rewrite <- Hid. apply list_elem_of_In, in_map.
    by apply list_elem_of_In.
Qed.

(** A probe for the key of a row under a condition that row fails finds no
    row at all. *)
Lemma probe_misses (t : Table R) (a : R) (cond : R → bool) :
  pk_unique t → a ∈ rows t → cond a = false →
  ∀ r, r ∈ rows t → (id_of r =? id_of a)%N && cond r = true → is_live r = false.
Proof.
  intros Hpk Ha Hc r Hr [Hid Hcr]%andb_true_iff. apply N.eqb_eq in Hid.
  rewrite (pk_unique_inj t r a Hpk Hr Ha Hid) in Hcr. congruence.
Qed.

End PrimaryKey.

(** ** Tenant isolation of the income and expense records *)

Section Isolation.
Context {F : Type} `{Float64 F}.

Lemma income_not_owned (income : Income.t F) (A B : N) :
  Income.UserID income = A → B ≠ A → IncomeRepository.owned_by B income = false.
Proof. intros <- Hne. apply N.eqb_neq. congruence. Qed.

Lemma expense_not_owned (expense : Expense.t F) (A B : N) :
  Expense.UserID expense = A → B ≠ A → ExpenseRepository.owned_by B expense = false.
Proof. intros <- Hne. apply N.eqb_neq. congruence. Qed.

Lemma income_GetOne_other_user (db : Table (Income.t F)) income A B :
  pk_unique db → income ∈ rows db → Income.UserID income = A → B ≠ A →
  IncomeRepository.GetOne db (id_of income) B = Err ErrRecordNotFound.
Proof.
  intros Hpk Hin HA Hne. unfold IncomeRepository.GetOne.
  rewrite First_not_found; [done|].
  apply probe_misses; [done..|]. by eapply income_not_owned.
Qed.

Lemma income_Delete_other_user (db : Table (Income.t F)) now income A B :
  pk_unique db → income ∈ rows db → Income.UserID income = A → B ≠ A →
  IncomeRepository.Delete db now (id_of income) B = (None, db).
Proof.
  intros Hpk Hin HA Hne. unfold IncomeRepository.Delete.
  rewrite Delete_no_match; [done|].
  apply probe_misses; [done..|]. by eapply income_not_owned.
Qed.

Lemma expense_GetOne_other_user (db : Table (Expense.t F)) expense A B :
  pk_unique db → expense ∈ rows db → Expense.UserID expense = A → B ≠ A →
  ExpenseRepository.GetOne db (id_of expense) B = Err ErrRecordNotFound.
Proof.
  intros Hpk Hin HA Hne. unfold ExpenseRepository.GetOne.
  rewrite First_not_found; [done|].
  apply probe_misses; [done..|]. by eapply expense_not_owned.
Qed.

Lemma expense_Delete_other_user (db : Table (Expense.t F)) now expense A B :
  pk_unique db → expense ∈ rows db → Expense.UserID expense = A → B ≠ A →
  ExpenseRepository.Delete db now (id_of expense) B = (None, db).
Proof.
  intros Hpk Hin HA Hne. unfold ExpenseRepository.Delete.
  rewrite Delete_no_match; [done|].
  apply probe_misses; [done..|]. by eapply expense_not_owned.
Qed.

End Isolation.

(** C1 (as amended).  Let an income record and an expense record be owned by
    user [A] and let [B] be another authenticated user.  A get-one with [B]'s
    id and the record's id returns record-not-found, which the handler writes
    as 404.  An update goes through the same get-one and is answered 404
    before anything is written.  A delete is scoped to ([id], [B]), matches no
    row, is not an error, and is answered 200; the store, and so the record of
    [A], is unchanged.  No answer carries the record and none is 403. *)
Theorem cross_tenant_isolation {F : Type} `{Float64 F}
  (incomes : Table (Income.t F)) (expenses : Table (Expense.t F))
  (income : Income.t F) (expense : Expense.t F) (A B : N) (now : Time)
  (incomeID expenseID : string)
  (incomeReq : IncomeHandler.IncomeRequest F)
  (expenseReq : ExpenseHandler.ExpenseRequest F) :
  pk_unique incomes → pk_unique expenses →
  income ∈ rows incomes → expense ∈ rows expenses →
  Income.UserID income = A → Expense.UserID expense = A →
  B ≠ A → B ≠ 0%N →
  ParseUint32 incomeID = Some (id_of income) →
  ParseUint32 expenseID = Some (id_of expense) →
  (IncomeRepository.GetOne incomes (id_of income) B = Err ErrRecordNotFound
   ∧ IncomeHandler.GetIncome incomes B incomeID
     = utils.WriteErrorResponse "Income record not found" utils.StatusNotFound
   ∧ IncomeHandler.UpdateIncome incomes now B incomeID (Some incomeReq)
     = (utils.WriteErrorResponse "Income record not found" utils.StatusNotFound, incomes)
   ∧ IncomeRepository.Delete incomes now (id_of income) B = (None, incomes)
   ∧ IncomeHandler.DeleteIncome incomes now B incomeID
     = (utils.WriteSuccessResponse "Income record deleted successfully" tt, incomes))
  ∧
  (ExpenseRepository.GetOne expenses (id_of expense) B = Err ErrRecordNotFound
   ∧ ExpenseHandler.GetExpense expenses B expenseID
     = utils.WriteErrorResponse "Expense record not found" utils.StatusNotFound
   ∧ ExpenseHandler.UpdateExpense expenses now B expenseID (Some expenseReq)
     = (utils.WriteErrorResponse "Expense record not found" utils.StatusNotFound, expenses)
   ∧ ExpenseRepository.Delete expenses now (id_of expense) B = (None, expenses)
   ∧ ExpenseHandler.DeleteExpense expenses now B expenseID
     = (utils.WriteSuccessResponse "Expense record deleted successfully" tt, expenses)).
Proof.
  intros Hpki Hpke Hi He HAi HAe Hne HB Hidi Hide.
  apply N.eqb_neq in HB.
  pose proof (income_GetOne_other_user incomes income A B Hpki Hi HAi Hne) as Gi.
  pose proof (income_Delete_other_user incomes now income A B Hpki Hi HAi Hne) as Di.
  pose proof (expense_GetOne_other_user expenses expense A B Hpke He HAe Hne) as Ge.
  pose proof (expense_Delete_other_user expenses now expense A B Hpke He HAe Hne) as De.
  split.
  - unfold IncomeHandler.GetIncome, IncomeHandler.UpdateIncome,
      IncomeHandler.DeleteIncome.
    rewrite HB, Hidi, Gi, Di. done.
  - unfold ExpenseHandler.GetExpense, ExpenseHandler.UpdateExpense,
      ExpenseHandler.DeleteExpense.
    rewrite HB, Hide, Ge, De. done.
Qed.

Lemma cross_tenant_isolation_witness :
  IncomeHandler.UpdateIncome Examples.incomes 2000 2 "1" (Some Examples.income_request)
  = (utils.WriteErrorResponse "Income record not found" utils.StatusNotFound,
     Examples.incomes)
  ∧ ExpenseHandler.GetExpense Examples.expenses 2 "1"
    = utils.WriteErrorResponse "Expense record not found" utils.StatusNotFound.
Proof.
  assert (pk_unique Examples.incomes) as Hi by apply NoDup_singleton.
  assert (pk_unique Examples.expenses) as He by apply NoDup_singleton.
  destruct (cross_tenant_isolation Examples.incomes Examples.expenses
              Examples.gold_sale Examples.fuel_purchase 1 2 2000 "1" "1"
              Examples.income_request Examples.expense_request Hi He)
    as [(_ & _ & Hu & _) (_ & Hg & _)];
    [by left|by left|reflexivity|reflexivity|lia|lia|reflexivity|reflexivity|].
  split; [exact Hu|exact Hg].
Defined.

(** C1 as stated fails for delete: user 2 deletes the sale that user 1 owns;
    the repository returns no error where the claim wants record-not-found,
    and the handler answers 200 where the claim wants 404. *)
Lemma delete_by_other_user_reports_success :
  fst (IncomeRepository.Delete Examples.incomes 2000 1 2) = None
  ∧ fst (IncomeHandler.DeleteIncome Examples.incomes 2000 2 "1")
    = utils.WriteSuccessResponse "Income record deleted successfully" tt
  ∧ utils.status (fst (IncomeHandler.DeleteIncome Examples.incomes 2000 2 "1"))
    ≠ utils.StatusNotFound
  ∧ fst (ExpenseHandler.DeleteExpense Examples.expenses 2000 2 "1")
    = utils.WriteSuccessResponse "Expense record deleted successfully" tt.
Proof. repeat split; try reflexivity. vm_compute. discriminate. Qed.

(** The scoping of an update is the handler's: [IncomeRepository.Update] has
    no user parameter and writes the row of whatever key its argument
    carries.  Handed user 1's sale with user 2 as owner it stores it so. *)
Lemma repository_update_is_unscoped :
  let taken := {| Income.Model := Income.Model Examples.gold_sale;
                  Income.Date := Income.Date Examples.gold_sale;
                  Income.MineralType := "gold";
                  Income.Quantity := 1%float;
                  Income.Unit := "g";
                  Income.PricePerUnit := 1%float;
                  Income.TotalAmount := 0%float;
                  Income.CustomerName := "Acme";
                  Income.CustomerContact := "";
                  Income.PaymentStatus := PaymentPaid;
                  Income.AmountPaid := 1%float;
                  Income.AmountDue := 0%float;
                  Income.Notes := None;
                  Income.UserID := 2 |} in
  Income.UserID <$> stored 1 (snd (IncomeRepository.Update Examples.incomes 2000 taken))
  = Some 2%N.
Proof. reflexivity. Qed.

(** ** Derived amounts of incomes and expenses *)

Section DerivedAmounts.
Context {F : Type} `{Float64 F}.

Lemma income_recalculate_consistent (income : Income.t F) :
  income_amounts_consistent (IncomeRepository.recalculate income)
  ∧ same_income_inputs (IncomeRepository.recalculate income) income.
Proof. by destruct income. Qed.


Lemma income_written_row (x s : Income.t F) (m : Gorm.Model) :
  s = with_model m x ∨ s = with_model m (column_defaults x) →
  income_amounts_consistent x → income_amounts_consistent s
  ∧ same_income_inputs s x.
Proof.
  intros Hs Hx. assert (s = with_model m x
    ∨ s = with_model m (Income.with_PaymentStatus PaymentUnpaid x)) as [->| ->].
  { destruct Hs as [->| ->]; [by left|]. simpl.
    destruct (String.eqb (Income.PaymentStatus x) ""); auto. }
  all: by destruct x.
Qed.

Lemma expense_recalculate_consistent (expense : Expense.t F) :
  expense_amounts_consistent (ExpenseRepository.recalculate expense)
  ∧ same_expense_inputs (ExpenseRepository.recalculate expense) expense.
Proof. by destruct expense. Qed.


Lemma expense_written_row (x s : Expense.t F) (m : Gorm.Model) :
  s = with_model m x ∨ s = with_model m (column_defaults x) →
  expense_amounts_consistent x → expense_amounts_consistent s
  ∧ same_expense_inputs s x.
Proof.
  intros Hs Hx. assert (s = with_model m x
    ∨ s = with_model m (Expense.with_PaymentStatus PaymentUnpaid x)) as [->| ->].
  { destruct Hs as [->| ->]; [by left|]. simpl.
    destruct (String.eqb (Expense.PaymentStatus x) ""); auto. }
  all: by destruct x.
Qed.

Lemma same_income_inputs_trans (a b c : Income.t F) :
  same_income_inputs a b → same_income_inputs b c → same_income_inputs a c.
Proof. unfold same_income_inputs. intuition congruence. Qed.

Lemma same_expense_inputs_trans (a b c : Expense.t F) :
  same_expense_inputs a b → same_expense_inputs b c → same_expense_inputs a c.
Proof. unfold same_expense_inputs. intuition congruence. Qed.

End DerivedAmounts.





(** ** Soft delete *)

Section SoftDelete.
Context {R : Type} `{SchemaLaws R}.

(** Every query the layer builds reads the live rows only. *)
Lemma Find_live_part (cond : R → bool) (t : Table R) :
  Find cond (live_part t) = Find cond t.
Proof.
  unfold Find, live_part. simpl. rewrite list_filter_filter.
  apply list_filter_iff. intros r.
  rewrite !Is_true_true, andb_true_iff. tauto.
Qed.

Lemma First_live_part (cond : R → bool) (t : Table R) :
  First cond (live_part t) = First cond t.
Proof. unfold First. by rewrite Find_live_part. Qed.

(** A raw query reads them only if its text says so. *)
Lemma Raw_where_live_part (cond : R → bool) (t : Table R) :
  Raw_where (λ r, cond r && is_live r) (live_part t)
  = Raw_where (λ r, cond r && is_live r) t.
Proof.
  unfold Raw_where, live_part. simpl. rewrite list_filter_filter.
  apply list_filter_iff. intros r.
  rewrite !Is_true_true, andb_true_iff. tauto.
Qed.

(** A deleted row is not live, whatever it was before. *)
Lemma Delete_hides (cond : R → bool) (now : Time) (t : Table R) (r : R) :
  r ∈ rows (Delete cond now t) → is_live r = true → cond r = false.
Proof.
  intros [(r0 & _ & _ & _ & ->)|[_ [Hc|Hl]]]%Delete_not_live Hlive.
  - by rewrite is_live_set_deleted_at in Hlive.
  - done.
  - congruence.
Qed.

End SoftDelete.

Section SoftDeleteReads.
Context {F : Type} `{Float64 F} `{Postgres F}.

(** The reads of the income repository that see live rows only. *)
Lemma income_reads_skip_deleted (db : Table (Income.t F)) (userID id : N) (d1 d2 : string) :
  IncomeRepository.GetAll (live_part db) userID = IncomeRepository.GetAll db userID
  ∧ IncomeRepository.GetOne (live_part db) id userID = IncomeRepository.GetOne db id userID
  ∧ IncomeRepository.GetByDateRange (live_part db) userID d1 d2
    = IncomeRepository.GetByDateRange db userID d1 d2
  ∧ IncomeRepository.GetFinancialSummary (live_part db) userID
    = IncomeRepository.GetFinancialSummary db userID.
Proof.
  unfold IncomeRepository.GetAll, IncomeRepository.GetOne,
    IncomeRepository.GetByDateRange, IncomeRepository.GetFinancialSummary.
  rewrite First_live_part.
  destruct (timestamptz_in d1), (timestamptz_in d2); by rewrite !Find_live_part.
Qed.

(** The reads of the expense repository that see live rows only. *)
Lemma expense_reads_skip_deleted (db : Table (Expense.t F)) (userID id : N) (d1 d2 : string) :
  ExpenseRepository.GetAll (live_part db) userID = ExpenseRepository.GetAll db userID
  ∧ ExpenseRepository.GetOne (live_part db) id userID = ExpenseRepository.GetOne db id userID
  ∧ ExpenseRepository.GetByDateRange (live_part db) userID d1 d2
    = ExpenseRepository.GetByDateRange db userID d1 d2
  ∧ ExpenseRepository.GetFinancialSummary (live_part db) userID
    = ExpenseRepository.GetFinancialSummary db userID
  ∧ ExpenseRepository.GetCategoryBreakdown (live_part db) userID
    = ExpenseRepository.GetCategoryBreakdown db userID.
Proof.
  unfold ExpenseRepository.GetAll, ExpenseRepository.GetOne,
    ExpenseRepository.GetByDateRange, ExpenseRepository.GetFinancialSummary,
    ExpenseRepository.GetCategoryBreakdown, ExpenseRepository.category_rows.
  rewrite First_live_part, Raw_where_live_part.
  destruct (timestamptz_in d1), (timestamptz_in d2); by rewrite !Find_live_part.
Qed.

Lemma inventory_reads_skip_deleted (db : Table (InventoryItem.t F)) (userID id : N) :
  InventoryRepository.GetAll (live_part db) userID = InventoryRepository.GetAll db userID
  ∧ InventoryRepository.GetOne (live_part db) id userID
    = InventoryRepository.GetOne db id userID
  ∧ InventoryRepository.GetLowStockItems (live_part db) userID
    = InventoryRepository.GetLowStockItems db userID.
Proof.
  unfold InventoryRepository.GetAll, InventoryRepository.GetOne,
    InventoryRepository.GetLowStockItems.
  by rewrite First_live_part, !Find_live_part.
Qed.

End SoftDeleteReads.

(** C3 (the monthly rollups miss the soft-delete filter).  User 1 deletes the
    only sale and the only purchase.  List, get-one, date range, financial
    summary and category breakdown no longer see them, but both monthly
    rollups of 2025 still count them, and so does the analytics handler. *)
Theorem monthly_rollup_counts_deleted_rows :
  let incomes := snd (IncomeRepository.Delete Examples.incomes 2000 1 1) in
  let expenses := snd (ExpenseRepository.Delete Examples.expenses 2000 1 1) in
  let january := "2025-01-01" in
  let december := "2025-12-31" in
  (IncomeRepository.GetAll incomes 1 = Ok []
   ∧ IncomeRepository.GetOne incomes 1 1 = Err ErrRecordNotFound
   ∧ IncomeRepository.GetByDateRange incomes 1 january december = Ok []
   ∧ IncomeRepository.GetFinancialSummary incomes 1
     = Ok {| FinancialSummary.TotalIncome := 0%float;
             FinancialSummary.TotalExpenses := 0%float;
             FinancialSummary.NetProfit := 0%float;
             FinancialSummary.TotalReceivables := 0%float;
             FinancialSummary.TotalPayables := 0%float;
             FinancialSummary.ProfitMargin := 0%float |}
   ∧ ExpenseRepository.GetAll expenses 1 = Ok []
   ∧ ExpenseRepository.GetCategoryBreakdown expenses 1 = Ok [])
  ∧ IncomeRepository.GetMonthlyData incomes 1 2025
    = Ok [{| MonthlyData.Month := "2025-01"; MonthlyData.Income := 500%float;
             MonthlyData.Expenses := 0%float; MonthlyData.Profit := 0%float |}]
  ∧ ExpenseRepository.GetMonthlyData expenses 1 2025
    = Ok [{| MonthlyData.Month := "2025-01"; MonthlyData.Income := 0%float;
             MonthlyData.Expenses := 120%float; MonthlyData.Profit := 0%float |}]
  ∧ AnalyticsHandler.GetMonthlyData incomes expenses 1 "2025" 2026
      (utils.WriteSuccessResponse "Monthly data retrieved successfully"
         [{| MonthlyData.Month := "2025-01"; MonthlyData.Income := 500%float;
             MonthlyData.Expenses := 120%float; MonthlyData.Profit := 380%float |}]).
Proof.
  repeat split; try reflexivity.
  eexists. split; [|reflexivity]. vm_compute. reflexivity.
Qed.

(** ** Profile update and the stored password *)

(** C4 (the update does not leave the stored hash alone).  Alice's row holds
    a hash.  [Update] with an empty [Password], that is with no new password,
    writes every column and so stores the empty string in place of the hash.
    [UpdateProfile], which changes the name and location only, reads the row,
    finds its [Password] (the hash) non-empty, hashes it again and stores the
    outcome: whenever bcrypt succeeds the stored password becomes the hash of
    the old hash. *)
Theorem update_rewrites_stored_password `{Bcrypt} :
  let now := 5000%Z in
  stored_password 1 Examples.users = Some Examples.alice_hash
  ∧ stored_password 1
      (snd (UserRepository.Update Examples.users now
              (User.with_Password "" Examples.alice))) = Some ""
  ∧ stored_password 1
      (snd (AuthHandler.UpdateProfile Examples.users now 1 (Some Examples.rename_request)))
    = Some match GenerateFromPassword Examples.alice_hash with
           | Ok rehashed => rehashed
           | Err _ => Examples.alice_hash
           end.
Proof.
  repeat split.
  unfold AuthHandler.UpdateProfile, UserRepository.Update, UserRepository.HashPassword.
  simpl. destruct (GenerateFromPassword Examples.alice_hash); reflexivity.
Qed.

(** With the stand-in for bcrypt: Alice signs up with the password "secret"
    and edits her profile; the password then no longer matches. *)
Lemma profile_update_locks_out :
  let signup := UserRepository.Insert (H := Examples.example_bcrypt) Gorm.empty 1000
                  (User.with_Password "secret"
                     (User.with_Model {| ID := 0; CreatedAt := 0; UpdatedAt := 0;
                                         DeletedAt := None |} Examples.alice)) in
  let db := snd signup in
  let db' := snd (AuthHandler.UpdateProfile (H := Examples.example_bcrypt) db 5000 1
                    (Some Examples.rename_request)) in
  let matches (db : Table User.t) :=
    match stored 1 db with
    | Some user =>
        Some (fst (UserRepository.PasswordMatches (H := Examples.example_bcrypt)
                     user "secret"))
    | None => None
    end in
  matches db = Some true ∧ matches db' = Some false.
Proof. split; reflexivity. Qed.

(** ** One-time codes *)

Section OneTimeCode.

(** The row [Updates] writes for a user whose code, expiry or password it
    sets: what changes and what does not. *)
Lemma otp_row_fields (now : Time) (code : string) (expires : option Time) (u : User.t) :
  let u' := set_updated_at now (User.with_OTP code expires u) in
  User.Email u' = User.Email u ∧ User.OTPCode u' = code
  ∧ User.OTPExpiresAt u' = expires ∧ User.Password u' = User.Password u
  ∧ is_live u' = is_live u ∧ id_of u' = id_of u.
Proof. by destruct u. Qed.

(** A filter does not notice a change of rows that are outside it before and
    after. *)
Lemma filter_map_outside {A} (P : A → bool) (g : A → A) (l : list A) :
  (∀ x, x ∈ l → g x = x ∨ (P (g x) = false ∧ P x = false)) →
  filter (λ x, P x) (map g l) = filter (λ x, P x) l.
Proof.
  induction l as [|x l IH]; intros Hg; [done|]. simpl.
  assert (filter (λ x, P x) (map g l) = filter (λ x, P x) l) as IH'.
  { apply IH. intros y Hy. apply Hg. by right. }
  destruct (Hg x) as [->|[Hgx Hx]]; [by left| |].
  - rewrite !filter_cons. by rewrite IH'.
  - rewrite !filter_cons. rewrite Hgx, Hx. simpl.
    destruct (decide (Is_true false)) as [[]|]. exact IH'.
Qed.

Lemma has_email_iff (email : string) (u : User.t) :
  UserRepository.has_email email u = true ↔ User.Email u = email.
Proof. apply String.eqb_eq. Qed.

(** The rows after a code was saved for [email] at time [T]. *)
Lemma GenerateAndSaveOTP_rows (db db' : Table User.t) (T : Time) (draw : result N)
  (email otp : string) :
  UserRepository.GenerateAndSaveOTP db T draw email = (Ok otp, db') →
  rows db' = map (λ u, if UserRepository.has_email email u && is_live u
                       then set_updated_at T
                              (User.with_OTP otp (Some (T + 10 * Minute)%Z) u)
                       else u) (rows db).
Proof.
  unfold UserRepository.GenerateAndSaveOTP.
  destruct (UserRepository.generateOTP draw); [|done]. by intros [= <- <-].
Qed.

(** A verification answers [true] exactly when a live row holds the email,
    the code and a later expiry. *)
Lemma VerifyOTP_true (db : Table User.t) (now : Time) (email otp : string) (u : User.t) :
  u ∈ rows db → is_live u = true → User.Email u = email → User.OTPCode u = otp →
  UserRepository.expires_after now u = true →
  UserRepository.VerifyOTP db now email otp = Ok true.
Proof.
  intros Hin Hl He Hc Hx. unfold UserRepository.VerifyOTP.
  edestruct (First_found (R := User.t)) as [r' ->]; [exact Hin| |exact Hl|done].
  rewrite !andb_true_iff, has_email_iff, String.eqb_eq. done.
Qed.

Lemma VerifyOTP_false (db : Table User.t) (now : Time) (email otp : string) :
  (∀ u, u ∈ rows db → is_live u = true → User.Email u = email →
        User.OTPCode u = otp → UserRepository.expires_after now u = false) →
  UserRepository.VerifyOTP db now email otp = Ok false.
Proof.
  intros Hno. unfold UserRepository.VerifyOTP. rewrite First_not_found; [done|].
  intros u Hin [[He Hc]%andb_true_iff Hx]%andb_true_iff.
  apply has_email_iff in He. apply String.eqb_eq in Hc.
  destruct (is_live u) eqn:Hl; [|done]. rewrite (Hno u Hin Hl He Hc) in Hx. done.
Qed.

End OneTimeCode.

(** C5 (as amended).  A code is generated and saved for [email], held by a
    live user, at time [T].  Verifying that email with that code answers
    [true] at every time before [T + 10 min] and [false] at every time from
    [T + 10 min] on.  For any other email the answer with that code is what
    it was before the code was generated; it is [false] when no user of that
    other email holds the same code as a code of their own. *)
Theorem otp_validity_window (db db' : Table User.t) (T : Time) (draw : result N)
  (email otp : string) (u : User.t) :
  UserRepository.GenerateAndSaveOTP db T draw email = (Ok otp, db') →
  u ∈ rows db → User.Email u = email → is_live u = true →
  (∀ now, (now < T + 10 * Minute)%Z →
          UserRepository.VerifyOTP db' now email otp = Ok true)
  ∧ (∀ now, (T + 10 * Minute ≤ now)%Z →
            UserRepository.VerifyOTP db' now email otp = Ok false)
  ∧ (∀ now other, other ≠ email →
       UserRepository.VerifyOTP db' now other otp
       = UserRepository.VerifyOTP db now other otp)
  ∧ (∀ now other, other ≠ email →
       (∀ v, v ∈ rows db → User.Email v = other → User.OTPCode v ≠ otp) →
       UserRepository.VerifyOTP db' now other otp = Ok false).
Proof.
  intros Hgen Hu He Hl. apply GenerateAndSaveOTP_rows in Hgen.
  set (expiry := (T + 10 * Minute)%Z) in *.
  set (g := λ u : User.t, if UserRepository.has_email email u && is_live u
                          then set_updated_at T (User.with_OTP otp (Some expiry) u)
                          else u) in *.
  assert (∀ now other, other ≠ email →
            UserRepository.VerifyOTP db' now other otp
            = UserRepository.VerifyOTP db now other otp) as Hframe.
  { intros now other Hne. unfold UserRepository.VerifyOTP, First, Find.
    rewrite Hgen.
    rewrite (filter_map_outside
               (λ u, UserRepository.has_email other u
                     && String.eqb (User.OTPCode u) otp
                     && UserRepository.expires_after now u && is_live u) g); [done|].
    intros x _. unfold g.
    destruct (UserRepository.has_email email x && is_live x) eqn:E; [right|by left].
    apply andb_true_iff in E as [Hx%has_email_iff _].
    destruct (otp_row_fields T otp (Some expiry) x) as (He' & _).
    assert (∀ y, User.Email y = email → UserRepository.has_email other y = false) as Hoff.
    { intros y Hy. apply String.eqb_neq. congruence. }
    rewrite !Hoff; [done|done|]. by rewrite He'. }
  split; [|split; [|split]].
  - intros now Hnow.
    destruct (otp_row_fields T otp (Some expiry) u) as (He' & Hc' & Hx' & _ & Hl' & _).
    assert (g u = set_updated_at T (User.with_OTP otp (Some expiry) u)) as Hgu.
    { unfold g. apply has_email_iff in He. by rewrite He, Hl. }
    apply (VerifyOTP_true db' now email otp (g u)).
    + rewrite Hgen. apply list_elem_of_In, in_map, list_elem_of_In, Hu.
    + rewrite Hgu. congruence.
    + rewrite Hgu. congruence.
    + rewrite Hgu. exact Hc'.
    + rewrite Hgu. unfold UserRepository.expires_after. rewrite Hx'. by apply Z.ltb_lt.
  - intros now Hnow. apply VerifyOTP_false. intros v Hv Hvl Hve Hvc.
    rewrite Hgen in Hv. apply list_elem_of_In, in_map_iff in Hv as (x & <- & Hx).
    revert Hvl Hve Hvc. unfold g.
    destruct (UserRepository.has_email email x && is_live x) eqn:E.
    + destruct (otp_row_fields T otp (Some expiry) x) as (_ & _ & Hx' & _).
      intros _ _ _. unfold UserRepository.expires_after. rewrite Hx'.
      apply Z.ltb_ge. exact Hnow.
    + intros Hvl Hve%has_email_iff _. rewrite Hve, Hvl in E. done.
  - exact Hframe.
  - intros now other Hne Hfree. rewrite Hframe by done.
    apply VerifyOTP_false. intros v Hv _ Hve Hvc. by destruct (Hfree v Hv Hve).
Qed.

Lemma otp_validity_window_witness :
  let saved := UserRepository.GenerateAndSaveOTP Examples.users 1000 (Ok 23456%N)
                 "alice@mine.io" in
  fst saved = Ok "123456"
  ∧ UserRepository.VerifyOTP (snd saved) (1000 + 9 * Minute) "alice@mine.io" "123456"
    = Ok true
  ∧ UserRepository.VerifyOTP (snd saved) (1000 + 11 * Minute) "alice@mine.io" "123456"
    = Ok false
  ∧ UserRepository.VerifyOTP (snd saved) (1000 + 9 * Minute) "bob@mine.io" "123456"
    = Ok false.
Proof.
  destruct (otp_validity_window Examples.users
              (snd (UserRepository.GenerateAndSaveOTP Examples.users 1000 (Ok 23456%N)
                      "alice@mine.io"))
              1000 (Ok 23456%N) "alice@mine.io" "123456" Examples.alice)
    as (Hin & Hout & _ & Hother);
    [reflexivity|by left|reflexivity|reflexivity|].
  split; [reflexivity|]. split; [|split].
  - apply Hin. reflexivity.
  - apply Hout. discriminate.
  - apply Hother; [discriminate|].
    intros v [->| [->|[]%elem_of_nil]%elem_of_cons]%elem_of_cons _; discriminate.
Defined.

(** C5 as stated fails on its last part.  Bob holds the code "123456", valid
    until [1000 + 10 min], when the same code is drawn for Alice at time 1000.
    Nine minutes later the code verifies with Alice's email and with Bob's: a
    correct code with a different email does not fail. *)
Lemma code_verifies_for_another_email :
  let saved := UserRepository.GenerateAndSaveOTP Examples.users_bob_pending 1000
                 (Ok 23456%N) "alice@mine.io" in
  fst saved = Ok "123456"
  ∧ UserRepository.VerifyOTP (snd saved) (1000 + 9 * Minute) "alice@mine.io" "123456"
    = Ok true
  ∧ UserRepository.VerifyOTP (snd saved) (1000 + 9 * Minute) "bob@mine.io" "123456"
    = Ok true.
Proof. repeat split. Qed.

(** ** Password reset with a one-time code *)

Lemma reset_row_fields (now : Time) (hashedPassword : string) (u : User.t) :
  let u' := reset_row now hashedPassword u in
  User.Password u' = hashedPassword ∧ User.OTPCode u' = ""
  ∧ User.OTPExpiresAt u' = None ∧ User.Email u' = User.Email u
  ∧ is_live u' = is_live u ∧ id_of u' = id_of u.
Proof. by destruct u. Qed.

(** In the model the lookup of [VerifyOTP] has no other failure than
    record-not-found, so a verification always answers. *)
Lemma VerifyOTP_answers (db : Table User.t) (now : Time) (email otp : string) :
  ∃ valid, UserRepository.VerifyOTP db now email otp = Ok valid.
Proof.
  unfold UserRepository.VerifyOTP.
  destruct (First _ db) as [r|e] eqn:E; [by eexists|].
  apply (First_Err (R := User.t)) in E as [-> _]. by eexists.
Qed.

(** C9.  [ResetPasswordWithOTP] verifies the code first.  When the
    verification answers [false], that is when no live user of the email holds
    the code with an expiry still ahead, it returns the error "invalid or
    expired OTP" and the store is as it was (so are password, code and
    expiry); for that matter whenever it returns an error the store is as it
    was.  When the code
    verifies and the new password hashes, one [Updates] call writes, for the
    live user of the email, the hash as password, the empty string as code and
    NULL as expiry, and touches no other row. *)
Theorem reset_password_with_otp `{Bcrypt} (db : Table User.t) (now : Time)
  (email otp newPassword : string) :
  (UserRepository.VerifyOTP db now email otp = Ok false →
   UserRepository.ResetPasswordWithOTP db now email otp newPassword
   = (Some (Errorf "invalid or expired OTP"), db))
  ∧ ((∀ u, u ∈ rows db → is_live u = true → User.Email u = email →
           User.OTPCode u = otp → UserRepository.expires_after now u = false) →
     UserRepository.ResetPasswordWithOTP db now email otp newPassword
     = (Some (Errorf "invalid or expired OTP"), db))
  ∧ (∀ e db', UserRepository.ResetPasswordWithOTP db now email otp newPassword
              = (Some e, db') → db' = db)
  ∧ (∀ hashedPassword,
       UserRepository.VerifyOTP db now email otp = Ok true →
       UserRepository.HashPassword newPassword = Ok hashedPassword →
       UserRepository.ResetPasswordWithOTP db now email otp newPassword
       = (None, {| rows := map (λ u, if UserRepository.has_email email u && is_live u
                                     then reset_row now hashedPassword u else u)
                               (rows db);
                   last_id := last_id db |})
       ∧ ∀ u, User.Password (reset_row now hashedPassword u) = hashedPassword
              ∧ User.OTPCode (reset_row now hashedPassword u) = ""
              ∧ User.OTPExpiresAt (reset_row now hashedPassword u) = None).
Proof.
  unfold UserRepository.ResetPasswordWithOTP. split; [|split; [|split]].
  - by intros ->.
  - intros Hno. by rewrite (VerifyOTP_false db now email otp Hno).
  - intros e db'. destruct (UserRepository.VerifyOTP db now email otp) as [[|]|];
      [|by intros [= _ <-]..].
    destruct (UserRepository.HashPassword newPassword); [done|by intros [= _ <-]].
  - intros hashedPassword -> ->. split; [done|].
    intros u. destruct (reset_row_fields now hashedPassword u) as (? & ? & ? & _). done.
Qed.

Lemma reset_password_with_otp_witness :
  let db := snd (UserRepository.GenerateAndSaveOTP Examples.users 1000 (Ok 23456%N)
                   "alice@mine.io") in
  let reset := UserRepository.ResetPasswordWithOTP (H := Examples.example_bcrypt) db in
  reset (1000 + 11 * Minute)%Z "alice@mine.io" "123456" "new-secret"
  = (Some (Errorf "invalid or expired OTP"), db)
  ∧ fst (reset (1000 + 5 * Minute)%Z "alice@mine.io" "123456" "new-secret") = None
  ∧ (λ u, (User.Password u, User.OTPCode u, User.OTPExpiresAt u))
      <$> stored 1 (snd (reset (1000 + 5 * Minute)%Z "alice@mine.io" "123456" "new-secret"))
    = Some ("$2a$10$new-secret", "", None).
Proof.
  set (db := snd (UserRepository.GenerateAndSaveOTP Examples.users 1000 (Ok 23456%N)
                    "alice@mine.io")).
  split.
  - exact (proj1 (reset_password_with_otp (H := Examples.example_bcrypt) db
                    (1000 + 11 * Minute) "alice@mine.io" "123456" "new-secret") eq_refl).
  - destruct (reset_password_with_otp (H := Examples.example_bcrypt) db
                (1000 + 5 * Minute) "alice@mine.io" "123456" "new-secret")
      as (_ & _ & _ & Hok).
    destruct (Hok "$2a$10$new-secret" eq_refl eq_refl) as [-> _].
    split; reflexivity.
Defined.

(** ** Laws of the float64 comparisons *)

Lemma compare_cont_Eq p q : PosDef.Pos.compare_cont Eq p q = (p ?= q)%positive.
Proof. reflexivity. Qed.

Ltac sf_cases :=
  repeat match goal with
  | s : spec_float |- _ => destruct s
  | b : bool |- _ => destruct b
  end; simpl in *; try done.

Ltac cmp_step :=
  rewrite ?compare_cont_Eq in *;
  match goal with
  | |- context [(?a ?= ?b)%Z] => destruct (Z.compare_spec a b)
  | H : context [(?a ?= ?b)%Z] |- _ => destruct (Z.compare_spec a b)
  | |- context [(?a ?= ?b)%positive] => destruct (Pos.compare_spec a b)
  | H : context [(?a ?= ?b)%positive] |- _ => destruct (Pos.compare_spec a b)
  end; simpl in *; try done; try lia.

Lemma SFeqb_self s : SFeqb s s = negb (sf_is_nan s).
Proof.
  unfold SFeqb, SFcompare.
  sf_cases; rewrite ?compare_cont_Eq, ?Z.compare_refl, ?Pos.compare_refl; done.
Qed.

Lemma SFleb_total a b :
  sf_is_nan a = false → sf_is_nan b = false → SFleb a b = true ∨ SFleb b a = true.
Proof.
  unfold SFleb, SFcompare. intros Ha Hb. sf_cases; auto; repeat cmp_step; auto.
Qed.

Lemma SFleb_trans a b c : SFleb a b = true → SFleb b c = true → SFleb a c = true.
Proof.
  unfold SFleb, SFcompare. intros Hab Hbc. sf_cases; repeat cmp_step.
Qed.

Lemma is_nan_spec x : PrimFloat.is_nan x = sf_is_nan (Prim2SF x).
Proof.
  unfold PrimFloat.is_nan. rewrite FloatAxioms.eqb_spec, SFeqb_self.
  apply negb_involutive.
Qed.

Lemma pg_float8_le_total x y : pg_float8_le x y = true ∨ pg_float8_le y x = true.
Proof.
  unfold pg_float8_le. rewrite !is_nan_spec, !FloatAxioms.leb_spec.
  destruct (sf_is_nan (Prim2SF y)) eqn:Hy; [by left|].
  destruct (sf_is_nan (Prim2SF x)) eqn:Hx; [by right|].
  by apply SFleb_total.
Qed.

Lemma pg_float8_le_trans x y z :
  pg_float8_le x y = true → pg_float8_le y z = true → pg_float8_le x z = true.
Proof.
  unfold pg_float8_le. rewrite !is_nan_spec, !FloatAxioms.leb_spec.
  destruct (sf_is_nan (Prim2SF z)) eqn:Hz; [done|].
  destruct (sf_is_nan (Prim2SF y)) eqn:Hy; [done|].
  destruct (sf_is_nan (Prim2SF x)) eqn:Hx; [done|].
  apply SFleb_trans.
Qed.

(** On values that are not NaN the store's order is the order of Go. *)
Lemma pg_float8_le_leb x y :
  PrimFloat.is_nan x = false → PrimFloat.is_nan y = false →
  pg_float8_le x y = PrimFloat.leb x y.
Proof. unfold pg_float8_le. by intros -> ->. Qed.

Lemma float_zero_not_positive x : PrimFloat.eqb x 0 = true → PrimFloat.ltb 0 x = false.
Proof.
  rewrite FloatAxioms.eqb_spec, FloatAxioms.ltb_spec.
  change (Prim2SF 0) with (S754_zero false).
  unfold SFeqb, SFltb, SFcompare. by destruct (Prim2SF x) as [[]|[]| |[]].
Qed.

#[global] Instance float64_go_laws : Float64Laws float.
Proof.
  split.
  - exact float_zero_not_positive.
  - exact pg_float8_le_total.
  - exact pg_float8_le_trans.
Qed.

(** ** Category breakdown *)

Section Breakdown.
Context {F : Type} `{Float64 F} `{Postgres F}.
Implicit Types (item : CategoryBreakdown.t F) (l : list (CategoryBreakdown.t F)).


Lemma set_percentage_Amount total item :
  CategoryBreakdown.Amount (ExpenseRepository.set_percentage total item)
  = CategoryBreakdown.Amount item.
Proof. unfold ExpenseRepository.set_percentage. by destruct (total >? fzero)%F. Qed.








End Breakdown.




(** ** Low stock *)

(** C10.  The low-stock query of a user returns exactly the live items of
    that user whose quantity is at most their minimum stock level, each as
    often as it is stored, an item whose quantity equals its threshold
    included, in ascending order of quantity. *)
Theorem low_stock_items {F : Type} `{Float64Laws F}
  (db : Table (InventoryItem.t F)) (userID : N) :
  ∃ items,
    InventoryRepository.GetLowStockItems db userID = Ok items
    ∧ (∀ i, i ∈ items ↔ i ∈ rows db ∧ InventoryItem.UserID i = userID
                         ∧ is_live i = true ∧ low_on_stock i = true)
    ∧ Permutation items
        (filter (λ i, InventoryRepository.owned_by userID i && low_on_stock i && is_live i)
                (rows db))
    ∧ ascending_quantity items
    ∧ (∀ i, i ∈ rows db → InventoryItem.UserID i = userID → is_live i = true →
            InventoryItem.Quantity i = InventoryItem.MinStockLevel i → i ∈ items).
Proof.
  eexists. split; [reflexivity|].
  assert (∀ i, i ∈ order_by InventoryRepository.by_quantity
                     (Find (λ i, InventoryRepository.owned_by userID i
                                 && sql_leb (InventoryItem.Quantity i)
                                            (InventoryItem.MinStockLevel i)) db)
               ↔ i ∈ rows db ∧ InventoryItem.UserID i = userID
                 ∧ is_live i = true ∧ low_on_stock i = true) as Hmem.
  { intros i. rewrite order_by_elem_of, Find_elem_of, andb_true_iff.
    unfold InventoryRepository.owned_by, low_on_stock. rewrite N.eqb_eq. tauto. }
  split; [exact Hmem|]. split; [apply order_by_perm|]. split.
  - apply order_by_sorted.
    + intros a b. apply sql_leb_total.
    + intros a b c. apply sql_leb_trans.
  - intros i Hin Hu Hl Hq. apply Hmem. repeat split; try done.
    unfold low_on_stock. rewrite Hq.
    by destruct (sql_leb_total (InventoryItem.MinStockLevel i)
                               (InventoryItem.MinStockLevel i)).
Qed.

Lemma low_stock_items_witness :
  InventoryRepository.GetLowStockItems Examples.inventory 1
  = Ok [Examples.stock 3 "cyanide" 2%float 10%float None 1;
        Examples.stock 1 "drill bits" 5%float 5%float None 1]
  ∧ ∃ items, InventoryRepository.GetLowStockItems Examples.inventory 1 = Ok items
             ∧ ascending_quantity items
             ∧ Examples.stock 1 "drill bits" 5%float 5%float None 1 ∈ items.
Proof.
  split; [reflexivity|].
  destruct (low_stock_items Examples.inventory 1) as (items & Hitems & _ & _ & Hs & Hb).
  exists items. split; [exact Hitems|]. split; [exact Hs|].
  apply Hb; [by left|reflexivity..].
Defined.

(** ** Monthly merge *)

Section MonthlyMerge.
Context {F : Type} `{Float64 F}.
Abbreviation MonthlyData := (MonthlyData.t F).
Implicit Types (l : list MonthlyData) (k : string) (d : MonthlyData).

Lemma series_entry_snoc k l x :
  series_entry k (l ++ [x])
  = if String.eqb (MonthlyData.Month x) k then Some x else series_entry k l.
Proof. unfold series_entry. by rewrite rev_unit. Qed.

Lemma series_entry_None k l :
  series_entry k l = None ↔ k ∉ map MonthlyData.Month l.
Proof.
  unfold series_entry. rewrite list_elem_of_In, in_map_iff. split.
  - intros Hnone (x & Hk & Hin). apply in_rev in Hin.
    pose proof (find_none _ _ Hnone x Hin) as Hx. simpl in Hx.
    apply String.eqb_neq in Hx. done.
  - intros Hno. destruct (List.find _ _) as [x|] eqn:E; [|done].
    apply find_some in E as [Hin Hk]. apply String.eqb_eq in Hk.
    destruct Hno. exists x. split; [done|]. by apply in_rev.
Qed.

Lemma series_entry_Some k l x :
  series_entry k l = Some x → x ∈ l ∧ MonthlyData.Month x = k.
Proof.
  unfold series_entry. intros [Hin Hk]%find_some. apply String.eqb_eq in Hk.
  split; [|done]. apply list_elem_of_In. by apply in_rev.
Qed.

(** In a series without repeated months the entry of a month is the one
    entry that carries it. *)
Lemma series_entry_unique l x :
  NoDup (map MonthlyData.Month l) → x ∈ l →
  series_entry (MonthlyData.Month x) l = Some x.
Proof.
  induction l as [|y l IH] using rev_ind; [by intros _ ?%elem_of_nil|].
  rewrite map_app, series_entry_snoc. simpl.
  intros Hnd [Hin| ->%list_elem_of_singleton]%elem_of_app.
  - apply NoDup_app in Hnd as (Hl & Hy & _).
    destruct (String.eqb_spec (MonthlyData.Month y) (MonthlyData.Month x)) as [E|_].
    + exfalso. apply (Hy (MonthlyData.Month x)).
      * apply list_elem_of_In, in_map. by apply list_elem_of_In.
      * rewrite E. by left.
    + by apply IH.
  - by rewrite String.eqb_refl.
Qed.

Lemma lookup_upsert k k' (f : MonthlyData → MonthlyData) (m : gmap string MonthlyData) :
  AnalyticsHandler.upsert k f m !! k'
  = if String.eqb k k' then Some (f (default (AnalyticsHandler.new_entry k') (m !! k')))
    else m !! k'.
Proof.
  unfold AnalyticsHandler.upsert. destruct (String.eqb_spec k k') as [->|Hne].
  - by rewrite lookup_insert_eq.
  - by rewrite lookup_insert_ne.
Qed.

Lemma lookup_fold_upsert (assign : MonthlyData → MonthlyData → MonthlyData) k l
  (m : gmap string MonthlyData) :
  fold_left (λ acc item, AnalyticsHandler.upsert (MonthlyData.Month item) (assign item) acc)
            l m !! k
  = key_fold assign k l (m !! k).
Proof.
  revert m. induction l as [|x l IH]; intros m; simpl; [done|].
  rewrite IH. unfold key_fold. f_equal. apply lookup_upsert.
Qed.

(** The loop leaves the entry of a month as it found it when the series does
    not have the month, and otherwise applies the assignment of the month's
    entry to what it found (a new entry when it found none). *)
Lemma key_fold_closed (assign : MonthlyData → MonthlyData → MonthlyData) k l o :
  (∀ x y d, assign x (assign y d) = assign x d) →
  key_fold assign k l o
  = match series_entry k l with
    | Some x => Some (assign x (default (AnalyticsHandler.new_entry k) o))
    | None => o
    end.
Proof.
  intros Hidem. induction l as [|x l IH] using rev_ind; [done|].
  unfold key_fold in *. rewrite fold_left_app, series_entry_snoc. simpl.
  destruct (String.eqb (MonthlyData.Month x) k); [|exact IH].
  rewrite IH. destruct (series_entry k l); [|done]. simpl. by rewrite Hidem.
Qed.

(** The entry of a month in the map the three loops build. *)
Lemma combine_lookup (incomeData expenseData : list MonthlyData) k :
  AnalyticsHandler.combine incomeData expenseData !! k
  = match series_entry k incomeData, series_entry k expenseData with
    | None, None => None
    | _, _ =>
        let income := series_value MonthlyData.Income incomeData k in
        let expenses := series_value MonthlyData.Expenses expenseData k in
        Some {| MonthlyData.Month := k; MonthlyData.Income := income;
                MonthlyData.Expenses := expenses;
                MonthlyData.Profit := (income - expenses)%F |}
    end.
Proof.
  unfold AnalyticsHandler.combine, AnalyticsHandler.add_expenses,
    AnalyticsHandler.add_income.
  rewrite lookup_fmap, !lookup_fold_upsert, lookup_empty.
  rewrite !key_fold_closed by (intros ? ? []; reflexivity).
  unfold series_value.
  destruct (series_entry k incomeData), (series_entry k expenseData); reflexivity.
Qed.

End MonthlyMerge.

Section MonthlyMergeResult.
Context {F : Type} `{Float64 F}.
Implicit Types (d : MonthlyData.t F).

Lemma combine_entry (incomeData expenseData : list (MonthlyData.t F)) k d :
  AnalyticsHandler.combine incomeData expenseData !! k = Some d →
  MonthlyData.Month d = k
  ∧ MonthlyData.Income d = series_value MonthlyData.Income incomeData k
  ∧ MonthlyData.Expenses d = series_value MonthlyData.Expenses expenseData k
  ∧ MonthlyData.Profit d = (MonthlyData.Income d - MonthlyData.Expenses d)%F.
Proof.
  rewrite combine_lookup.
  destruct (series_entry k incomeData), (series_entry k expenseData);
    intros [= <-]; done.
Qed.

Lemma combine_months (incomeData expenseData : list (MonthlyData.t F)) k :
  is_Some (AnalyticsHandler.combine incomeData expenseData !! k)
  ↔ k ∈ map MonthlyData.Month incomeData ∨ k ∈ map MonthlyData.Month expenseData.
Proof.
  rewrite combine_lookup.
  pose proof (series_entry_None k incomeData) as Hi.
  pose proof (series_entry_None k expenseData) as He.
  destruct (series_entry k incomeData), (series_entry k expenseData); simpl.
  - split; [intros _|by eexists]. left.
    destruct (decide (k ∈ map MonthlyData.Month incomeData)); [done|].
    by apply Hi in n.
  - split; [intros _|by eexists]. left.
    destruct (decide (k ∈ map MonthlyData.Month incomeData)); [done|].
    by apply Hi in n.
  - split; [intros _|by eexists]. right.
    destruct (decide (k ∈ map MonthlyData.Month expenseData)); [done|].
    by apply He in n.
  - split; [by intros [? ?]|].
    intros [Hin|Hin]; [by apply Hi in Hin|by apply He in Hin].
Qed.

Lemma ranges_over_elem_of (m : gmap string (MonthlyData.t F)) result d :
  AnalyticsHandler.ranges_over m result → d ∈ result ↔ ∃ k, m !! k = Some d.
Proof.
  unfold AnalyticsHandler.ranges_over. intros ->.
  rewrite list_elem_of_In, in_map_iff. split.
  - intros ([k d'] & <- & Hin%list_elem_of_In). exists k.
    by apply elem_of_map_to_list.
  - intros [k Hk]. exists (k, d). split; [done|].
    by apply list_elem_of_In, elem_of_map_to_list.
Qed.

End MonthlyMergeResult.

(** The series the repositories hand to the merge have one entry per month. *)
Lemma income_month_row_Ok {F : Type} `{Float64 F} `{Postgres F}
  (g : string * list (Income.t F)) (d : MonthlyData.t F) :
  IncomeRepository.month_row g = Ok d ↔
  MonthlyData.Month d = fst g
  ∧ sql_sum (map Income.TotalAmount (snd g)) = Ok (MonthlyData.Income d)
  ∧ MonthlyData.Expenses d = fzero ∧ MonthlyData.Profit d = fzero.
Proof.
  unfold IncomeRepository.month_row.
  destruct (sql_sum _) as [income|e]; split.
  - by intros [= <-].
  - destruct d as [k a b c]. simpl. by intros (-> & [= ->] & -> & ->).
  - done.
  - by intros (_ & ? & _).
Qed.

Lemma expense_month_row_Ok {F : Type} `{Float64 F} `{Postgres F}
  (g : string * list (Expense.t F)) (d : MonthlyData.t F) :
  ExpenseRepository.month_row g = Ok d ↔
  MonthlyData.Month d = fst g
  ∧ sql_sum (map Expense.Amount (snd g)) = Ok (MonthlyData.Expenses d)
  ∧ MonthlyData.Income d = fzero ∧ MonthlyData.Profit d = fzero.
Proof.
  unfold ExpenseRepository.month_row.
  destruct (sql_sum _) as [expenses|e]; split.
  - by intros [= <-].
  - destruct d as [k a b c]. simpl. by intros (-> & [= ->] & -> & ->).
  - done.
  - by intros (_ & ? & _).
Qed.

Lemma income_series_one_per_month {F : Type} `{Float64 F} `{Postgres F}
  (db : Table (Income.t F)) (userID : N) (year_ : Z) items :
  IncomeRepository.GetMonthlyData db userID year_ = Ok items →
  NoDup (map MonthlyData.Month items).
Proof.
  unfold IncomeRepository.GetMonthlyData.
  destruct (collect _ _) as [monthlyData|] eqn:E; [|done]. intros [= <-].
  apply order_by_NoDup_map.
  rewrite (collect_Ok_map _ fst MonthlyData.Month _ _ ltac:(
             by intros g d (Hk & _)%income_month_row_Ok) E).
  apply (group_by_NoDup (λ i, to_char_YYYY_MM (Income.Date i))).
Qed.

Lemma expense_series_one_per_month {F : Type} `{Float64 F} `{Postgres F}
  (db : Table (Expense.t F)) (userID : N) (year_ : Z) items :
  ExpenseRepository.GetMonthlyData db userID year_ = Ok items →
  NoDup (map MonthlyData.Month items).
Proof.
  unfold ExpenseRepository.GetMonthlyData.
  destruct (collect _ _) as [monthlyData|] eqn:E; [|done]. intros [= <-].
  apply order_by_NoDup_map.
  rewrite (collect_Ok_map _ fst MonthlyData.Month _ _ ltac:(
             by intros g d (Hk & _)%expense_month_row_Ok) E).
  apply (group_by_NoDup (λ e, to_char_YYYY_MM (Expense.Date e))).
Qed.

(** For an authenticated caller and an acceptable year of which both
    repositories return the series, whatever the handler writes is a success
    whose data ranges over the merge of the two series. *)
Lemma monthly_handler_merges {F : Type} `{Float64 F} `{Postgres F}
  (incomes : Table (Income.t F)) (expenses : Table (Expense.t F))
  (userID : N) (yearStr : string) (current_year year_ : Z) incomeData expenseData resp :
  userID ≠ 0%N →
  AnalyticsHandler.requested_year yearStr current_year = Some year_ →
  IncomeRepository.GetMonthlyData incomes userID year_ = Ok incomeData →
  ExpenseRepository.GetMonthlyData expenses userID year_ = Ok expenseData →
  AnalyticsHandler.GetMonthlyData incomes expenses userID yearStr current_year resp →
  ∃ result,
    AnalyticsHandler.ranges_over
      (AnalyticsHandler.combine incomeData expenseData) result
    ∧ resp = utils.WriteSuccessResponse "Monthly data retrieved successfully" result.
Proof.
  intros Hu%N.eqb_neq Hy Hi He. unfold AnalyticsHandler.GetMonthlyData.
  by rewrite Hu, Hy, Hi, He.
Qed.

(** C7.  Whatever the order in which the map is ranged over, the merge of a
    monthly income series and a monthly expense series has exactly one entry
    per month of either series; the income of an entry is what the income
    series has for the month and its expenses what the expense series has,
    zero when the series does not have the month; its profit is its income
    minus its expenses.  Every arrangement of these entries is a possible
    result: no order is promised. *)
Theorem monthly_merge {F : Type} `{Float64 F}
  (incomeData expenseData result : list (MonthlyData.t F)) :
  AnalyticsHandler.ranges_over (AnalyticsHandler.combine incomeData expenseData) result →
  NoDup (map MonthlyData.Month result)
  ∧ (∀ k, k ∈ map MonthlyData.Month result
          ↔ k ∈ map MonthlyData.Month incomeData ∨ k ∈ map MonthlyData.Month expenseData)
  ∧ (∀ d, d ∈ result →
          MonthlyData.Income d
          = series_value MonthlyData.Income incomeData (MonthlyData.Month d)
          ∧ MonthlyData.Expenses d
            = series_value MonthlyData.Expenses expenseData (MonthlyData.Month d)
          ∧ MonthlyData.Profit d = (MonthlyData.Income d - MonthlyData.Expenses d)%F)
  ∧ (∀ result', Permutation result' result →
       AnalyticsHandler.ranges_over (AnalyticsHandler.combine incomeData expenseData)
                                    result').
Proof.
  intros Hr. set (m := AnalyticsHandler.combine incomeData expenseData) in *.
  assert (map MonthlyData.Month (map snd (map_to_list m)) = map fst (map_to_list m))
    as Hkeys.
  { rewrite map_map. apply map_ext_in. intros [k d] Hin%list_elem_of_In. simpl.
    apply elem_of_map_to_list in Hin. by apply combine_entry in Hin as [-> _]. }
  split; [|split; [|split]].
  - unfold AnalyticsHandler.ranges_over in Hr. rewrite Hr, Hkeys.
    apply (NoDup_fst_map_to_list m).
  - intros k. rewrite <- combine_months. fold m.
    rewrite list_elem_of_In, in_map_iff. split.
    + intros (d & <- & Hd%list_elem_of_In).
      apply (ranges_over_elem_of m result d Hr) in Hd as [k Hk].
      pose proof Hk as Hk'. apply combine_entry in Hk' as [-> _]. by exists d.
    + intros [d Hd]. exists d. pose proof Hd as Hd'.
      apply combine_entry in Hd' as [-> _]. split; [done|].
      apply list_elem_of_In, (ranges_over_elem_of m result d Hr). by eexists.
  - intros d Hd. apply (ranges_over_elem_of m result d Hr) in Hd as [k Hk].
    apply combine_entry in Hk as (<- & ? & ? & ?). done.
  - intros result' Hp. unfold AnalyticsHandler.ranges_over in *. by rewrite Hp.
Qed.

Lemma monthly_merge_witness :
  AnalyticsHandler.ranges_over
    (AnalyticsHandler.combine Examples.income_series Examples.expense_series)
    Examples.merged_months
  ∧ AnalyticsHandler.ranges_over
      (AnalyticsHandler.combine Examples.income_series Examples.expense_series)
      (rev Examples.merged_months)
  ∧ NoDup (map MonthlyData.Month Examples.merged_months).
Proof.
  assert (AnalyticsHandler.ranges_over
            (AnalyticsHandler.combine Examples.income_series Examples.expense_series)
            Examples.merged_months) as Hr.
  { unfold AnalyticsHandler.ranges_over. vm_compute. reflexivity. }
  destruct (monthly_merge Examples.income_series Examples.expense_series
              Examples.merged_months Hr) as (Hnd & _ & _ & Hany).
  split; [exact Hr|]. split; [|exact Hnd].
  apply Hany. symmetry. apply Permutation_rev.
Defined.

(** * Further properties of the repositories and handlers *)

(** ** Listing by date *)

Lemma date_leb_total (a b : CivilDate) : date_leb a b = true ∨ date_leb b a = true.
Proof.
  unfold date_leb.
  destruct (N.ltb_spec (year a) (year b)), (N.ltb_spec (year b) (year a));
    destruct (N.ltb_spec (month a) (month b)), (N.ltb_spec (month b) (month a));
    rewrite ?N.leb_le; auto; lia.
Qed.

Lemma date_leb_trans (a b c : CivilDate) :
  date_leb a b = true → date_leb b c = true → date_leb a c = true.
Proof.
  unfold date_leb.
  destruct (N.ltb_spec (year a) (year b)), (N.ltb_spec (year b) (year a));
    destruct (N.ltb_spec (month a) (month b)), (N.ltb_spec (month b) (month a));
    destruct (N.ltb_spec (year b) (year c)), (N.ltb_spec (year c) (year b));
    destruct (N.ltb_spec (month b) (month c)), (N.ltb_spec (month c) (month b));
    destruct (N.ltb_spec (year a) (year c)), (N.ltb_spec (year c) (year a));
    destruct (N.ltb_spec (month a) (month c)), (N.ltb_spec (month c) (month a));
    rewrite ?N.leb_le; try done; lia.
Qed.

Lemma order_by_newest_first {A} (date : A → CivilDate) (l : list A) :
  newest_first_sorted date (order_by (λ a b, date_leb (date b) (date a)) l).
Proof.
  apply (order_by_sorted (λ a b, date_leb (date b) (date a))).
  - intros x y. destruct (date_leb_total (date x) (date y)); auto.
  - intros x y z Hxy Hyz. by eapply date_leb_trans.
Qed.

(** X1.  The list of a user's incomes, and of a user's expenses, holds
    exactly the live rows of that user, each once per stored row, newest date
    first. *)
Theorem list_all_is_scoped_and_sorted {F : Type} `{Float64 F}
  (incomes : Table (Income.t F)) (expenses : Table (Expense.t F)) (userID : N) :
  ∃ incs exps,
    IncomeRepository.GetAll incomes userID = Ok incs
    ∧ ExpenseRepository.GetAll expenses userID = Ok exps
    ∧ (∀ i, i ∈ incs ↔ i ∈ rows incomes ∧ Income.UserID i = userID ∧ is_live i = true)
    ∧ (∀ e, e ∈ exps ↔ e ∈ rows expenses ∧ Expense.UserID e = userID ∧ is_live e = true)
    ∧ Permutation incs (Find (IncomeRepository.owned_by userID) incomes)
    ∧ Permutation exps (Find (ExpenseRepository.owned_by userID) expenses)
    ∧ newest_first_sorted Income.Date incs
    ∧ newest_first_sorted Expense.Date exps.
Proof.
  eexists _, _. split; [reflexivity|]. split; [reflexivity|].
  split; [|split; [|split; [|split; [|split]]]].
  - intros i. rewrite order_by_elem_of, Find_elem_of.
    unfold IncomeRepository.owned_by. rewrite N.eqb_eq. tauto.
  - intros e. rewrite order_by_elem_of, Find_elem_of.
    unfold ExpenseRepository.owned_by. rewrite N.eqb_eq. tauto.
  - apply order_by_perm.
  - apply order_by_perm.
  - apply (order_by_newest_first Income.Date).
  - apply (order_by_newest_first Expense.Date).
Qed.

(** On dates of the calendar the order of the instants at which they start
    is the order of year, month and day. *)
Lemma is_leap_Z (y : N) :
  is_leap y = ((Z.of_N y mod 4 =? 0)
               && (negb (Z.of_N y mod 100 =? 0) || (Z.of_N y mod 400 =? 0)))%Z.
Proof.
  unfold is_leap.
  assert (∀ k : N, (0 < k)%N →
            ((y mod k)%N =? 0)%N = (Z.of_N y mod Z.of_N k =? 0)%Z) as Hk.
  { intros k Hkpos. rewrite <- N2Z.inj_mod.
    destruct (N.eqb_spec (y mod k) 0) as [->|Hne]; [done|].
    symmetry. apply Z.eqb_neq. lia. }
  rewrite (Hk 4%N), (Hk 100%N), (Hk 400%N) by lia. done.
Qed.

Lemma days_before_year_succ (y : N) :
  days_before_year (y + 1) = (days_before_year y + year_length y)%Z.
Proof.
  unfold days_before_year, year_length. rewrite is_leap_Z.
  rewrite N2Z.inj_add. change (Z.of_N 1) with 1%Z.
  set (z := Z.of_N y). replace (z + 1 - 1)%Z with z by lia.
  destruct (Z.eqb_spec (z mod 4) 0), (Z.eqb_spec (z mod 100) 0),
    (Z.eqb_spec (z mod 400) 0); simpl; Z.div_mod_to_equations; lia.
Qed.

Lemma days_before_year_mono (y n : N) :
  (days_before_year y + 365 * Z.of_N n ≤ days_before_year (y + n))%Z.
Proof.
  induction n as [|n IH] using N.peano_ind.
  - rewrite N.add_0_r. lia.
  - replace (y + N.succ n)%N with (y + n + 1)%N by lia.
    rewrite days_before_year_succ, N2Z.inj_succ.
    unfold year_length. destruct (is_leap _); lia.
Qed.

Ltac twelve_months m :=
  let Hm := fresh "Hm" in
  assert (m = 1 ∨ m = 2 ∨ m = 3 ∨ m = 4 ∨ m = 5 ∨ m = 6 ∨ m = 7 ∨ m = 8 ∨ m = 9
          ∨ m = 10 ∨ m = 11 ∨ m = 12)%N as Hm by lia;
  destruct Hm as [->|[->|[->|[->|[->|[->|[->|[->|[->|[->|[->| ->]]]]]]]]]]].

Lemma day_of_year_range (d : CivilDate) :
  calendar_date d = true →
  (0 ≤ days_before_month (N.to_nat (month d)) (year d) + (Z.of_N (day d) - 1)
     < year_length (year d))%Z.
Proof.
  unfold calendar_date, year_length. destruct d as [y m dd]. simpl.
  rewrite !andb_true_iff, !N.leb_le. intros [[[Hm1 Hm2] Hd1] Hd2].
  twelve_months m;
    cbv - [is_leap Z.of_N Z.add Z.sub Z.le Z.lt N.le] in Hd2 |- *;
    destruct (is_leap y); lia.
Qed.

Lemma same_year_order (y m1 d1 m2 d2 : N) :
  calendar_date {| year := y; month := m1; day := d1 |} = true →
  calendar_date {| year := y; month := m2; day := d2 |} = true →
  (days_before_month (N.to_nat m1) y + Z.of_N d1
   ≤ days_before_month (N.to_nat m2) y + Z.of_N d2)%Z
  ↔ (m1 < m2 ∨ (m1 = m2 ∧ d1 ≤ d2))%N.
Proof.
  unfold calendar_date. simpl.
  rewrite !andb_true_iff, !N.leb_le. intros [[[Ha1 Ha2] Ha3] Ha4] [[[Hb1 Hb2] Hb3] Hb4].
  twelve_months m1; twelve_months m2;
    cbv - [is_leap Z.of_N Z.add Z.sub Z.le Z.lt N.le N.lt] in Ha4, Hb4 |- *;
    destruct (is_leap y); lia.
Qed.

Lemma midnight_utc_le (a b : CivilDate) :
  calendar_date a = true → calendar_date b = true →
  (midnight_utc a ≤ midnight_utc b)%Z ↔ date_leb a b = true.
Proof.
  intros Ha Hb. unfold midnight_utc.
  rewrite <- (Z.mul_le_mono_pos_r _ _ (24 * Hour)%Z) by done.
  pose proof (day_of_year_range a Ha) as Ra.
  pose proof (day_of_year_range b Hb) as Rb.
  unfold date_leb.
  destruct (N.ltb_spec (year a) (year b)) as [Hlt|Hge].
  { split; [done|intros _].
    pose proof (days_before_year_mono (year a + 1) (year b - year a - 1)) as Hm.
    replace (year a + 1 + (year b - year a - 1))%N with (year b) in Hm by lia.
    rewrite days_before_year_succ in Hm. lia. }
  destruct (N.ltb_spec (year b) (year a)) as [Hgt|Hle].
  { split; [|done]. intros Hle.
    pose proof (days_before_year_mono (year b + 1) (year a - year b - 1)) as Hm.
    replace (year b + 1 + (year a - year b - 1))%N with (year a) in Hm by lia.
    rewrite days_before_year_succ in Hm. lia. }
  assert (year a = year b) as Hy by lia.
  destruct a as [ya ma da], b as [yb mb db]. simpl in *. subst yb.
  pose proof (same_year_order ya ma da mb db Ha Hb) as Hs.
  destruct (N.ltb_spec ma mb), (N.ltb_spec mb ma); rewrite ?N.leb_le; lia.
Qed.

(** Between two midnights of the calendar are the dates from the one to the
    other. *)
Lemma date_between_midnights (d1 d2 d : CivilDate) :
  calendar_date d1 = true → calendar_date d2 = true → calendar_date d = true →
  date_between (Instant (midnight_utc d1)) (Instant (midnight_utc d2)) d
  = date_leb d1 d && date_leb d d2.
Proof.
  intros H1 H2 Hd. unfold date_between. simpl.
  pose proof (midnight_utc_le d1 d H1 Hd) as Hlo.
  pose proof (midnight_utc_le d d2 Hd H2) as Hhi.
  destruct (date_leb d1 d), (date_leb d d2), (Z.leb_spec (midnight_utc d1) (midnight_utc d)),
    (Z.leb_spec (midnight_utc d) (midnight_utc d2)); simpl; try done;
    (destruct Hlo as [Hlo1 Hlo2], Hhi as [Hhi1 Hhi2]);
    try (specialize (Hlo1 ltac:(done))); try (specialize (Hhi1 ltac:(done)));
    try (specialize (Hlo2 eq_refl)); try (specialize (Hhi2 eq_refl)); try done; lia.
Qed.

(** X2.  A date-range query hands the two bounds to the store as the texts
    it received.  When the store reads them as the timestamps [lower] and
    [upper], the query returns exactly the live rows of the user whose date,
    taken at the midnight UTC that starts it, lies from [lower] to [upper],
    both included, newest first, and nothing when [lower] is after [upper];
    when the two timestamps are the midnights of two dates of the calendar,
    these are the records of the calendar dated from the one to the other.
    The handler hands that list to the success writer.  When the store cannot
    read one of the bounds the query fails, and the handler answers 500.  The
    handler itself refuses an empty bound only, with 400. *)
Theorem date_range_is_scoped_and_sorted {F : Type} `{Float64 F} `{Postgres F}
  (incomes : Table (Income.t F)) (expenses : Table (Expense.t F)) (userID : N)
  (startDate endDate : string) :
  (∀ lower upper,
     timestamptz_in startDate = Ok lower → timestamptz_in endDate = Ok upper →
     ∃ incs exps,
       IncomeRepository.GetByDateRange incomes userID startDate endDate = Ok incs
       ∧ ExpenseRepository.GetByDateRange expenses userID startDate endDate = Ok exps
       ∧ (∀ i, i ∈ incs ↔ i ∈ rows incomes ∧ Income.UserID i = userID ∧ is_live i = true
                        ∧ date_between lower upper (Income.Date i) = true)
       ∧ (∀ e, e ∈ exps ↔ e ∈ rows expenses ∧ Expense.UserID e = userID
                        ∧ is_live e = true
                        ∧ date_between lower upper (Expense.Date e) = true)
       ∧ newest_first_sorted Income.Date incs
       ∧ newest_first_sorted Expense.Date exps
       ∧ (timestamp_leb lower upper = false → incs = [] ∧ exps = [])
       ∧ (∀ d1 d2 d,
            lower = Instant (midnight_utc d1) → upper = Instant (midnight_utc d2) →
            calendar_date d1 = true → calendar_date d2 = true → calendar_date d = true →
            date_between lower upper d = date_leb d1 d && date_leb d d2)
       ∧ (userID ≠ 0%N → startDate ≠ "" → endDate ≠ "" →
          IncomeHandler.GetIncomeByDateRange incomes userID startDate endDate
          = utils.WriteSuccessResponse "Income records retrieved successfully" incs
          ∧ ExpenseHandler.GetExpenseByDateRange expenses userID startDate endDate
            = utils.WriteSuccessResponse "Expense records retrieved successfully" exps))
  ∧ (is_ok (timestamptz_in startDate) && is_ok (timestamptz_in endDate) = false →
     is_ok (IncomeRepository.GetByDateRange incomes userID startDate endDate) = false
     ∧ is_ok (ExpenseRepository.GetByDateRange expenses userID startDate endDate) = false
     ∧ (userID ≠ 0%N → startDate ≠ "" → endDate ≠ "" →
        IncomeHandler.GetIncomeByDateRange incomes userID startDate endDate
        = utils.WriteErrorResponse "Failed to retrieve income records"
            utils.StatusInternalServerError
        ∧ ExpenseHandler.GetExpenseByDateRange expenses userID startDate endDate
          = utils.WriteErrorResponse "Failed to retrieve expense records"
              utils.StatusInternalServerError))
  ∧ (userID ≠ 0%N → startDate = "" ∨ endDate = "" →
     IncomeHandler.GetIncomeByDateRange incomes userID startDate endDate
     = utils.WriteErrorResponse "Start date and end date are required"
         utils.StatusBadRequest
     ∧ ExpenseHandler.GetExpenseByDateRange expenses userID startDate endDate
       = utils.WriteErrorResponse "Start date and end date are required"
           utils.StatusBadRequest).
Proof.
  unfold IncomeHandler.GetIncomeByDateRange, ExpenseHandler.GetExpenseByDateRange,
    IncomeRepository.GetByDateRange, ExpenseRepository.GetByDateRange.
  split; [|split].
  - intros lower upper -> ->. eexists _, _. split; [reflexivity|]. split; [reflexivity|].
    assert (∀ d, timestamp_leb lower upper = false →
                 date_between lower upper d = false) as Hempty.
    { intros d Hlu. unfold date_between.
      destruct lower as [|x|], upper as [|y|]; simpl in *;
        rewrite ?andb_false_r; try done.
      apply Z.leb_gt in Hlu. apply andb_false_iff.
      destruct (Z.leb_spec x (midnight_utc d)); [right; apply Z.leb_gt; lia|by left]. }
    split; [|split; [|split; [|split; [|split; [|split]]]]].
    + intros i. rewrite order_by_elem_of, Find_elem_of.
      unfold IncomeRepository.owned_by. rewrite !andb_true_iff, N.eqb_eq. tauto.
    + intros e. rewrite order_by_elem_of, Find_elem_of.
      unfold ExpenseRepository.owned_by. rewrite !andb_true_iff, N.eqb_eq. tauto.
    + apply (order_by_newest_first Income.Date).
    + apply (order_by_newest_first Expense.Date).
    + intros Hlu. split; apply elem_of_nil_inv.
      * intros i Hi. apply order_by_elem_of, Find_elem_of in Hi as (_ & Hc & _).
        apply andb_true_iff in Hc as [_ Hc]. by rewrite Hempty in Hc.
      * intros e He. apply order_by_elem_of, Find_elem_of in He as (_ & Hc & _).
        apply andb_true_iff in Hc as [_ Hc]. by rewrite Hempty in Hc.
    + intros d1 d2 d -> -> H1 H2 Hd. by apply date_between_midnights.
    + intros Hu%N.eqb_neq Hs%String.eqb_neq He%String.eqb_neq. by rewrite Hu, Hs, He.
  - intros Hbad.
    destruct (timestamptz_in startDate) as [lower|e1]; simpl in Hbad.
    + destruct (timestamptz_in endDate) as [upper|e2]; [done|].
      split; [done|]. split; [done|].
      intros Hu%N.eqb_neq Hs%String.eqb_neq He%String.eqb_neq. by rewrite Hu, Hs, He.
    + split; [done|]. split; [done|].
      intros Hu%N.eqb_neq Hs%String.eqb_neq He%String.eqb_neq. by rewrite Hu, Hs, He.
  - intros Hu%N.eqb_neq [-> | ->].
    + by rewrite Hu.
    + rewrite Hu. by rewrite !orb_true_r.
Qed.

Lemma date_range_is_scoped_and_sorted_witness :
  IncomeRepository.GetByDateRange Examples.incomes 1 "2025-01-10" "2025-01-31"
  = Ok [Examples.gold_sale]
  ∧ IncomeRepository.GetByDateRange Examples.incomes 1 "2025-01-11" "2025-01-31" = Ok []
  ∧ (∃ incs,
       IncomeRepository.GetByDateRange Examples.incomes 1 "2025-01-10" "2025-01-31"
       = Ok incs
       ∧ Examples.gold_sale ∈ incs ∧ newest_first_sorted Income.Date incs)
  ∧ IncomeHandler.GetIncomeByDateRange Examples.incomes 1 "2025-01-01" "next week"
    = utils.WriteErrorResponse "Failed to retrieve income records"
        utils.StatusInternalServerError
  ∧ ExpenseHandler.GetExpenseByDateRange Examples.expenses 1 "2025-01-01" ""
    = utils.WriteErrorResponse "Start date and end date are required"
        utils.StatusBadRequest.
Proof.
  split; [reflexivity|]. split; [reflexivity|]. split; [|split].
  - destruct (date_range_is_scoped_and_sorted Examples.incomes Examples.expenses 1
                "2025-01-10" "2025-01-31") as (Hread & _).
    destruct (Hread _ _ eq_refl eq_refl) as (incs & exps & Hq & _ & Hin & _ & Hs & _).
    exists incs. split; [exact Hq|]. split; [|exact Hs].
    apply Hin. split; [by left|]. repeat split.
  - destruct (date_range_is_scoped_and_sorted Examples.incomes Examples.expenses 1
                "2025-01-01" "next week") as (_ & Hbad & _).
    destruct (Hbad eq_refl) as (_ & _ & Hh).
    apply Hh; [lia|discriminate..].
  - destruct (date_range_is_scoped_and_sorted Examples.incomes Examples.expenses 1
                "2025-01-01" "") as (_ & _ & Hempty).
    apply Hempty; [lia|by right].
Defined.

(** ** Keys, writes and lookups *)

Section GormWrites.
Context {R : Type} `{SchemaLaws R}.
Implicit Types (t : Table R) (r : R) (cond : R → bool).

Lemma Delete_ids cond now t :
  map id_of (rows (Delete cond now t)) = map id_of (rows t).
Proof.
  unfold Delete. simpl. rewrite map_map. apply map_ext. intros r.
  destruct (cond r && is_live r); [apply id_of_set_deleted_at|done].
Qed.

Lemma Updates_ids cond (f : R → R) now t :
  (∀ r, id_of (f r) = id_of r) →
  map id_of (rows (Updates cond f now t)) = map id_of (rows t).
Proof.
  intros Hf. unfold Updates. simpl. rewrite map_map. apply map_ext. intros r.
  destruct (cond r && is_live r); [|done]. by rewrite id_of_set_updated_at.
Qed.

Lemma Delete_pk_unique cond now t : pk_unique t → pk_unique (Delete cond now t).
Proof. unfold pk_unique. by rewrite Delete_ids. Qed.

Lemma Updates_pk_unique cond (f : R → R) now t :
  (∀ r, id_of (f r) = id_of r) → pk_unique t → pk_unique (Updates cond f now t).
Proof. intros Hf. unfold pk_unique. by rewrite Updates_ids. Qed.

Lemma has_id_elem_of id (l : list R) : has_id id l = true ↔ id ∈ map id_of l.
Proof.
  unfold has_id. rewrite existsb_exists, list_elem_of_In, in_map_iff.
  split; intros (x & Hx & Hy); exists x.
  - apply N.eqb_eq in Hy. done.
  - split; [done|]. by apply N.eqb_eq.
Qed.

Lemma Create_pk_unique now r t :
  pk_unique t → pk_unique (Create now r t).2.
Proof.
  unfold Create, pk_unique.
  set (id := if (ID (model r) =? 0)%N then _ else _).
  set (row := with_model _ (column_defaults r)).
  destruct (has_id id (rows t) || _) eqn:E; [done|]. simpl.
  apply orb_false_iff in E as [Hfresh _]. intros Hnd.
  rewrite map_app. simpl. apply NoDup_app. split; [done|]. split.
  - intros x Hx [->|[]%elem_of_nil]%elem_of_cons.
    assert (id_of row = id) as Hid by (unfold id_of, row; by rewrite model_with_model).
    rewrite Hid in Hx. apply has_id_elem_of in Hx. congruence.
  - apply NoDup_singleton.
Qed.

Lemma overwrite_ids keep r (l : list R) :
  map id_of (overwrite keep r l) = map id_of l.
Proof.
  unfold overwrite. rewrite map_map. apply map_ext. intros old.
  destruct (id_of old =? id_of r)%N eqn:E; [|done]. apply N.eqb_eq in E.
  destruct keep; [|done]. unfold id_of at 1. by rewrite model_with_model.
Qed.

Lemma Save_pk_unique now r t :
  pk_unique t → pk_unique (Save now r t).2.
Proof.
  intros Hpk. unfold Save. destruct (id_of r =? 0)%N; [by apply Create_pk_unique|].
  destruct (negb _); [done|].
  destruct (existsb _ _).
  { unfold pk_unique. simpl. by rewrite overwrite_ids. }
  destruct (has_id (id_of r) (rows t)) eqn:Hh; unfold pk_unique; simpl.
  - by rewrite overwrite_ids.
  - rewrite map_app. simpl. apply NoDup_app. split; [done|]. split.
    + intros x Hx [->|[]%elem_of_nil]%elem_of_cons.
      rewrite id_of_set_updated_at in Hx. apply has_id_elem_of in Hx. congruence.
    + apply NoDup_singleton.
Qed.

(** A row just created is what a lookup by its key finds, when the lookup's
    condition accepts it and nothing else but that key. *)
Lemma Create_then_First now r t r' t' cond :
  Create now r t = (r', None, t') →
  cond r' = true → is_live r' = true →
  (∀ x, cond x = true → id_of x = id_of r') →
  First cond t' = Ok r'.
Proof.
  unfold Create.
  set (id := if (ID (model r) =? 0)%N then _ else _).
  set (row := with_model _ (column_defaults r)).
  destruct (has_id id (rows t) || _) eqn:E; [done|].
  intros [= <- <-] Hc Hl Hkey. apply orb_false_iff in E as [Hfresh _].
  assert (id_of row = id) as Hid by (unfold id_of, row; by rewrite model_with_model).
  unfold First, Find. simpl. rewrite filter_app.
  assert (filter (λ x, cond x && is_live x) (rows t) = []) as ->.
  { apply elem_of_nil_inv. intros x [Hx Hin]%list_elem_of_filter.
    apply Is_true_true, andb_true_iff in Hx as [Hx _]. apply Hkey in Hx.
    rewrite Hid in Hx. pose proof (has_id_false id (rows t) Hfresh x Hin) as Hne.
    apply N.eqb_neq in Hne. done. }
  rewrite filter_cons, Hc, Hl. simpl. done.
Qed.

Lemma Create_then_First_miss now r t r' t' cond :
  Create now r t = (r', None, t') →
  cond r' = false →
  (∀ x, cond x = true → id_of x = id_of r') →
  First cond t' = Err ErrRecordNotFound.
Proof.
  unfold Create.
  set (id := if (ID (model r) =? 0)%N then _ else _).
  set (row := with_model _ (column_defaults r)).
  destruct (has_id id (rows t) || _) eqn:E; [done|].
  intros [= <- <-] Hc Hkey. apply orb_false_iff in E as [Hfresh _].
  assert (id_of row = id) as Hid by (unfold id_of, row; by rewrite model_with_model).
  apply First_not_found. simpl. intros x [Hx| ->%list_elem_of_singleton]%elem_of_app Hcx.
  - apply Hkey in Hcx. rewrite Hid in Hcx.
    pose proof (has_id_false id (rows t) Hfresh x Hx) as Hne.
    apply N.eqb_neq in Hne. done.
  - congruence.
Qed.

End GormWrites.

Section RoundTrips.
Context {F : Type} `{Float64 F}.

Lemma income_created_fields (x r' : Income.t F) (m : Gorm.Model) :
  r' = with_model m (column_defaults x) →
  Income.UserID r' = Income.UserID x ∧ Income.Date r' = Income.Date x
  ∧ Income.Quantity r' = Income.Quantity x
  ∧ Income.PricePerUnit r' = Income.PricePerUnit x
  ∧ Income.AmountPaid r' = Income.AmountPaid x
  ∧ Income.TotalAmount r' = Income.TotalAmount x
  ∧ Income.AmountDue r' = Income.AmountDue x.
Proof.
  intros ->. simpl. by destruct (String.eqb (Income.PaymentStatus x) ""), x.
Qed.

Lemma expense_created_fields (x r' : Expense.t F) (m : Gorm.Model) :
  r' = with_model m (column_defaults x) →
  Expense.UserID r' = Expense.UserID x ∧ Expense.Date r' = Expense.Date x
  ∧ Expense.Category r' = Expense.Category x
  ∧ Expense.Amount r' = Expense.Amount x
  ∧ Expense.AmountPaid r' = Expense.AmountPaid x
  ∧ Expense.AmountDue r' = Expense.AmountDue x.
Proof.
  intros ->. simpl. by destruct (String.eqb (Expense.PaymentStatus x) ""), x.
Qed.

Lemma Create_is_live {R} `{SchemaLaws R} now (r r' : R) (t t' : Table R) :
  Create now r t = (r', None, t') → DeletedAt (model r) = None → is_live r' = true.
Proof.
  unfold Create. destruct (has_id _ _ || _); [done|]. intros [= <- _] Hd.
  unfold is_live, deleted_at. by rewrite model_with_model, Hd.
Qed.

End RoundTrips.

Section InsertLookup.
Context {F : Type} `{Float64 F}.

Lemma income_insert_lookup (db db' : Table (Income.t F)) now (income income' : Income.t F) id :
  IncomeRepository.Insert db now income = (income', id, None, db') →
  DeletedAt (Income.Model income) = None →
  IncomeRepository.GetOne db' id (Income.UserID income) = Ok income'
  ∧ id_of income' = id
  ∧ income_amounts_consistent income' ∧ same_income_inputs income' income
  ∧ ∀ other, other ≠ Income.UserID income →
             IncomeRepository.GetOne db' id other = Err ErrRecordNotFound.
Proof.
  unfold IncomeRepository.Insert.
  destruct (Create now _ db) as [[r' err] t'] eqn:E. intros [= <- <- -> <-] Hd.
  pose proof E as E'. apply Create_stored in E' as [_ [m Hr]].
  destruct (income_created_fields _ r' m Hr) as (Hu & _).
  assert (Income.UserID r' = Income.UserID income) as Hu'.
  { rewrite Hu. by destruct income. }
  destruct (income_recalculate_consistent income) as [Hc Hi].
  destruct (income_written_row _ r' m (or_intror Hr) Hc) as [Hc' Hi'].
  unfold IncomeRepository.GetOne. split; [|split; [done|split; [done|split]]].
  - rewrite (Create_then_First _ _ _ _ _ _ E); [done| | |].
    + rewrite N.eqb_refl. unfold IncomeRepository.owned_by. rewrite Hu'.
      by rewrite N.eqb_refl.
    + eapply Create_is_live; [exact E|]. by destruct income.
    + intros x [Hx _]%andb_true_iff. by apply N.eqb_eq in Hx.
  - by eapply same_income_inputs_trans.
  - intros other Hne.
    rewrite (Create_then_First_miss _ _ _ _ _ _ E); [done| |].
    + rewrite N.eqb_refl. unfold IncomeRepository.owned_by. rewrite Hu'.
      apply N.eqb_neq. congruence.
    + intros x [Hx _]%andb_true_iff. by apply N.eqb_eq in Hx.
Qed.

Lemma expense_insert_lookup (db db' : Table (Expense.t F)) now
  (expense expense' : Expense.t F) id :
  ExpenseRepository.Insert db now expense = (expense', id, None, db') →
  DeletedAt (Expense.Model expense) = None →
  ExpenseRepository.GetOne db' id (Expense.UserID expense) = Ok expense'
  ∧ id_of expense' = id
  ∧ expense_amounts_consistent expense' ∧ same_expense_inputs expense' expense
  ∧ ∀ other, other ≠ Expense.UserID expense →
             ExpenseRepository.GetOne db' id other = Err ErrRecordNotFound.
Proof.
  unfold ExpenseRepository.Insert.
  destruct (Create now _ db) as [[r' err] t'] eqn:E. intros [= <- <- -> <-] Hd.
  pose proof E as E'. apply Create_stored in E' as [_ [m Hr]].
  destruct (expense_created_fields _ r' m Hr) as (Hu & _).
  assert (Expense.UserID r' = Expense.UserID expense) as Hu'.
  { rewrite Hu. by destruct expense. }
  destruct (expense_recalculate_consistent expense) as [Hc Hi].
  destruct (expense_written_row _ r' m (or_intror Hr) Hc) as [Hc' Hi'].
  unfold ExpenseRepository.GetOne. split; [|split; [done|split; [done|split]]].
  - rewrite (Create_then_First _ _ _ _ _ _ E); [done| | |].
    + rewrite N.eqb_refl. unfold ExpenseRepository.owned_by. rewrite Hu'.
      by rewrite N.eqb_refl.
    + eapply Create_is_live; [exact E|]. by destruct expense.
    + intros x [Hx _]%andb_true_iff. by apply N.eqb_eq in Hx.
  - by eapply same_expense_inputs_trans.
  - intros other Hne.
    rewrite (Create_then_First_miss _ _ _ _ _ _ E); [done| |].
    + rewrite N.eqb_refl. unfold ExpenseRepository.owned_by. rewrite Hu'.
      apply N.eqb_neq. congruence.
    + intros x [Hx _]%andb_true_iff. by apply N.eqb_eq in Hx.
Qed.

End InsertLookup.

(** X3.  A record that was inserted without error, and not already marked
    deleted, is what a get-one with the returned id and the record's owner
    finds: with the amounts as recomputed and otherwise the caller's fields.
    A get-one with the returned id and any other user finds nothing. *)
Theorem insert_then_get_one {F : Type} `{Float64 F} :
  (∀ (db db' : Table (Income.t F)) now (income income' : Income.t F) id,
     IncomeRepository.Insert db now income = (income', id, None, db') →
     DeletedAt (Income.Model income) = None →
     IncomeRepository.GetOne db' id (Income.UserID income) = Ok income'
     ∧ id_of income' = id
     ∧ income_amounts_consistent income' ∧ same_income_inputs income' income
     ∧ ∀ other, other ≠ Income.UserID income →
                IncomeRepository.GetOne db' id other = Err ErrRecordNotFound)
  ∧ (∀ (db db' : Table (Expense.t F)) now (expense expense' : Expense.t F) id,
       ExpenseRepository.Insert db now expense = (expense', id, None, db') →
       DeletedAt (Expense.Model expense) = None →
       ExpenseRepository.GetOne db' id (Expense.UserID expense) = Ok expense'
       ∧ id_of expense' = id
       ∧ expense_amounts_consistent expense' ∧ same_expense_inputs expense' expense
       ∧ ∀ other, other ≠ Expense.UserID expense →
                  ExpenseRepository.GetOne db' id other = Err ErrRecordNotFound).
Proof.
  split; [apply @income_insert_lookup|apply @expense_insert_lookup].
Qed.

Lemma insert_then_get_one_witness :
  let '(income', id, err, db') :=
    IncomeRepository.Insert Examples.incomes 3000 Examples.new_sale in
  err = None
  ∧ IncomeRepository.GetOne db' id 1 = Ok income'
  ∧ IncomeRepository.GetOne db' id 2 = Err ErrRecordNotFound.
Proof.
  destruct (IncomeRepository.Insert Examples.incomes 3000 Examples.new_sale)
    as [[[income' id] err] db'] eqn:E.
  assert (err = None) as -> by (vm_compute in E; congruence).
  destruct (proj1 insert_then_get_one Examples.incomes db' 3000%Z Examples.new_sale
              income' id E eq_refl) as (Hget & _ & _ & _ & Hother).
  split; [done|]. split; [exact Hget|]. apply Hother. discriminate.
Defined.

(** ** Primary keys stay unique *)

Section KeysStayUnique.
Context {F : Type} `{Float64 F} `{Bcrypt}.

Lemma income_writes_keep_keys (db : Table (Income.t F)) now :
  pk_unique db →
  (∀ income, pk_unique (IncomeRepository.Insert db now income).2
             ∧ pk_unique (IncomeRepository.Update db now income).2)
  ∧ (∀ id userID, pk_unique (IncomeRepository.Delete db now id userID).2).
Proof.
  intros Hpk. split; [intros income; split|intros id userID].
  - unfold IncomeRepository.Insert.
    pose proof (Create_pk_unique now (IncomeRepository.recalculate income) db Hpk) as Hc.
    by destruct (Create now _ db) as [[? ?] ?].
  - by apply Save_pk_unique.
  - by apply Delete_pk_unique.
Qed.

Lemma expense_writes_keep_keys (db : Table (Expense.t F)) now :
  pk_unique db →
  (∀ expense, pk_unique (ExpenseRepository.Insert db now expense).2
              ∧ pk_unique (ExpenseRepository.Update db now expense).2)
  ∧ (∀ id userID, pk_unique (ExpenseRepository.Delete db now id userID).2).
Proof.
  intros Hpk. split; [intros expense; split|intros id userID].
  - unfold ExpenseRepository.Insert.
    pose proof (Create_pk_unique now (ExpenseRepository.recalculate expense) db Hpk) as Hc.
    by destruct (Create now _ db) as [[? ?] ?].
  - by apply Save_pk_unique.
  - by apply Delete_pk_unique.
Qed.

Lemma inventory_writes_keep_keys (db : Table (InventoryItem.t F)) now :
  pk_unique db →
  (∀ item, pk_unique (InventoryRepository.Insert db now item).2
           ∧ pk_unique (InventoryRepository.Update db now item).2)
  ∧ (∀ id userID, pk_unique (InventoryRepository.Delete db now id userID).2)
  ∧ (∀ id userID quantity,
       pk_unique (InventoryRepository.UpdateQuantity db now id userID quantity).2).
Proof.
  intros Hpk. split; [intros item; split|split; [intros id userID|intros id userID q]].
  - unfold InventoryRepository.Insert.
    pose proof (Create_pk_unique now (InventoryItem.with_LastUpdated now item) db Hpk) as Hc.
    by destruct (Create now _ db) as [[? ?] ?].
  - by apply Save_pk_unique.
  - by apply Delete_pk_unique.
  - by apply Updates_pk_unique.
Qed.

Lemma user_writes_keep_keys (db : Table User.t) now :
  pk_unique db →
  (∀ user, pk_unique (UserRepository.Insert db now user).2
           ∧ pk_unique (UserRepository.Update db now user).2)
  ∧ (∀ userID newPassword,
       pk_unique (UserRepository.ResetPassword db now userID newPassword).2)
  ∧ (∀ draw email, pk_unique (UserRepository.GenerateAndSaveOTP db now draw email).2)
  ∧ (∀ email otp newPassword,
       pk_unique (UserRepository.ResetPasswordWithOTP db now email otp newPassword).2).
Proof.
  intros Hpk.
  split; [intros user; split
         |split; [intros userID pw|split; [intros draw email|intros email otp pw]]].
  - unfold UserRepository.Insert.
    destruct (UserRepository.HashPassword _) as [hashed|]; [|done].
    pose proof (Create_pk_unique now (User.with_Password hashed user) db Hpk) as Hc.
    by destruct (Create now _ db) as [[? ?] ?].
  - unfold UserRepository.Update. destruct (negb _); [|by apply Save_pk_unique].
    destruct (UserRepository.HashPassword _); [by apply Save_pk_unique|done].
  - unfold UserRepository.ResetPassword. destruct (UserRepository.HashPassword _); [|done].
    by apply Updates_pk_unique.
  - unfold UserRepository.GenerateAndSaveOTP.
    destruct (UserRepository.generateOTP _); [|done].
    by apply Updates_pk_unique.
  - unfold UserRepository.ResetPasswordWithOTP.
    destruct (UserRepository.VerifyOTP _ _ _ _) as [[|]|]; [|done..].
    destruct (UserRepository.HashPassword _); [|done].
    by apply Updates_pk_unique.
Qed.

End KeysStayUnique.

(** X4.  The empty store has unique primary keys, and every write of the four
    repositories keeps them unique, whether it succeeds or fails: insert,
    update and delete of incomes, expenses and inventory items, the quantity
    update, and for users insert, update, both password resets and the
    saving of a one-time code. *)
Theorem writes_keep_primary_keys_unique {F : Type} `{Float64 F} `{Bcrypt} (now : Time) :
  (pk_unique (@Gorm.empty (Income.t F)) ∧ pk_unique (@Gorm.empty (Expense.t F))
   ∧ pk_unique (@Gorm.empty (InventoryItem.t F)) ∧ pk_unique (@Gorm.empty User.t))
  ∧ (∀ db : Table (Income.t F), pk_unique db →
       (∀ income, pk_unique (IncomeRepository.Insert db now income).2
                  ∧ pk_unique (IncomeRepository.Update db now income).2)
       ∧ (∀ id userID, pk_unique (IncomeRepository.Delete db now id userID).2))
  ∧ (∀ db : Table (Expense.t F), pk_unique db →
       (∀ expense, pk_unique (ExpenseRepository.Insert db now expense).2
                   ∧ pk_unique (ExpenseRepository.Update db now expense).2)
       ∧ (∀ id userID, pk_unique (ExpenseRepository.Delete db now id userID).2))
  ∧ (∀ db : Table (InventoryItem.t F), pk_unique db →
       (∀ item, pk_unique (InventoryRepository.Insert db now item).2
                ∧ pk_unique (InventoryRepository.Update db now item).2)
       ∧ (∀ id userID, pk_unique (InventoryRepository.Delete db now id userID).2)
       ∧ (∀ id userID quantity,
            pk_unique (InventoryRepository.UpdateQuantity db now id userID quantity).2))
  ∧ (∀ db : Table User.t, pk_unique db →
       (∀ user, pk_unique (UserRepository.Insert db now user).2
                ∧ pk_unique (UserRepository.Update db now user).2)
       ∧ (∀ userID newPassword,
            pk_unique (UserRepository.ResetPassword db now userID newPassword).2)
       ∧ (∀ draw email, pk_unique (UserRepository.GenerateAndSaveOTP db now draw email).2)
       ∧ (∀ email otp newPassword,
            pk_unique (UserRepository.ResetPasswordWithOTP db now email otp newPassword).2)).
Proof.
  split; [repeat split; apply NoDup_nil_2|].
  split; [intros db; apply income_writes_keep_keys|].
  split; [intros db; apply expense_writes_keep_keys|].
  split; [intros db; apply inventory_writes_keep_keys|].
  intros db; apply user_writes_keep_keys.
Qed.

Lemma writes_keep_primary_keys_unique_witness :
  pk_unique Examples.incomes
  ∧ pk_unique (IncomeRepository.Insert Examples.incomes 3000 Examples.new_sale).2
  ∧ pk_unique (IncomeRepository.Delete Examples.incomes 3000 1 1).2.
Proof.
  assert (pk_unique Examples.incomes) as Hpk.
  { unfold pk_unique. apply (bool_decide_unpack _). vm_compute. exact I. }
  destruct (writes_keep_primary_keys_unique (F := float) (H0 := Examples.example_bcrypt) 3000%Z)
    as (_ & Hincome & _).
  destruct (Hincome Examples.incomes Hpk) as [Hw Hd].
  split; [exact Hpk|]. split; [apply Hw|apply Hd].
Defined.

(** ** What a delete changes *)

Section GormDelete.
Context {R : Type} `{SchemaLaws R}.
Implicit Types (t : Table R) (r : R) (cond : R → bool).

Lemma First_after_Delete cond now t :
  First cond (Delete cond now t) = Err ErrRecordNotFound.
Proof.
  apply First_not_found. intros r Hr Hc.
  destruct (is_live r) eqn:Hl; [|done].
  pose proof (Delete_hides cond now t r Hr Hl). congruence.
Qed.

Lemma Delete_elem_of_kept cond now t r :
  r ∈ rows t → cond r = false → r ∈ rows (Delete cond now t).
Proof.
  intros Hr Hc. unfold Delete. simpl. apply list_elem_of_In, in_map_iff.
  exists r. rewrite Hc. simpl. split; [done|]. by apply list_elem_of_In.
Qed.

Lemma Find_Delete_elem_of cond' cond now t r :
  r ∈ Find cond' (Delete cond now t) ↔ r ∈ Find cond' t ∧ cond r = false.
Proof.
  rewrite !Find_elem_of. split.
  - intros (Hr & Hc' & Hl). pose proof (Delete_hides cond now t r Hr Hl) as Hc.
    apply Delete_not_live in Hr as [(r0 & _ & _ & _ & ->)|[Hr _]].
    + by rewrite is_live_set_deleted_at in Hl.
    + done.
  - intros ((Hr & Hc' & Hl) & Hc). split; [|done]. by apply Delete_elem_of_kept.
Qed.

(** A query that none of the deleted rows could answer is not affected. *)
Lemma Find_Delete_other cond' cond now t :
  (∀ r, cond' r = true → cond r = false) →
  Find cond' (Delete cond now t) = Find cond' t.
Proof.
  intros Hdisj. unfold Find, Delete. simpl.
  induction (rows t) as [|x l IH]; [done|]. simpl.
  rewrite !filter_cons, IH.
  destruct (cond x && is_live x) eqn:E.
  - apply andb_true_iff in E as [Hc Hl].
    rewrite is_live_set_deleted_at, andb_false_r.
    destruct (cond' x) eqn:Hc'; [|done]. apply Hdisj in Hc'. congruence.
  - done.
Qed.

Lemma Find_first_other cond' cond now t :
  (∀ r, cond' r = true → cond r = false) →
  First cond' (Delete cond now t) = First cond' t.
Proof. intros Hdisj. unfold First. by rewrite Find_Delete_other. Qed.

Lemma Delete_twice cond now now' t :
  Delete cond now' (Delete cond now t) = Delete cond now t.
Proof.
  apply Delete_no_match. intros r Hr Hc.
  destruct (is_live r) eqn:Hl; [|done].
  pose proof (Delete_hides cond now t r Hr Hl). congruence.
Qed.

End GormDelete.

(** X5.  Deleting a record by id and owner is never an error.  Afterwards a
    get-one with that id and owner answers record-not-found, the owner's list
    is the old list without the records of that id, every get-one with another
    id or another user answers as before, the lists of every other user are
    as before, and a second delete changes nothing.  The same holds for
    incomes, expenses and inventory items. *)
Theorem delete_then_reads {F : Type} `{Float64 F} `{Postgres F}
  (now : Time) (id userID : N) :
  (∀ db : Table (Income.t F),
     let db' := (IncomeRepository.Delete db now id userID).2 in
     (IncomeRepository.Delete db now id userID).1 = None
     ∧ IncomeRepository.GetOne db' id userID = Err ErrRecordNotFound
     ∧ (∃ before after,
          IncomeRepository.GetAll db userID = Ok before
          ∧ IncomeRepository.GetAll db' userID = Ok after
          ∧ ∀ r, r ∈ after ↔ r ∈ before ∧ id_of r ≠ id)
     ∧ (∀ id' userID', id' ≠ id ∨ userID' ≠ userID →
          IncomeRepository.GetOne db' id' userID' = IncomeRepository.GetOne db id' userID')
     ∧ (∀ userID' d1 d2, userID' ≠ userID →
          IncomeRepository.GetAll db' userID' = IncomeRepository.GetAll db userID'
          ∧ IncomeRepository.GetByDateRange db' userID' d1 d2
            = IncomeRepository.GetByDateRange db userID' d1 d2)
     ∧ (∀ now', IncomeRepository.Delete db' now' id userID = (None, db')))
  ∧ (∀ db : Table (Expense.t F),
       let db' := (ExpenseRepository.Delete db now id userID).2 in
       (ExpenseRepository.Delete db now id userID).1 = None
       ∧ ExpenseRepository.GetOne db' id userID = Err ErrRecordNotFound
       ∧ (∃ before after,
            ExpenseRepository.GetAll db userID = Ok before
            ∧ ExpenseRepository.GetAll db' userID = Ok after
            ∧ ∀ r, r ∈ after ↔ r ∈ before ∧ id_of r ≠ id)
       ∧ (∀ id' userID', id' ≠ id ∨ userID' ≠ userID →
            ExpenseRepository.GetOne db' id' userID'
            = ExpenseRepository.GetOne db id' userID')
       ∧ (∀ userID' d1 d2, userID' ≠ userID →
            ExpenseRepository.GetAll db' userID' = ExpenseRepository.GetAll db userID'
            ∧ ExpenseRepository.GetByDateRange db' userID' d1 d2
              = ExpenseRepository.GetByDateRange db userID' d1 d2)
       ∧ (∀ now', ExpenseRepository.Delete db' now' id userID = (None, db')))
  ∧ (∀ db : Table (InventoryItem.t F),
       let db' := (InventoryRepository.Delete db now id userID).2 in
       (InventoryRepository.Delete db now id userID).1 = None
       ∧ InventoryRepository.GetOne db' id userID = Err ErrRecordNotFound
       ∧ (∃ before after,
            InventoryRepository.GetAll db userID = Ok before
            ∧ InventoryRepository.GetAll db' userID = Ok after
            ∧ ∀ r, r ∈ after ↔ r ∈ before ∧ id_of r ≠ id)
       ∧ (∀ id' userID', id' ≠ id ∨ userID' ≠ userID →
            InventoryRepository.GetOne db' id' userID'
            = InventoryRepository.GetOne db id' userID')
       ∧ (∀ userID', userID' ≠ userID →
            InventoryRepository.GetAll db' userID' = InventoryRepository.GetAll db userID'
            ∧ InventoryRepository.GetLowStockItems db' userID'
              = InventoryRepository.GetLowStockItems db userID')
       ∧ (∀ now', InventoryRepository.Delete db' now' id userID = (None, db'))).
Proof.
  assert (∀ a b c d : N, a ≠ b ∨ c ≠ d → ((a =? b) && (c =? d))%N = false) as Hneq.
  { intros a b c d [Hn|Hn]; apply andb_false_iff; [left|right]; by apply N.eqb_neq. }
  split; [|split]; intros db; cbn zeta.
  - unfold IncomeRepository.Delete, IncomeRepository.GetOne, IncomeRepository.GetAll,
      IncomeRepository.GetByDateRange; cbn [fst snd].
    split; [done|]. split; [by rewrite First_after_Delete|]. split; [|split; [|split]].
    + eexists _, _. split; [done|]. split; [done|]. intros r.
      rewrite !order_by_elem_of, Find_Delete_elem_of, Find_elem_of.
      unfold IncomeRepository.owned_by. split.
      * intros ((Hr & Ho & Hl) & Hc). split; [done|]. rewrite Ho, andb_true_r in Hc.
        by apply N.eqb_neq.
      * intros ((Hr & Ho & Hl) & Hne). split; [done|]. rewrite Ho, andb_true_r.
        by apply N.eqb_neq.
    + intros id' userID' Hne. rewrite Find_first_other; [done|].
      intros r [Hi Ho]%andb_true_iff. apply N.eqb_eq in Hi, Ho.
      unfold IncomeRepository.owned_by. rewrite Hi, Ho. by apply Hneq.
    + intros userID' d1 d2 Hne. split.
      * rewrite Find_Delete_other; [done|].
        intros r Ho. apply N.eqb_eq in Ho.
        unfold IncomeRepository.owned_by. rewrite Ho. apply Hneq. by right.
      * destruct (timestamptz_in d1), (timestamptz_in d2); try done.
        rewrite Find_Delete_other; [done|].
        intros r [Ho _]%andb_true_iff. apply N.eqb_eq in Ho.
        unfold IncomeRepository.owned_by. rewrite Ho. apply Hneq. by right.
    + intros now'. by rewrite Delete_twice.
  - unfold ExpenseRepository.Delete, ExpenseRepository.GetOne, ExpenseRepository.GetAll,
      ExpenseRepository.GetByDateRange; cbn [fst snd].
    split; [done|]. split; [by rewrite First_after_Delete|]. split; [|split; [|split]].
    + eexists _, _. split; [done|]. split; [done|]. intros r.
      rewrite !order_by_elem_of, Find_Delete_elem_of, Find_elem_of.
      unfold ExpenseRepository.owned_by. split.
      * intros ((Hr & Ho & Hl) & Hc). split; [done|]. rewrite Ho, andb_true_r in Hc.
        by apply N.eqb_neq.
      * intros ((Hr & Ho & Hl) & Hne). split; [done|]. rewrite Ho, andb_true_r.
        by apply N.eqb_neq.
    + intros id' userID' Hne. rewrite Find_first_other; [done|].
      intros r [Hi Ho]%andb_true_iff. apply N.eqb_eq in Hi, Ho.
      unfold ExpenseRepository.owned_by. rewrite Hi, Ho. by apply Hneq.
    + intros userID' d1 d2 Hne. split.
      * rewrite Find_Delete_other; [done|].
        intros r Ho. apply N.eqb_eq in Ho.
        unfold ExpenseRepository.owned_by. rewrite Ho. apply Hneq. by right.
      * destruct (timestamptz_in d1), (timestamptz_in d2); try done.
        rewrite Find_Delete_other; [done|].
        intros r [Ho _]%andb_true_iff. apply N.eqb_eq in Ho.
        unfold ExpenseRepository.owned_by. rewrite Ho. apply Hneq. by right.
    + intros now'. by rewrite Delete_twice.
  - unfold InventoryRepository.Delete, InventoryRepository.GetOne,
      InventoryRepository.GetAll, InventoryRepository.GetLowStockItems; cbn [fst snd].
    split; [done|]. split; [by rewrite First_after_Delete|]. split; [|split; [|split]].
    + eexists _, _. split; [done|]. split; [done|]. intros r.
      rewrite !order_by_elem_of, Find_Delete_elem_of, Find_elem_of.
      unfold InventoryRepository.owned_by. split.
      * intros ((Hr & Ho & Hl) & Hc). split; [done|]. rewrite Ho, andb_true_r in Hc.
        by apply N.eqb_neq.
      * intros ((Hr & Ho & Hl) & Hne). split; [done|]. rewrite Ho, andb_true_r.
        by apply N.eqb_neq.
    + intros id' userID' Hne. rewrite Find_first_other; [done|].
      intros r [Hi Ho]%andb_true_iff. apply N.eqb_eq in Hi, Ho.
      unfold InventoryRepository.owned_by. rewrite Hi, Ho. by apply Hneq.
    + intros userID' Hne.
      rewrite !Find_Delete_other; [done| |].
      * intros r [Ho _]%andb_true_iff. apply N.eqb_eq in Ho.
        unfold InventoryRepository.owned_by. rewrite Ho. apply Hneq. by right.
      * intros r Ho. apply N.eqb_eq in Ho.
        unfold InventoryRepository.owned_by. rewrite Ho. apply Hneq. by right.
    + intros now'. by rewrite Delete_twice.
Qed.

(** ** Writes of one user and reads of another *)

Section GormParts.
Context {R : Type} `{SchemaLaws R}.
Implicit Types (t : Table R) (r : R) (cond p : R → bool).

Lemma filter_implied p cond (l : list R) :
  (∀ r, cond r = true → p r = true) →
  filter (λ r, cond r) l = filter (λ r, cond r) (filter (λ r, p r) l).
Proof.
  intros Himp. rewrite list_filter_filter. apply list_filter_iff. intros r.
  rewrite !Is_true_true. split; [|tauto]. intros Hc. split; [done|by apply Himp].
Qed.

(** A query whose condition implies [p] reads the rows with [p] only. *)
Lemma Find_of_part p cond t t' :
  (∀ r, cond r = true → p r = true) →
  filter (λ r, p r) (rows t') = filter (λ r, p r) (rows t) →
  Find cond t' = Find cond t.
Proof.
  intros Himp Heq. unfold Find.
  rewrite (filter_implied p (λ r, cond r && is_live r) (rows t')),
          (filter_implied p (λ r, cond r && is_live r) (rows t)), Heq; [done|..];
    intros r [Hc _]%andb_true_iff; by apply Himp.
Qed.

Lemma First_of_part p cond t t' :
  (∀ r, cond r = true → p r = true) →
  filter (λ r, p r) (rows t') = filter (λ r, p r) (rows t) →
  First cond t' = First cond t.
Proof. intros Himp Heq. unfold First. by rewrite (Find_of_part p cond t t'). Qed.

Lemma Raw_where_of_part p cond t t' :
  (∀ r, cond r = true → p r = true) →
  filter (λ r, p r) (rows t') = filter (λ r, p r) (rows t) →
  Raw_where cond t' = Raw_where cond t.
Proof.
  intros Himp Heq. unfold Raw_where.
  by rewrite (filter_implied p cond (rows t')), (filter_implied p cond (rows t)), Heq.
Qed.

Lemma filter_map_changed p (g : R → R) (changed : R → bool) (l : list R) :
  (∀ r, r ∈ l → changed r = true → p r = false ∧ p (g r) = false) →
  filter (λ r, p r) (map (λ r, if changed r then g r else r) l) = filter (λ r, p r) l.
Proof.
  induction l as [|x l IH]; intros Hg; [done|]. simpl.
  rewrite !filter_cons, IH by (intros r Hr; apply Hg; by right).
  destruct (changed x) eqn:E; [|done].
  destruct (Hg x) as [-> ->]; [by left|done|done].
Qed.

Lemma filter_snoc_out p (l : list R) r :
  p r = false → filter (λ r, p r) (l ++ [r])%list = filter (λ r, p r) l.
Proof.
  intros Hp. rewrite filter_app, filter_cons, Hp. simpl. by rewrite app_nil_r.
Qed.

Lemma Delete_part p cond now t :
  (∀ r, cond r = true → p r = false ∧ ∀ m, p (with_model m r) = false) →
  filter (λ r, p r) (rows (Delete cond now t)) = filter (λ r, p r) (rows t).
Proof.
  intros Hc. unfold Delete. simpl. apply filter_map_changed.
  intros r _ [Hr _]%andb_true_iff. destruct (Hc r Hr) as [Hp Hm].
  split; [done|]. apply Hm.
Qed.

Lemma Updates_part p cond (f : R → R) now t :
  (∀ r, cond r = true → p r = false ∧ ∀ m, p (with_model m (f r)) = false) →
  filter (λ r, p r) (rows (Updates cond f now t)) = filter (λ r, p r) (rows t).
Proof.
  intros Hc. unfold Updates. simpl. apply filter_map_changed.
  intros r _ [Hr _]%andb_true_iff. destruct (Hc r Hr) as [Hp Hm].
  split; [done|]. apply Hm.
Qed.

Lemma Create_part p now r t :
  (∀ m, p (with_model m (column_defaults r)) = false) →
  filter (λ r, p r) (rows (Create now r t).2) = filter (λ r, p r) (rows t).
Proof.
  intros Hp. unfold Create. destruct (has_id _ _ || _); [done|]. simpl.
  by apply filter_snoc_out.
Qed.

Lemma Save_part p now r t :
  (∀ x, x ∈ rows t → id_of x = id_of r → p x = false) →
  (∀ m, p (with_model m r) = false) →
  (∀ m, p (with_model m (column_defaults r)) = false) →
  filter (λ r, p r) (rows (Save now r t).2) = filter (λ r, p r) (rows t).
Proof.
  intros Hold Hr Hd. unfold Save. destruct (id_of r =? 0)%N; [by apply Create_part|].
  destruct (negb _); [done|].
  assert (∀ keep, filter (λ r, p r) (overwrite keep (set_updated_at now r) (rows t))
                  = filter (λ r, p r) (rows t)) as Hover.
  { intros keep. unfold overwrite. apply filter_map_changed.
    intros x Hx Hid. rewrite id_of_set_updated_at in Hid. apply N.eqb_eq in Hid.
    split; [by apply Hold|]. destruct keep; [|apply Hr].
    cbn zeta. unfold set_updated_at. rewrite with_model_twice. apply Hr. }
  destruct (existsb _ _); [apply Hover|].
  destruct (has_id _ _); [apply Hover|]. simpl. apply filter_snoc_out, Hr.
Qed.

End GormParts.

Section OtherUsers.
Context {F : Type} `{Float64 F} `{Postgres F}.
Implicit Types (A B : N).

Lemma income_reads_of_part B (db db' : Table (Income.t F)) :
  filter (λ i, IncomeRepository.owned_by B i) (rows db')
  = filter (λ i, IncomeRepository.owned_by B i) (rows db) →
  same_income_reads B db db'.
Proof.
  intros Heq. unfold same_income_reads, IncomeRepository.GetAll, IncomeRepository.GetOne,
    IncomeRepository.GetByDateRange, IncomeRepository.GetFinancialSummary,
    IncomeRepository.GetMonthlyData.
  assert (∀ cond, (∀ r, cond r = true → IncomeRepository.owned_by B r = true) →
                  Find cond db' = Find cond db) as Hfind.
  { intros cond Hc. by apply (Find_of_part (IncomeRepository.owned_by B)). }
  split; [by rewrite Hfind|]. split.
  { intros id. rewrite (First_of_part (IncomeRepository.owned_by B) _ db db'); [done| |done].
    by intros r [_ ?]%andb_true_iff. }
  split.
  { intros d1 d2. destruct (timestamptz_in d1), (timestamptz_in d2); try done.
    rewrite Hfind; [done|]. by intros r [? _]%andb_true_iff. }
  split.
  { rewrite !(Hfind (λ i, IncomeRepository.owned_by B i && is_live i)),
      !(Hfind (λ i, IncomeRepository.owned_by B i && is_live i
                    && IncomeRepository.is_outstanding (Income.PaymentStatus i))); [done|..].
    - by intros r [[? _]%andb_true_iff _]%andb_true_iff.
    - by intros r [? _]%andb_true_iff. }
  intros y. rewrite (Raw_where_of_part (IncomeRepository.owned_by B) _ db db'); [done| |done].
  by intros r [? _]%andb_true_iff.
Qed.

Lemma expense_reads_of_part B (db db' : Table (Expense.t F)) :
  filter (λ e, ExpenseRepository.owned_by B e) (rows db')
  = filter (λ e, ExpenseRepository.owned_by B e) (rows db) →
  same_expense_reads B db db'.
Proof.
  intros Heq. unfold same_expense_reads, ExpenseRepository.GetAll, ExpenseRepository.GetOne,
    ExpenseRepository.GetByDateRange, ExpenseRepository.GetFinancialSummary,
    ExpenseRepository.GetCategoryBreakdown, ExpenseRepository.category_rows,
    ExpenseRepository.GetMonthlyData.
  assert (∀ cond, (∀ r, cond r = true → ExpenseRepository.owned_by B r = true) →
                  Find cond db' = Find cond db) as Hfind.
  { intros cond Hc. by apply (Find_of_part (ExpenseRepository.owned_by B)). }
  assert (∀ cond, (∀ r, cond r = true → ExpenseRepository.owned_by B r = true) →
                  Raw_where cond db' = Raw_where cond db) as Hraw.
  { intros cond Hc. by apply (Raw_where_of_part (ExpenseRepository.owned_by B)). }
  split; [by rewrite Hfind|]. split.
  { intros id. rewrite (First_of_part (ExpenseRepository.owned_by B) _ db db'); [done| |done].
    by intros r [_ ?]%andb_true_iff. }
  split.
  { intros d1 d2. destruct (timestamptz_in d1), (timestamptz_in d2); try done.
    rewrite Hfind; [done|]. by intros r [? _]%andb_true_iff. }
  split.
  { rewrite !(Hfind (ExpenseRepository.owned_by B)),
      !(Hfind (λ e, ExpenseRepository.owned_by B e
                    && ExpenseRepository.is_outstanding (Expense.PaymentStatus e)));
      [done|..]; [by intros r [? _]%andb_true_iff|done]. }
  split.
  { rewrite Hraw; [done|]. by intros r [? _]%andb_true_iff. }
  intros y. rewrite Hraw; [done|]. by intros r [? _]%andb_true_iff.
Qed.

Lemma inventory_reads_of_part B (db db' : Table (InventoryItem.t F)) :
  filter (λ i, InventoryRepository.owned_by B i) (rows db')
  = filter (λ i, InventoryRepository.owned_by B i) (rows db) →
  same_inventory_reads B db db'.
Proof.
  intros Heq. unfold same_inventory_reads, InventoryRepository.GetAll,
    InventoryRepository.GetOne, InventoryRepository.GetLowStockItems.
  assert (∀ cond, (∀ r, cond r = true → InventoryRepository.owned_by B r = true) →
                  Find cond db' = Find cond db) as Hfind.
  { intros cond Hc. by apply (Find_of_part (InventoryRepository.owned_by B)). }
  split; [by rewrite Hfind|]. split.
  { intros id. rewrite (First_of_part (InventoryRepository.owned_by B) _ db db'); [done| |done].
    by intros r [_ ?]%andb_true_iff. }
  rewrite Hfind; [done|]. by intros r [? _]%andb_true_iff.
Qed.

End OtherUsers.

Section OtherUsersWrites.
Context {F : Type} `{Float64 F} `{Postgres F}.
Implicit Types (A B : N).

Lemma income_owner_kept B m (i : Income.t F) :
  IncomeRepository.owned_by B (with_model m i) = IncomeRepository.owned_by B i
  ∧ IncomeRepository.owned_by B (with_model m (column_defaults i))
    = IncomeRepository.owned_by B i
  ∧ IncomeRepository.owned_by B (IncomeRepository.recalculate i)
    = IncomeRepository.owned_by B i.
Proof. simpl. by destruct (String.eqb (Income.PaymentStatus i) ""), i. Qed.

Lemma expense_owner_kept B m (e : Expense.t F) :
  ExpenseRepository.owned_by B (with_model m e) = ExpenseRepository.owned_by B e
  ∧ ExpenseRepository.owned_by B (with_model m (column_defaults e))
    = ExpenseRepository.owned_by B e
  ∧ ExpenseRepository.owned_by B (ExpenseRepository.recalculate e)
    = ExpenseRepository.owned_by B e.
Proof. simpl. by destruct (String.eqb (Expense.PaymentStatus e) ""), e. Qed.

Lemma inventory_owner_kept B m now q (i : InventoryItem.t F) :
  InventoryRepository.owned_by B (with_model m i) = InventoryRepository.owned_by B i
  ∧ InventoryRepository.owned_by B (InventoryItem.with_LastUpdated now i)
    = InventoryRepository.owned_by B i
  ∧ InventoryRepository.owned_by B (InventoryItem.with_Quantity q i)
    = InventoryRepository.owned_by B i.
Proof. by destruct i. Qed.

Lemma income_Insert_part A B (db : Table (Income.t F)) now income :
  Income.UserID income = A → B ≠ A →
  filter (λ i, IncomeRepository.owned_by B i) (rows (IncomeRepository.Insert db now income).2)
  = filter (λ i, IncomeRepository.owned_by B i) (rows db).
Proof.
  intros HA Hne. unfold IncomeRepository.Insert.
  pose proof (Create_part (IncomeRepository.owned_by B) now
                (IncomeRepository.recalculate income) db) as Hc.
  destruct (Create now _ db) as [[? ?] ?]. apply Hc. intros m.
  destruct (income_owner_kept B m (IncomeRepository.recalculate income)) as (_ & -> & _).
  destruct (income_owner_kept B m income) as (_ & _ & ->).
  apply N.eqb_neq. congruence.
Qed.

Lemma income_Update_part A B (db : Table (Income.t F)) now income existing :
  pk_unique db → existing ∈ rows db → Income.UserID existing = A →
  id_of income = id_of existing → Income.UserID income = A → B ≠ A →
  filter (λ i, IncomeRepository.owned_by B i) (rows (IncomeRepository.Update db now income).2)
  = filter (λ i, IncomeRepository.owned_by B i) (rows db).
Proof.
  intros Hpk Hin HA Hid HA' Hne. unfold IncomeRepository.Update.
  assert (IncomeRepository.owned_by B income = false) as Hout.
  { apply N.eqb_neq. congruence. }
  apply Save_part.
  - intros x Hx Hx'. assert (x = existing) as ->.
    { apply (pk_unique_inj db); [done..|]. rewrite Hx', <- Hid. by destruct income. }
    apply N.eqb_neq. congruence.
  - intros m.
    destruct (income_owner_kept B m (IncomeRepository.recalculate income)) as (-> & _ & _).
    by destruct (income_owner_kept B m income) as (_ & _ & ->).
  - intros m.
    destruct (income_owner_kept B m (IncomeRepository.recalculate income)) as (_ & -> & _).
    by destruct (income_owner_kept B m income) as (_ & _ & ->).
Qed.

Lemma income_Delete_part A B (db : Table (Income.t F)) now id :
  B ≠ A →
  filter (λ i, IncomeRepository.owned_by B i) (rows (IncomeRepository.Delete db now id A).2)
  = filter (λ i, IncomeRepository.owned_by B i) (rows db).
Proof.
  intros Hne. unfold IncomeRepository.Delete. cbn [snd]. apply Delete_part.
  intros r [_ Ho%N.eqb_eq]%andb_true_iff.
  assert (IncomeRepository.owned_by B r = false) as Hout.
  { apply N.eqb_neq. congruence. }
  split; [done|]. intros m. by destruct (income_owner_kept B m r) as (-> & _).
Qed.

Lemma expense_Insert_part A B (db : Table (Expense.t F)) now expense :
  Expense.UserID expense = A → B ≠ A →
  filter (λ e, ExpenseRepository.owned_by B e)
         (rows (ExpenseRepository.Insert db now expense).2)
  = filter (λ e, ExpenseRepository.owned_by B e) (rows db).
Proof.
  intros HA Hne. unfold ExpenseRepository.Insert.
  pose proof (Create_part (ExpenseRepository.owned_by B) now
                (ExpenseRepository.recalculate expense) db) as Hc.
  destruct (Create now _ db) as [[? ?] ?]. apply Hc. intros m.
  destruct (expense_owner_kept B m (ExpenseRepository.recalculate expense)) as (_ & -> & _).
  destruct (expense_owner_kept B m expense) as (_ & _ & ->).
  apply N.eqb_neq. congruence.
Qed.

Lemma expense_Update_part A B (db : Table (Expense.t F)) now expense existing :
  pk_unique db → existing ∈ rows db → Expense.UserID existing = A →
  id_of expense = id_of existing → Expense.UserID expense = A → B ≠ A →
  filter (λ e, ExpenseRepository.owned_by B e)
         (rows (ExpenseRepository.Update db now expense).2)
  = filter (λ e, ExpenseRepository.owned_by B e) (rows db).
Proof.
  intros Hpk Hin HA Hid HA' Hne. unfold ExpenseRepository.Update.
  assert (ExpenseRepository.owned_by B expense = false) as Hout.
  { apply N.eqb_neq. congruence. }
  apply Save_part.
  - intros x Hx Hx'. assert (x = existing) as ->.
    { apply (pk_unique_inj db); [done..|]. rewrite Hx', <- Hid. by destruct expense. }
    apply N.eqb_neq. congruence.
  - intros m.
    destruct (expense_owner_kept B m (ExpenseRepository.recalculate expense)) as (-> & _ & _).
    by destruct (expense_owner_kept B m expense) as (_ & _ & ->).
  - intros m.
    destruct (expense_owner_kept B m (ExpenseRepository.recalculate expense)) as (_ & -> & _).
    by destruct (expense_owner_kept B m expense) as (_ & _ & ->).
Qed.

Lemma expense_Delete_part A B (db : Table (Expense.t F)) now id :
  B ≠ A →
  filter (λ e, ExpenseRepository.owned_by B e)
         (rows (ExpenseRepository.Delete db now id A).2)
  = filter (λ e, ExpenseRepository.owned_by B e) (rows db).
Proof.
  intros Hne. unfold ExpenseRepository.Delete. cbn [snd]. apply Delete_part.
  intros r [_ Ho%N.eqb_eq]%andb_true_iff.
  assert (ExpenseRepository.owned_by B r = false) as Hout.
  { apply N.eqb_neq. congruence. }
  split; [done|]. intros m. by destruct (expense_owner_kept B m r) as (-> & _).
Qed.

Lemma income_handlers_part A B (db : Table (Income.t F)) now idStr body :
  pk_unique db → B ≠ A →
  filter (λ i, IncomeRepository.owned_by B i)
         (rows (IncomeHandler.CreateIncome db now A body).2)
  = filter (λ i, IncomeRepository.owned_by B i) (rows db)
  ∧ filter (λ i, IncomeRepository.owned_by B i)
           (rows (IncomeHandler.UpdateIncome db now A idStr body).2)
    = filter (λ i, IncomeRepository.owned_by B i) (rows db)
  ∧ filter (λ i, IncomeRepository.owned_by B i)
           (rows (IncomeHandler.DeleteIncome db now A idStr).2)
    = filter (λ i, IncomeRepository.owned_by B i) (rows db).
Proof.
  intros Hpk Hne. split; [|split].
  - unfold IncomeHandler.CreateIncome. destruct (A =? 0)%N; [done|].
    destruct body as [req|]; [|done]. destruct (IncomeHandler.validate req); [done|].
    match goal with
    | |- context [IncomeRepository.Insert db now ?x] =>
        pose proof (income_Insert_part A B db now x eq_refl Hne) as Hp;
        destruct (IncomeRepository.Insert db now x) as [[[? ?] [?|]] ?]; exact Hp
    end.
  - unfold IncomeHandler.UpdateIncome. destruct (A =? 0)%N; [done|].
    destruct (ParseUint32 idStr) as [id|]; [|done]. destruct body as [req|]; [|done].
    destruct (IncomeRepository.GetOne db id A) as [existing|] eqn:Hget; [|done].
    destruct (IncomeHandler.validate req); [done|].
    unfold IncomeRepository.GetOne in Hget.
    destruct (First _ db) as [x|] eqn:Hfirst; [|done]. injection Hget as ->.
    apply First_Ok in Hfirst as (Hin & [_ Ho%N.eqb_eq]%andb_true_iff & _).
    match goal with
    | |- context [IncomeRepository.Update db now ?x] =>
        pose proof (income_Update_part A B db now x existing Hpk Hin Ho eq_refl Ho Hne)
          as Hp;
        destruct (IncomeRepository.Update db now x) as [[? [?|]] ?]; exact Hp
    end.
  - unfold IncomeHandler.DeleteIncome. destruct (A =? 0)%N; [done|].
    destruct (ParseUint32 idStr) as [id|]; [|done].
    pose proof (income_Delete_part A B db now id Hne) as Hp.
    destruct (IncomeRepository.Delete db now id A) as [[?|] ?]; exact Hp.
Qed.

Lemma expense_handlers_part A B (db : Table (Expense.t F)) now idStr body :
  pk_unique db → B ≠ A →
  filter (λ e, ExpenseRepository.owned_by B e)
         (rows (ExpenseHandler.CreateExpense db now A body).2)
  = filter (λ e, ExpenseRepository.owned_by B e) (rows db)
  ∧ filter (λ e, ExpenseRepository.owned_by B e)
           (rows (ExpenseHandler.UpdateExpense db now A idStr body).2)
    = filter (λ e, ExpenseRepository.owned_by B e) (rows db)
  ∧ filter (λ e, ExpenseRepository.owned_by B e)
           (rows (ExpenseHandler.DeleteExpense db now A idStr).2)
    = filter (λ e, ExpenseRepository.owned_by B e) (rows db).
Proof.
  intros Hpk Hne. split; [|split].
  - unfold ExpenseHandler.CreateExpense. destruct (A =? 0)%N; [done|].
    destruct body as [req|]; [|done]. destruct (ExpenseHandler.validate req); [done|].
    match goal with
    | |- context [ExpenseRepository.Insert db now ?x] =>
        pose proof (expense_Insert_part A B db now x eq_refl Hne) as Hp;
        destruct (ExpenseRepository.Insert db now x) as [[[? ?] [?|]] ?]; exact Hp
    end.
  - unfold ExpenseHandler.UpdateExpense. destruct (A =? 0)%N; [done|].
    destruct (ParseUint32 idStr) as [id|]; [|done]. destruct body as [req|]; [|done].
    destruct (ExpenseRepository.GetOne db id A) as [existing|] eqn:Hget; [|done].
    destruct (ExpenseHandler.validate req); [done|].
    unfold ExpenseRepository.GetOne in Hget.
    destruct (First _ db) as [x|] eqn:Hfirst; [|done]. injection Hget as ->.
    apply First_Ok in Hfirst as (Hin & [_ Ho%N.eqb_eq]%andb_true_iff & _).
    cbn zeta.
    match goal with
    | |- context [ExpenseRepository.Update db now ?x] =>
        pose proof (expense_Update_part A B db now x existing Hpk Hin Ho eq_refl Ho Hne)
          as Hp;
        destruct (ExpenseRepository.Update db now x) as [[? [?|]] ?]; exact Hp
    end.
  - unfold ExpenseHandler.DeleteExpense. destruct (A =? 0)%N; [done|].
    destruct (ParseUint32 idStr) as [id|]; [|done].
    pose proof (expense_Delete_part A B db now id Hne) as Hp.
    destruct (ExpenseRepository.Delete db now id A) as [[?|] ?]; exact Hp.
Qed.

End OtherUsersWrites.

(** X6.  Whatever a user does through the income and expense handlers
    (create, update or delete, with any id and any body, accepted or refused)
    changes no answer of any read of the repositories scoped to another user:
    list, get-one, date range, financial summary, category breakdown and
    monthly figures of the other user are the same before and after.  Primary
    keys are assumed unique, which every write preserves. *)
Theorem writes_leave_other_users_reads {F : Type} `{Float64 F} `{Postgres F}
  (A B : N) (now : Time) (idStr : string) :
  B ≠ A →
  (∀ (db : Table (Income.t F)) body, pk_unique db →
     same_income_reads B db (IncomeHandler.CreateIncome db now A body).2
     ∧ same_income_reads B db (IncomeHandler.UpdateIncome db now A idStr body).2
     ∧ same_income_reads B db (IncomeHandler.DeleteIncome db now A idStr).2)
  ∧ (∀ (db : Table (Expense.t F)) body, pk_unique db →
       same_expense_reads B db (ExpenseHandler.CreateExpense db now A body).2
       ∧ same_expense_reads B db (ExpenseHandler.UpdateExpense db now A idStr body).2
       ∧ same_expense_reads B db (ExpenseHandler.DeleteExpense db now A idStr).2).
Proof.
  intros Hne. split; intros db body Hpk.
  - destruct (income_handlers_part A B db now idStr body Hpk Hne) as (H1 & H2 & H3).
    repeat split; by apply income_reads_of_part.
  - destruct (expense_handlers_part A B db now idStr body Hpk Hne) as (H1 & H2 & H3).
    repeat split; by apply expense_reads_of_part.
Qed.

Lemma writes_leave_other_users_reads_witness :
  (2 ≠ 1)%N
  ∧ pk_unique Examples.incomes
  ∧ IncomeRepository.GetAll
      (IncomeHandler.UpdateIncome Examples.incomes 3000 1 "1"
         (Some Examples.income_request)).2 2
    = IncomeRepository.GetAll Examples.incomes 2.
Proof.
  assert ((2 ≠ 1)%N) as Hne by discriminate.
  assert (pk_unique Examples.incomes) as Hpk.
  { unfold pk_unique. apply (bool_decide_unpack _). vm_compute. exact I. }
  split; [exact Hne|]. split; [exact Hpk|].
  destruct (writes_leave_other_users_reads (F := float) 1%N 2%N 3000%Z "1" Hne)
    as [Hincome _].
  destruct (Hincome Examples.incomes (Some Examples.income_request) Hpk)
    as (_ & (Hall & _) & _).
  exact Hall.
Defined.

(** ** Reads and soft-deleted rows *)

(** X7.  Dropping the soft-deleted rows from the store changes no answer of
    the reads that go through the query builder: list, get-one, date range
    and financial summary of incomes and expenses, the category breakdown
    (whose raw query names the marker itself), list, get-one and low stock of
    the inventory, the user lookups by email and by id, the check of a
    one-time code, and the financial summary of the analytics handler. *)
Theorem reads_ignore_deleted_rows {F : Type} `{Float64 F} `{Postgres F} :
  (∀ (db : Table (Income.t F)) userID id d1 d2,
     IncomeRepository.GetAll (live_part db) userID = IncomeRepository.GetAll db userID
     ∧ IncomeRepository.GetOne (live_part db) id userID
       = IncomeRepository.GetOne db id userID
     ∧ IncomeRepository.GetByDateRange (live_part db) userID d1 d2
       = IncomeRepository.GetByDateRange db userID d1 d2
     ∧ IncomeRepository.GetFinancialSummary (live_part db) userID
       = IncomeRepository.GetFinancialSummary db userID)
  ∧ (∀ (db : Table (Expense.t F)) userID id d1 d2,
       ExpenseRepository.GetAll (live_part db) userID = ExpenseRepository.GetAll db userID
       ∧ ExpenseRepository.GetOne (live_part db) id userID
         = ExpenseRepository.GetOne db id userID
       ∧ ExpenseRepository.GetByDateRange (live_part db) userID d1 d2
         = ExpenseRepository.GetByDateRange db userID d1 d2
       ∧ ExpenseRepository.GetFinancialSummary (live_part db) userID
         = ExpenseRepository.GetFinancialSummary db userID
       ∧ ExpenseRepository.GetCategoryBreakdown (live_part db) userID
         = ExpenseRepository.GetCategoryBreakdown db userID)
  ∧ (∀ (db : Table (InventoryItem.t F)) userID id,
       InventoryRepository.GetAll (live_part db) userID
       = InventoryRepository.GetAll db userID
       ∧ InventoryRepository.GetOne (live_part db) id userID
         = InventoryRepository.GetOne db id userID
       ∧ InventoryRepository.GetLowStockItems (live_part db) userID
         = InventoryRepository.GetLowStockItems db userID)
  ∧ (∀ (db : Table User.t) email id now otp,
       UserRepository.GetByEmail (live_part db) email = UserRepository.GetByEmail db email
       ∧ UserRepository.GetOne (live_part db) id = UserRepository.GetOne db id
       ∧ UserRepository.VerifyOTP (live_part db) now email otp
         = UserRepository.VerifyOTP db now email otp)
  ∧ (∀ (incomes : Table (Income.t F)) (expenses : Table (Expense.t F)) userID,
       AnalyticsHandler.GetFinancialSummary (live_part incomes) (live_part expenses) userID
       = AnalyticsHandler.GetFinancialSummary incomes expenses userID).
Proof.
  split; [intros; apply income_reads_skip_deleted|].
  split; [intros; apply expense_reads_skip_deleted|].
  split; [intros; apply inventory_reads_skip_deleted|].
  split.
  - intros db email id now otp.
    unfold UserRepository.GetByEmail, UserRepository.GetOne, UserRepository.VerifyOTP.
    by rewrite !First_live_part.
  - intros incomes expenses userID. unfold AnalyticsHandler.GetFinancialSummary.
    destruct (income_reads_skip_deleted incomes userID 0%N
                "" "")
      as (_ & _ & _ & ->).
    destruct (expense_reads_skip_deleted expenses userID 0%N
                "" "")
      as (_ & _ & _ & -> & _).
    done.
Qed.

(** ** Updating columns in place *)

Section SqlMap.
Context {A : Type} (le : A → A → bool) (g : A → A).
Hypothesis le_g : ∀ a b, le (g a) (g b) = le a b.

Lemma insert_by_map x l : insert_by le (g x) (map g l) = map g (insert_by le x l).
Proof using le_g.
  induction l as [|y l IH]; simpl; [done|].
  rewrite le_g. destruct (le x y); simpl; [done|]. by rewrite IH.
Qed.

Lemma order_by_map l : order_by le (map g l) = map g (order_by le l).
Proof using le_g.
  induction l as [|x l IH]; simpl; [done|]. by rewrite IH, insert_by_map.
Qed.

End SqlMap.

Section GormUpdates.
Context {R : Type} `{SchemaLaws R}.
Implicit Types (t : Table R) (r : R) (cond : R → bool).

Lemma is_live_set_updated_at now r : is_live (set_updated_at now r) = is_live r.
Proof. unfold is_live, deleted_at, set_updated_at. by rewrite model_with_model. Qed.

(** An update that matches no live row leaves the table as it is. *)
Lemma Updates_no_match cond (f : R → R) now t :
  (∀ r, r ∈ rows t → cond r = true → is_live r = false) →
  Updates cond f now t = t.
Proof.
  intros Hno. unfold Updates. destruct t as [l n]. simpl in *. f_equal.
  apply map_unchanged. intros r Hr.
  destruct (cond r) eqn:Hc; [|done]. by rewrite (Hno r Hr Hc).
Qed.

(** The rows a condition selects after an update under the same condition,
    when the assignments leave the condition and the marker alone. *)
Lemma Find_Updates cond (f : R → R) now t :
  (∀ r, cond (set_updated_at now (f r)) = cond r) →
  (∀ r, is_live (f r) = is_live r) →
  Find cond (Updates cond f now t) = map (λ r, set_updated_at now (f r)) (Find cond t).
Proof.
  intros Hc Hl. unfold Find, Updates. simpl.
  induction (rows t) as [|x l IH]; [done|]. simpl.
  rewrite !filter_cons, IH. destruct (cond x && is_live x) eqn:E; simpl.
  - by rewrite Hc, is_live_set_updated_at, Hl, E.
  - by rewrite E.
Qed.

Lemma First_Updates cond (f : R → R) now t r :
  (∀ r, cond (set_updated_at now (f r)) = cond r) →
  (∀ r, is_live (f r) = is_live r) →
  (∀ r, id_of (f r) = id_of r) →
  First cond t = Ok r →
  First cond (Updates cond f now t) = Ok (set_updated_at now (f r)).
Proof.
  intros Hc Hl Hid. unfold First. rewrite Find_Updates by done.
  rewrite (order_by_map _ (λ r, set_updated_at now (f r))).
  - destruct (order_by _ (Find cond t)); [done|]. by intros [= ->].
  - intros a b. by rewrite !id_of_set_updated_at, !Hid.
Qed.

Lemma Updates_elem_of_kept cond (f : R → R) now t r :
  r ∈ rows t → cond r && is_live r = false → r ∈ rows (Updates cond f now t).
Proof.
  intros Hr Hc. unfold Updates. simpl. apply list_elem_of_In, in_map_iff.
  exists r. rewrite Hc. split; [done|]. by apply list_elem_of_In.
Qed.

End GormUpdates.

(** X8.  The quantity update of the inventory never reports an error.  When a
    get-one with the id and the user finds an item, the get-one afterwards
    finds that item with the new quantity, [LastUpdated] and [UpdatedAt] set to
    the time of the call and every other field as it was, and the handler
    answers with it.  When it finds none, the store is unchanged and the
    handler answers 500 "Failed to retrieve updated item", not 404.  Rows that
    do not match stay as they are, and no read of another user changes. *)
Theorem quantity_update {F : Type} `{Float64 F} `{Postgres F}
  (db : Table (InventoryItem.t F)) (now : Time) (id userID : N) (quantity : F) :
  let db' := (InventoryRepository.UpdateQuantity db now id userID quantity).2 in
  (InventoryRepository.UpdateQuantity db now id userID quantity).1 = None
  ∧ (∀ item, InventoryRepository.GetOne db id userID = Ok item →
       ∃ item', InventoryRepository.GetOne db' id userID = Ok item'
         ∧ InventoryItem.Quantity item' = quantity
         ∧ InventoryItem.LastUpdated item' = now
         ∧ UpdatedAt (InventoryItem.Model item') = now
         ∧ id_of item' = id ∧ InventoryItem.UserID item' = userID
         ∧ CreatedAt (InventoryItem.Model item') = CreatedAt (InventoryItem.Model item)
         ∧ InventoryItem.Name item' = InventoryItem.Name item
         ∧ InventoryItem.Type_ item' = InventoryItem.Type_ item
         ∧ InventoryItem.Unit item' = InventoryItem.Unit item
         ∧ InventoryItem.MinStockLevel item' = InventoryItem.MinStockLevel item
         ∧ InventoryItem.CurrentValue item' = InventoryItem.CurrentValue item
         ∧ ∀ idStr, userID ≠ 0%N → ParseUint32 idStr = Some id →
             utils.ValidateNonNegativeNumber quantity = true →
             InventoryHandler.UpdateQuantity db now userID idStr (Some quantity)
             = (utils.WriteSuccessResponse "Quantity updated successfully" item', db'))
  ∧ (∀ e, InventoryRepository.GetOne db id userID = Err e →
       db' = db
       ∧ ∀ idStr, userID ≠ 0%N → ParseUint32 idStr = Some id →
           utils.ValidateNonNegativeNumber quantity = true →
           InventoryHandler.UpdateQuantity db now userID idStr (Some quantity)
           = (utils.WriteErrorResponse "Failed to retrieve updated item"
                utils.StatusInternalServerError, db))
  ∧ (∀ r, r ∈ rows db →
          id_of r ≠ id ∨ InventoryItem.UserID r ≠ userID ∨ is_live r = false →
          r ∈ rows db')
  ∧ (∀ other, other ≠ userID → same_inventory_reads other db db').
Proof.
  cbn zeta. unfold InventoryRepository.UpdateQuantity. cbn [fst snd].
  set (cond := λ i : InventoryItem.t F,
                 (id_of i =? id)%N && InventoryRepository.owned_by userID i).
  set (f := λ i : InventoryItem.t F,
              InventoryItem.with_LastUpdated now (InventoryItem.with_Quantity quantity i)).
  assert (∀ r, cond (set_updated_at now (f r)) = cond r) as Hc by (by intros []).
  assert (∀ r, is_live (f r) = is_live r) as Hl by (by intros []).
  assert (∀ r, id_of (f r) = id_of r) as Hid by (by intros []).
  split; [done|]. split; [|split; [|split]].
  - intros item Hget. unfold InventoryRepository.GetOne in *. fold cond in Hget |- *.
    destruct (First cond db) as [x|] eqn:Hfirst; [|done]. injection Hget as ->.
    pose proof (First_Updates cond f now db item Hc Hl Hid Hfirst) as Hnew.
    apply First_Ok in Hfirst as (_ & [Hi%N.eqb_eq Ho%N.eqb_eq]%andb_true_iff & _).
    exists (set_updated_at now (f item)). rewrite Hnew.
    split; [done|]. destruct item as [m ? ? ? ? ? ? ? ?]. simpl in Hi, Ho.
    repeat (split; [done|]).
    intros idStr Hu Hp Hv. unfold InventoryHandler.UpdateQuantity.
    apply N.eqb_neq in Hu. rewrite Hu, Hp, Hv. simpl negb. cbv iota.
    unfold InventoryRepository.UpdateQuantity, InventoryRepository.GetOne.
    fold cond f. by rewrite Hnew.
  - intros e Hget. unfold InventoryRepository.GetOne in Hget. fold cond in Hget.
    destruct (First cond db) as [x|] eqn:Hfirst; [done|].
    apply First_Err in Hfirst as [-> Hno].
    assert (Updates cond f now db = db) as Hsame by by apply Updates_no_match.
    split; [done|].
    intros idStr Hu Hp Hv. unfold InventoryHandler.UpdateQuantity.
    apply N.eqb_neq in Hu. rewrite Hu, Hp, Hv. simpl negb. cbv iota.
    unfold InventoryRepository.UpdateQuantity, InventoryRepository.GetOne.
    fold cond f. rewrite Hsame. by rewrite (First_not_found cond db Hno).
  - intros r Hr Hout. apply Updates_elem_of_kept; [done|].
    unfold cond, InventoryRepository.owned_by.
    destruct Hout as [Hn|[Hn|Hn]].
    + apply N.eqb_neq in Hn. by rewrite Hn.
    + apply N.eqb_neq in Hn. by rewrite Hn, andb_false_r.
    + by rewrite Hn, andb_false_r.
  - intros other Hne. apply inventory_reads_of_part. apply Updates_part.
    intros r [_ Ho%N.eqb_eq]%andb_true_iff.
    assert (InventoryRepository.owned_by other r = false) as Hout.
    { apply N.eqb_neq. congruence. }
    split; [done|]. intros m. by destruct r.
Qed.

(** ** One-time codes: the latest one, once *)

Section OneTimeCodeUse.
Context `{Bcrypt}.

Lemma elem_of_map_if (p : User.t → bool) (g : User.t → User.t) (l : list User.t) u' :
  u' ∈ map (λ u, if p u then g u else u) l →
  (∃ u, u ∈ l ∧ p u = true ∧ u' = g u) ∨ (u' ∈ l ∧ p u' = false).
Proof.
  rewrite list_elem_of_In, in_map_iff. intros (u & Hu & Hin%list_elem_of_In).
  destruct (p u) eqn:Hp; subst u'; [left; by exists u|by right].
Qed.

Lemma ResetPasswordWithOTP_rows (db db' : Table User.t) now email otp newPassword :
  UserRepository.ResetPasswordWithOTP db now email otp newPassword = (None, db') →
  ∃ hashedPassword,
    UserRepository.HashPassword newPassword = Ok hashedPassword
    ∧ UserRepository.VerifyOTP db now email otp = Ok true
    ∧ db' = Updates (UserRepository.has_email email)
              (λ u, User.with_OTP "" None (User.with_Password hashedPassword u)) now db.
Proof.
  unfold UserRepository.ResetPasswordWithOTP.
  destruct (UserRepository.VerifyOTP db now email otp) as [[|]|]; [|done..].
  destruct (UserRepository.HashPassword newPassword) as [h|]; [|done].
  intros [= <-]. by exists h.
Qed.

End OneTimeCodeUse.

(** X9.  When a one-time code has been saved for an email, no other code
    verifies for that email, at any time: a code saved earlier is no longer
    accepted. *)
Theorem only_latest_code_verifies (db db' : Table User.t) (T : Time) (draw : result N)
  (email otp : string) :
  UserRepository.GenerateAndSaveOTP db T draw email = (Ok otp, db') →
  ∀ now other, other ≠ otp → UserRepository.VerifyOTP db' now email other = Ok false.
Proof.
  intros Hgen now other Hne. apply GenerateAndSaveOTP_rows in Hgen.
  apply VerifyOTP_false. intros u' Hin Hl He Hc. rewrite Hgen in Hin.
  apply elem_of_map_if in Hin as [(u & _ & _ & ->)|[_ Hp]].
  - destruct (otp_row_fields T otp (Some (T + 10 * Minute)%Z) u) as (_ & Hcode & _).
    cbn zeta in Hcode. congruence.
  - apply has_email_iff in He. by rewrite He, Hl in Hp.
Qed.

Lemma only_latest_code_verifies_witness :
  let '(code, db') :=
    UserRepository.GenerateAndSaveOTP Examples.users 1000 (Ok 23456%N)
      "alice@mine.io" in
  code = Ok "123456"
  ∧ UserRepository.VerifyOTP db' 2000 "alice@mine.io" "123456" = Ok true
  ∧ UserRepository.VerifyOTP db' 2000 "alice@mine.io" "654321" = Ok false.
Proof.
  destruct (UserRepository.GenerateAndSaveOTP Examples.users 1000 (Ok 23456%N)
              "alice@mine.io") as [code db'] eqn:E.
  assert (code = Ok "123456") as -> by (vm_compute in E; congruence).
  split; [done|]. split.
  - injection E as <-. reflexivity.
  - apply (only_latest_code_verifies Examples.users db' 1000%Z (Ok 23456%N)
             "alice@mine.io" "123456" E 2000%Z "654321").
    discriminate.
Defined.

(** X10.  A one-time code resets the password once.  After a reset that
    succeeded, no code verifies for the email at any time, so every further
    reset with a code is refused and leaves the store as it is; and, bcrypt
    accepting the hashes it makes, the user the email finds is the same user
    as before and the new password matches. *)
Theorem one_time_code_is_single_use `{Bcrypt} (db db' : Table User.t) (now : Time)
  (email otp newPassword : string) :
  UserRepository.ResetPasswordWithOTP db now email otp newPassword = (None, db') →
  (∀ now' otp', UserRepository.VerifyOTP db' now' email otp' = Ok false)
  ∧ (∀ now' otp' newPassword',
       UserRepository.ResetPasswordWithOTP db' now' email otp' newPassword'
       = (Some (Errorf "invalid or expired OTP"), db'))
  ∧ ((∀ p h, GenerateFromPassword p = Ok h → CompareHashAndPassword h p = true) →
     ∃ u u', UserRepository.GetByEmail db email = Ok u
             ∧ UserRepository.GetByEmail db' email = Ok u'
             ∧ id_of u' = id_of u
             ∧ UserRepository.PasswordMatches u' newPassword = (true, None)).
Proof.
  intros (h & Hhash & Hver & ->)%ResetPasswordWithOTP_rows.
  assert (∀ now' otp',
            UserRepository.VerifyOTP
              (Updates (UserRepository.has_email email)
                 (λ u, User.with_OTP "" None (User.with_Password h u)) now db)
              now' email otp' = Ok false) as Hnone.
  { intros now' otp'. apply VerifyOTP_false. intros u' Hin Hl He _.
    unfold Updates in Hin. simpl in Hin.
    apply (elem_of_map_if (λ u, UserRepository.has_email email u && is_live u)) in Hin
      as [(u & _ & _ & ->)|[_ Hp]].
    - by destruct u.
    - apply has_email_iff in He. by rewrite He, Hl in Hp. }
  split; [exact Hnone|]. split.
  - intros now' otp' pw'. unfold UserRepository.ResetPasswordWithOTP. by rewrite Hnone.
  - intros Hsound. unfold UserRepository.VerifyOTP in Hver.
    destruct (First _ db) as [v|e] eqn:Hv; [|by destruct e].
    apply First_Ok in Hv as (Hin & [[He _]%andb_true_iff _]%andb_true_iff & Hl).
    destruct (First_found (UserRepository.has_email email) db v Hin He Hl) as [u Hu].
    exists u, (set_updated_at now (User.with_OTP "" None (User.with_Password h u))).
    unfold UserRepository.GetByEmail. rewrite Hu.
    rewrite (First_Updates _ _ now db u); [|by intros []..|done].
    split; [done|]. split; [done|]. split; [by destruct u|].
    unfold UserRepository.PasswordMatches, UserRepository.HashPassword in *.
    destruct (GenerateFromPassword newPassword) as [h'|] eqn:Hg; [|done].
    injection Hhash as ->.
    assert (User.Password
              (set_updated_at now (User.with_OTP "" None (User.with_Password h u))) = h)
      as -> by by destruct u.
    by rewrite (Hsound newPassword h Hg).
Qed.

Lemma one_time_code_is_single_use_witness :
  let db1 := (UserRepository.GenerateAndSaveOTP Examples.users 1000 (Ok 23456%N)
                "alice@mine.io").2 in
  let '(err, db') :=
    UserRepository.ResetPasswordWithOTP (H := Examples.example_bcrypt) db1 2000
      "alice@mine.io" "123456" "a new password" in
  err = None
  ∧ UserRepository.VerifyOTP db1 2000 "alice@mine.io" "123456" = Ok true
  ∧ UserRepository.VerifyOTP db' 2001 "alice@mine.io" "123456" = Ok false.
Proof.
  cbn zeta.
  destruct (UserRepository.ResetPasswordWithOTP (H := Examples.example_bcrypt) _ 2000
              "alice@mine.io" "123456" "a new password") as [err db'] eqn:E.
  assert (err = None) as -> by (vm_compute in E; congruence).
  split; [done|]. split; [reflexivity|].
  apply (one_time_code_is_single_use (H := Examples.example_bcrypt) _ db' 2000%Z
           "alice@mine.io" "123456" "a new password" E).
Defined.

(** ** Registration and login *)

Section UniqueLookup.
Context {R : Type} `{SchemaLaws R}.

(** A row just created is what a lookup finds whose condition only rows
    clashing with it on a unique index could meet. *)
Lemma Create_then_First_unique now (r r' : R) (t t' : Table R) (cond : R → bool) :
  Create now r t = (r', None, t') →
  cond r' = true → is_live r' = true →
  (∀ x, cond x = true → unique_clash r' x = true) →
  First cond t' = Ok r'.
Proof.
  unfold Create.
  set (id := if (ID (model r) =? 0)%N then _ else _).
  set (row := with_model _ (column_defaults r)).
  destruct (has_id id (rows t) || _) eqn:E; [done|].
  intros [= <- <-] Hc Hl Hclash. apply orb_false_iff in E as [Hfresh Hu].
  apply negb_false_iff in Hu. unfold unique_ok in Hu.
  unfold First, Find. simpl. rewrite filter_app.
  assert (filter (λ x, cond x && is_live x) (rows t) = []) as ->.
  { apply elem_of_nil_inv. intros x [Hx Hin]%list_elem_of_filter.
    apply Is_true_true, andb_true_iff in Hx as [Hx _].
    rewrite forallb_forall in Hu. specialize (Hu x).
    rewrite <- list_elem_of_In in Hu. specialize (Hu Hin).
    rewrite (has_id_false id (rows t) Hfresh x Hin), (Hclash x Hx) in Hu. done. }
  rewrite filter_cons, Hc, Hl. simpl. done.
Qed.

End UniqueLookup.

Section Registration.
Context `{Bcrypt}.

Lemma Insert_ok (db db' : Table User.t) now (user user' : User.t) id :
  UserRepository.Insert db now user = (user', id, None, db') →
  ∃ h, GenerateFromPassword (User.Password user) = Ok h
       ∧ Create now (User.with_Password h user) db = (user', None, db')
       ∧ id = id_of user'.
Proof.
  unfold UserRepository.Insert, UserRepository.HashPassword.
  destruct (GenerateFromPassword (User.Password user)) as [h|]; [|done].
  destruct (Create now _ db) as [[u e] t] eqn:E. intros [= <- <- -> <-]. by exists h.
Qed.

(** What [Insert] stores for a user: the caller's fields, the hash in place of
    the password, and the default role when none was given. *)
Lemma Insert_fields (db db' : Table User.t) now (user user' : User.t) h :
  GenerateFromPassword (User.Password user) = Ok h →
  Create now (User.with_Password h user) db = (user', None, db') →
  User.Email user' = User.Email user ∧ User.Password user' = h
  ∧ User.Name user' = User.Name user ∧ User.Phone user' = User.Phone user
  ∧ User.Role user' = (if String.eqb (User.Role user) "" then RoleStandard
                       else User.Role user).
Proof.
  intros _ [_ [m ->]]%Create_stored. simpl.
  destruct (String.eqb (User.Role user) ""); by destruct user.
Qed.

Lemma Insert_then_GetByEmail (db db' : Table User.t) now (user user' : User.t) id :
  UserRepository.Insert db now user = (user', id, None, db') →
  DeletedAt (User.Model user) = None →
  UserRepository.GetByEmail db' (User.Email user) = Ok user'.
Proof.
  intros (h & Hh & Hc & ->)%Insert_ok Hd.
  destruct (Insert_fields db db' now user user' h Hh Hc) as (He & _).
  unfold UserRepository.GetByEmail.
  rewrite (Create_then_First_unique _ _ _ _ _ _ Hc); [done| | |].
  - by apply has_email_iff.
  - eapply Create_is_live; [exact Hc|]. by destruct user.
  - intros x Hx%has_email_iff. simpl. apply String.eqb_eq. congruence.
Qed.

End Registration.

(** X11.  A registration that succeeded can log in.  When the signup handler
    answers success, a login at a later time on the resulting store with the
    same email and password is answered "Login successful" with the user of
    the signup's session (same id, email, name, phone and role) and the token
    signed at the time of the login for that id, email and role, provided
    bcrypt accepts the hashes it makes; when the signer fails at that time the
    login is answered 500.  The user stored has the role [admin] exactly when
    the admin code was given, and a login whose password bcrypt does not
    accept for the stored hash is answered 401. *)
Theorem signup_then_login `{Bcrypt} `{utils.Jwt}
  (db db' : Table User.t) (now later : Time) (req : AuthHandler.SignupRequest)
  (message : string) (session : AuthHandler.Session) :
  (∀ p h, GenerateFromPassword p = Ok h → CompareHashAndPassword h p = true) →
  AuthHandler.Signup db now (Some req)
  = (utils.WriteSuccessResponse message session, db') →
  let login := {| AuthHandler.login_Email := AuthHandler.signup_Email req;
                  AuthHandler.login_Password := AuthHandler.signup_Password req |} in
  let user := AuthHandler.user session in
  let signed := utils.GenerateToken later (decimal_id (AuthHandler.info_id user))
                  (AuthHandler.info_email user) (AuthHandler.info_role user) in
  (∀ token, signed = Ok token →
     AuthHandler.Login db' later (Some login)
     = utils.WriteSuccessResponse "Login successful"
         {| AuthHandler.token := token; AuthHandler.user := user |})
  ∧ (∀ e, signed = Err e →
       AuthHandler.Login db' later (Some login)
       = utils.WriteErrorResponse "Failed to generate token"
           utils.StatusInternalServerError)
  ∧ utils.GenerateToken now (decimal_id (AuthHandler.info_id user))
      (AuthHandler.info_email user) (AuthHandler.info_role user)
    = Ok (AuthHandler.token session)
  ∧ ∃ u, UserRepository.GetByEmail db' (AuthHandler.signup_Email req) = Ok u
         ∧ id_of u = AuthHandler.info_id (AuthHandler.user session)
         ∧ User.Role u = (if String.eqb (AuthHandler.signup_AdminCode req) ""
                          then RoleStandard else RoleAdmin)
         ∧ UserRepository.GetByEmail db (AuthHandler.signup_Email req)
           = Err ErrRecordNotFound
         ∧ ∀ wrong, CompareHashAndPassword (User.Password u) wrong = false →
             utils.ValidatePassword wrong = true →
             AuthHandler.Login db' later
               (Some {| AuthHandler.login_Email := AuthHandler.signup_Email req;
                        AuthHandler.login_Password := wrong |})
             = utils.WriteErrorResponse "Invalid email or password"
                 utils.StatusUnauthorized.
Proof.
  intros Hsound. unfold AuthHandler.Signup.
  destruct (negb (utils.ValidateEmail _)) eqn:Vemail; [done|].
  destruct (negb (utils.ValidateRequired _)) eqn:Vname; [done|].
  destruct (negb (utils.ValidatePassword _)) eqn:Vpass; [done|].
  destruct (negb (String.eqb (AuthHandler.signup_Phone req) "") && _); [done|].
  destruct (UserRepository.GetByEmail db _) as [|e] eqn:Hnew; [done|].
  destruct (negb (String.eqb (AuthHandler.signup_AdminCode req) "") && _) eqn:Vcode;
    [done|].
  match goal with
  | |- context [UserRepository.Insert db now ?x] => set (user := x)
  end.
  destruct (UserRepository.Insert db now user) as [[[user' id] [e'|]] t] eqn:Hins; [done|].
  destruct (utils.GenerateToken now _ _ _) as [tok|] eqn:Htok; [|done].
  intros [= <- <- <-]. cbn zeta. cbn [AuthHandler.user AuthHandler.token
    AuthHandler.info_id AuthHandler.info_email AuthHandler.info_role].
  pose proof (Insert_then_GetByEmail db t now user user' id Hins eq_refl) as Hget.
  destruct (Insert_ok db t now user user' id Hins) as (h & Hh & Hc & ->).
  destruct (Insert_fields db t now user user' h Hh Hc)
    as (He & Hp & Hn & Hph & Hr).
  simpl in Hget, He, Hr, Hh.
  assert (User.Role user'
          = if String.eqb (AuthHandler.signup_AdminCode req) ""
            then RoleStandard else RoleAdmin) as Hrole.
  { rewrite Hr. by destruct (String.eqb (AuthHandler.signup_AdminCode req) ""). }
  unfold AuthHandler.Login. simpl AuthHandler.login_Email. simpl AuthHandler.login_Password.
  rewrite Vemail, Hget. split; [|split; [|split]].
  - intros token Hsigned. rewrite Vpass. unfold UserRepository.PasswordMatches.
    rewrite Hp, (Hsound _ _ Hh), Hsigned. done.
  - intros e0 Hsigned. rewrite Vpass. unfold UserRepository.PasswordMatches.
    rewrite Hp, (Hsound _ _ Hh), Hsigned. done.
  - exact Htok.
  - exists user'. split; [done|]. split; [done|]. split; [done|]. split.
    + unfold UserRepository.GetByEmail in Hnew |- *.
      destruct (First _ db) as [|e0] eqn:Hf; [done|]. by apply First_Err in Hf as [-> _].
    + intros wrong Hwrong Hvalid. rewrite Hvalid. simpl negb. cbv iota.
      unfold UserRepository.PasswordMatches. by rewrite Hwrong.
Qed.

Lemma example_bcrypt_sound (p h : string) :
  GenerateFromPassword (Bcrypt := Examples.example_bcrypt) p = Ok h →
  CompareHashAndPassword (Bcrypt := Examples.example_bcrypt) h p = true.
Proof.
  simpl. destruct (72 <? String.length p)%nat; [done|].
  intros [= <-]. apply String.eqb_refl.
Qed.

Lemma signup_then_login_witness :
  let '(response, db') :=
    AuthHandler.Signup (H := Examples.example_bcrypt) (signer := Examples.example_jwt)
      Examples.users 3000 (Some Examples.carol_signup) in
  ∃ session,
    response = utils.WriteSuccessResponse "User created successfully" session
    ∧ AuthHandler.token session = "3:carol@mine.io:standard:3000:86400000003000"
    ∧ AuthHandler.Login (H := Examples.example_bcrypt) (signer := Examples.example_jwt)
        db' 4000
        (Some {| AuthHandler.login_Email := "carol@mine.io";
                 AuthHandler.login_Password := "copper-belt" |})
      = utils.WriteSuccessResponse "Login successful"
          {| AuthHandler.token := "3:carol@mine.io:standard:4000:86400000004000";
             AuthHandler.user := AuthHandler.user session |}.
Proof.
  destruct (AuthHandler.Signup (H := Examples.example_bcrypt)
              (signer := Examples.example_jwt)
              Examples.users 3000 (Some Examples.carol_signup)) as [response db'] eqn:E.
  assert (∃ session,
            response = utils.WriteSuccessResponse "User created successfully" session
            ∧ AuthHandler.token session = "3:carol@mine.io:standard:3000:86400000003000"
            ∧ AuthHandler.user session
              = {| AuthHandler.info_id := 3; AuthHandler.info_email := "carol@mine.io";
                   AuthHandler.info_name := "Carol";
                   AuthHandler.info_phone := Some "+243811234567";
                   AuthHandler.info_role := RoleStandard |})
    as (session & -> & Htoken & Huser).
  { vm_compute in E. injection E as <- _. eexists. repeat split. }
  exists session. split; [done|]. split; [exact Htoken|].
  apply (signup_then_login (H := Examples.example_bcrypt) (H0 := Examples.example_jwt)
           Examples.users db' 3000%Z 4000%Z Examples.carol_signup _ session
           example_bcrypt_sound E).
  rewrite Huser. reflexivity.
Defined.

(** X12.  A login that succeeds was made for a user who is stored, not
    soft-deleted, holds the email of the request and whose stored hash bcrypt
    accepts for the password of the request; the session carries that user's
    id, email, name, phone and role and the token signed for them at the time
    of the login.  When the fields pass validation, an unknown email and a
    wrong password are answered alike, by 401 "Invalid email or password";
    and when no live user has the email with a hash that accepts the
    password, the answer is 400 or 401, whatever the token signer does. *)
Theorem login_soundness `{Bcrypt} `{utils.Jwt}
  (db : Table User.t) (now : Time) (req : AuthHandler.LoginRequest) :
  let email := AuthHandler.login_Email req in
  let password := AuthHandler.login_Password req in
  (∀ message session,
     AuthHandler.Login db now (Some req)
     = utils.WriteSuccessResponse message session →
     ∃ u, u ∈ rows db ∧ is_live u = true ∧ User.Email u = email
          ∧ CompareHashAndPassword (User.Password u) password = true
          ∧ utils.GenerateToken now (decimal_id (id_of u)) (User.Email u) (User.Role u)
            = Ok (AuthHandler.token session)
          ∧ AuthHandler.user session
            = {| AuthHandler.info_id := id_of u;
                 AuthHandler.info_email := User.Email u;
                 AuthHandler.info_name := User.Name u;
                 AuthHandler.info_phone := User.Phone u;
                 AuthHandler.info_role := User.Role u |})
  ∧ (utils.ValidateEmail email = true → utils.ValidatePassword password = true →
     (∀ u, UserRepository.GetByEmail db email = Ok u →
           CompareHashAndPassword (User.Password u) password = false) →
     AuthHandler.Login db now (Some req)
     = utils.WriteErrorResponse "Invalid email or password" utils.StatusUnauthorized)
  ∧ ((∀ u, u ∈ rows db → is_live u = true → User.Email u = email →
           CompareHashAndPassword (User.Password u) password = false) →
     utils.status (AuthHandler.Login db now (Some req)) = utils.StatusBadRequest
     ∨ utils.status (AuthHandler.Login db now (Some req))
       = utils.StatusUnauthorized).
Proof.
  cbn zeta. unfold AuthHandler.Login, UserRepository.GetByEmail,
    UserRepository.PasswordMatches.
  split; [|split].
  - intros message session.
    destruct (negb (utils.ValidateEmail _)); [done|].
    destruct (negb (utils.ValidatePassword _)); [done|].
    destruct (First _ db) as [u|] eqn:Hf; [|done].
    destruct (CompareHashAndPassword _ _) eqn:Hc; [|done].
    destruct (utils.GenerateToken _ _ _ _) as [tok|] eqn:Ht; [|done].
    intros [= _ <-]. apply First_Ok in Hf as (Hin & He%has_email_iff & Hl).
    by exists u.
  - intros -> -> Hwrong. simpl.
    destruct (First _ db) as [u|] eqn:Hf; [|done]. by rewrite (Hwrong u eq_refl).
  - intros Hnone.
    destruct (negb (utils.ValidateEmail _)); [by left|].
    destruct (negb (utils.ValidatePassword _)); [by left|].
    destruct (First _ db) as [u|] eqn:Hf; [|by right].
    apply First_Ok in Hf as (Hin & He%has_email_iff & Hl).
    rewrite (Hnone u Hin Hl He). by right.
Qed.

(** X13.  The answer to a forgot-password request does not tell whether the
    email is registered: when the random source delivers, the response is the
    same on every store.  For an email no live user holds the store is left
    as it is; for a registered one the code drawn is saved and verifies for
    the ten minutes that follow. *)
Theorem forgot_password_answer (db : Table User.t) (now : Time) (n : N)
  (body : option string) :
  (∀ other : Table User.t,
     (AuthHandler.ForgotPassword other now (Ok n) body).1
     = (AuthHandler.ForgotPassword db now (Ok n) body).1)
  ∧ (∀ email e, body = Some email →
       UserRepository.GetByEmail db email = Err e →
       (AuthHandler.ForgotPassword db now (Ok n) body).2 = db)
  ∧ (∀ email u, body = Some email → utils.ValidateEmail email = true →
       UserRepository.GetByEmail db email = Ok u →
       ∀ later, (later < now + 10 * Minute)%Z →
         UserRepository.VerifyOTP (AuthHandler.ForgotPassword db now (Ok n) body).2
           later email (pad_decimal 6 (n + 100000)) = Ok true).
Proof.
  assert (∀ t : Table User.t,
            (AuthHandler.ForgotPassword t now (Ok n) body).1
            = match body with
              | None => utils.WriteValidationError "Invalid request body"
              | Some email =>
                  if negb (utils.ValidateEmail email)
                  then utils.WriteValidationError "Invalid email format"
                  else utils.WriteSuccessResponse
                         "If the email exists, an OTP has been sent" tt
              end) as Hresp.
  { intros t. unfold AuthHandler.ForgotPassword. destruct body as [email|]; [|done].
    destruct (negb _); [done|]. by destruct (UserRepository.GetByEmail t email). }
  split; [|split].
  - intros other. by rewrite !Hresp.
  - intros email e -> Hget. unfold AuthHandler.ForgotPassword.
    destruct (negb _); [done|]. by rewrite Hget.
  - intros email u -> Hv Hget later Hlater. unfold AuthHandler.ForgotPassword.
    rewrite Hv, Hget. simpl.
    unfold UserRepository.GetByEmail in Hget.
    destruct (First _ db) as [v|] eqn:Hf; [|done].
    apply First_Ok in Hf as (Hin & He%has_email_iff & Hl).
    apply (VerifyOTP_true _ later email _
             (set_updated_at now
                (User.with_OTP (pad_decimal 6 (n + 100000))
                   (Some (time_Add now (10 * Minute))) v))).
    + apply list_elem_of_In, in_map_iff. exists v.
      apply has_email_iff in He. rewrite He, Hl. split; [done|].
      by apply list_elem_of_In.
    + by destruct v.
    + by destruct v.
    + by destruct v.
    + unfold UserRepository.expires_after, time_Add. destruct v. simpl.
      apply Z.ltb_lt. exact Hlater.
Qed.

(** ** Decimal renderings and their parsing *)

Section DecimalStrings.
Import DecimalPos.Unsigned.
Local Open Scope N_scope.

Ltac eval_digit :=
  match goal with
  | |- context [digit_value ?c] =>
      let v := eval vm_compute in (digit_value c) in change (digit_value c) with v
  end.

Lemma decimal_value_string_of_uint (d : Decimal.uint) (acc : N) :
  decimal_value acc (NilEmpty.string_of_uint d)
  = Some (of_lu (Decimal.rev d) + acc * 10 ^ usize d).
Proof.
  revert acc. induction d; intros acc;
    [simpl; f_equal; lia|..];
    cbn [NilEmpty.string_of_uint decimal_value]; eval_digit;
    cbv iota; rewrite IHd; f_equal;
    match goal with
    | |- context [Decimal.rev (?c d)] =>
        change (Decimal.rev (c d)) with (Decimal.revapp d (c Decimal.Nil))
    end;
    rewrite of_lu_revapp; cbn [of_lu usize]; rewrite N.pow_succ_r'; lia.
Qed.

(** Parsing the decimal rendering of a number gives the number. *)
Lemma decimal_value_decimal (n : N) : decimal_value 0 (decimal n) = Some n.
Proof.
  unfold decimal. rewrite decimal_value_string_of_uint, N.mul_0_l, N.add_0_r.
  rewrite <- of_uint_alt. f_equal. apply DecimalN.Unsigned.of_to.
Qed.

Lemma decimal_id_decimal (n : N) : decimal_id n = decimal n.
Proof. by destruct n. Qed.

Lemma decimal_not_empty (n : N) : decimal n ≠ "".
Proof.
  intros E. pose proof (decimal_value_decimal n) as Hv. rewrite E in Hv.
  injection Hv as <-. discriminate E.
Qed.

Lemma string_of_uint_digits (d : Decimal.uint) :
  utils.all_chars utils.is_digit (NilEmpty.string_of_uint d) = true.
Proof. unfold utils.all_chars. induction d; simpl; try done. Qed.

Lemma string_of_uint_length (d : Decimal.uint) :
  N.of_nat (String.length (NilEmpty.string_of_uint d)) = usize d.
Proof. induction d; cbn [NilEmpty.string_of_uint String.length usize]; lia. Qed.

Lemma of_lu_lt (d : Decimal.uint) : of_lu d < 10 ^ usize d.
Proof.
  induction d; cbn [of_lu usize]; rewrite ?N.pow_succ_r'; simpl; lia.
Qed.

Lemma usize_revapp (d d' : Decimal.uint) : usize (Decimal.revapp d d') = usize d + usize d'.
Proof.
  revert d'. induction d; intros d'; cbn [Decimal.revapp usize]; [lia|..];
    rewrite IHd; cbn [usize]; lia.
Qed.

Lemma usize_rev (d : Decimal.uint) : usize (Decimal.rev d) = usize d.
Proof. unfold Decimal.rev. rewrite usize_revapp. simpl. lia. Qed.

(** The rendering of a positive number has no leading zero. *)
Lemma to_uint_head (n : N) :
  0 < n → N.to_uint n ≠ Decimal.Nil ∧ ∀ d, N.to_uint n ≠ Decimal.D0 d.
Proof.
  intros Hn. pose proof (DecimalN.Unsigned.to_of (N.to_uint n)) as Hnorm.
  rewrite DecimalN.Unsigned.of_to in Hnorm.
  destruct (Decimal.nzhead (N.to_uint n)) eqn:Hz.
  { exfalso. unfold Decimal.unorm in Hnorm. rewrite Hz in Hnorm.
    pose proof (DecimalN.Unsigned.of_to n) as Hof. rewrite Hnorm in Hof.
    simpl in Hof. lia. }
  all: rewrite DecimalFacts.unorm_nzhead in Hnorm by (by rewrite Hz);
    rewrite Hnorm; split; [by rewrite Hz|apply DecimalFacts.nzhead_nonzero].
Qed.

Lemma of_lu_rev_ge (d : Decimal.uint) :
  d ≠ Decimal.Nil → (∀ d', d ≠ Decimal.D0 d') → 10 ^ N.pred (usize d) ≤ of_lu (Decimal.rev d).
Proof.
  intros Hnil Hzero. destruct d; [done|by destruct (Hzero d)|..];
    match goal with
    | |- context [Decimal.rev (?c d)] =>
        change (Decimal.rev (c d)) with (Decimal.revapp d (c Decimal.Nil))
    end;
    rewrite of_lu_revapp; cbn [of_lu usize]; rewrite N.pred_succ; lia.
Qed.

(** The number of digits of a rendering, from the size of the number. *)
Lemma decimal_length (n : N) (k : nat) :
  10 ^ N.of_nat k ≤ n → n < 10 ^ N.of_nat (S k) → String.length (decimal n) = S k.
Proof.
  intros Hlo Hhi. unfold decimal.
  assert (0 < n) as Hpos.
  { pose proof (N.pow_nonzero 10 (N.of_nat k)). lia. }
  destruct (to_uint_head n Hpos) as [Hnil Hzero].
  pose proof (of_lu_rev_ge (N.to_uint n) Hnil Hzero) as Hge.
  pose proof (of_lu_lt (Decimal.rev (N.to_uint n))) as Hlt.
  rewrite usize_rev in Hlt.
  pose proof (DecimalN.Unsigned.of_to n) as Hof.
  unfold N.of_uint in Hof. rewrite of_uint_alt in Hof. rewrite Hof in Hge, Hlt.
  pose proof (string_of_uint_length (N.to_uint n)) as Hlen.
  set (L := usize (N.to_uint n)) in *.
  assert (L = N.of_nat (S k)); [|lia].
  destruct (N.lt_trichotomy L (N.of_nat (S k))) as [Hl|[He|Hg]]; [|done|].
  - exfalso. assert (10 ^ L ≤ 10 ^ N.of_nat k); [apply N.pow_le_mono_r; lia|lia].
  - exfalso. assert (10 ^ N.of_nat (S k) ≤ 10 ^ N.pred L);
      [apply N.pow_le_mono_r; lia|lia].
Qed.


Lemma digit_value_Some (c : ascii) (v : N) :
  digit_value c = Some v → v ≤ 9 ∧ N_of_ascii c = v + 48 ∧ utils.is_digit c = true.
Proof.
  unfold digit_value, utils.is_digit. cbn zeta.
  destruct (48 <=? N_of_ascii c) eqn:E1, (N_of_ascii c <=? 57) eqn:E2; simpl; try done.
  intros [= <-]. apply N.leb_le in E1, E2. lia.
Qed.

Lemma digit_value_inj (c1 c2 : ascii) (v : N) :
  digit_value c1 = Some v → digit_value c2 = Some v → c1 = c2.
Proof.
  intros (_ & H1 & _)%digit_value_Some (_ & H2 & _)%digit_value_Some.
  rewrite <- (ascii_N_embedding c1), <- (ascii_N_embedding c2). congruence.
Qed.

(** The value of a string of digits read after an accumulator. *)
Lemma decimal_value_acc (s : string) (acc v : N) :
  decimal_value acc s = Some v →
  ∃ w, w < 10 ^ N.of_nat (String.length s)
       ∧ utils.all_chars utils.is_digit s = true
       ∧ ∀ acc', decimal_value acc' s = Some (acc' * 10 ^ N.of_nat (String.length s) + w).
Proof.
  revert acc v. induction s as [|c s IH]; intros acc v.
  { intros _. exists 0. split; [simpl; lia|]. split; [done|].
    intros acc'. simpl. f_equal. lia. }
  cbn [decimal_value]. destruct (digit_value c) as [dv|] eqn:Hd; [|done].
  intros (w & Hw & Hall & Hacc)%IH.
  destruct (digit_value_Some _ _ Hd) as (Hle & _ & Hdig).
  exists (dv * 10 ^ N.of_nat (String.length s) + w).
  cbn [String.length]. rewrite Nat2N.inj_succ, N.pow_succ_r'.
  split; [nia|]. split.
  { unfold utils.all_chars in *. simpl. by rewrite Hdig, Hall. }
  intros acc'. cbn [decimal_value]. rewrite ?Hd, Hacc. f_equal. lia.
Qed.

(** Two strings of digits of the same length and the same value are equal. *)
Lemma decimal_value_inj (s1 s2 : string) (v : N) :
  String.length s1 = String.length s2 →
  decimal_value 0 s1 = Some v → decimal_value 0 s2 = Some v → s1 = s2.
Proof.
  revert s2 v. induction s1 as [|c1 s1 IH]; intros [|c2 s2] v Hlen; try done.
  cbn [decimal_value]. injection Hlen as Hlen.
  destruct (digit_value c1) as [d1|] eqn:Hd1; [|done].
  destruct (digit_value c2) as [d2|] eqn:Hd2; [|done].
  intros H1 H2.
  destruct (decimal_value_acc _ _ _ H1) as (w1 & Hw1 & _ & Hacc1).
  destruct (decimal_value_acc _ _ _ H2) as (w2 & Hw2 & _ & Hacc2).
  rewrite Hacc1 in H1. rewrite Hacc2 in H2. rewrite <- Hlen in *.
  injection H1 as H1. injection H2 as H2.
  set (P := 10 ^ N.of_nat (String.length s1)) in *.
  assert (d1 = v / P) as Hq1 by (apply (N.div_unique v P d1 w1); lia).
  assert (d2 = v / P) as Hq2 by (apply (N.div_unique v P d2 w2); lia).
  assert (w1 = v mod P) as Hr1 by (apply (N.mod_unique v P d1 w1); lia).
  assert (w2 = v mod P) as Hr2 by (apply (N.mod_unique v P d2 w2); lia).
  assert (d1 = d2) as -> by congruence. assert (w1 = w2) as -> by congruence.
  f_equal; [by eapply digit_value_inj|].
  apply (IH s2 w2 Hlen); [rewrite Hacc1|rewrite Hacc2]; f_equal; lia.
Qed.

Lemma decimal_value_zeros (k : nat) (s : string) :
  decimal_value 0 (zeros k ++ s) = decimal_value 0 s.
Proof. induction k as [|k IH]; [done|]. simpl zeros. cbn. exact IH. Qed.

Lemma zeros_length (k : nat) : String.length (zeros k) = k.
Proof. induction k; simpl; congruence. Qed.

Lemma string_length_app (a b : string) :
  String.length (a ++ b) = (String.length a + String.length b)%nat.
Proof.
  induction a as [|c a IH]; [done|].
  change (String c a ++ b) with (String c (a ++ b)). simpl. by rewrite IH.
Qed.

Lemma pad_decimal_eq (width : nat) (n : N) :
  pad_decimal width n = zeros (width - String.length (decimal n)) ++ decimal n.
Proof. by destruct n. Qed.

Lemma pad_decimal_value (width : nat) (n : N) :
  decimal_value 0 (pad_decimal width n) = Some n.
Proof. by rewrite pad_decimal_eq, decimal_value_zeros, decimal_value_decimal. Qed.

(** A number below [10 ^ width] is rendered on exactly [width] digits. *)
Lemma pad_decimal_length (width : nat) (n : N) :
  n < 10 ^ N.of_nat width → (0 < width)%nat → String.length (pad_decimal width n) = width.
Proof.
  intros Hn Hw. rewrite pad_decimal_eq, string_length_app, zeros_length.
  assert (String.length (decimal n) ≤ width)%nat; [|lia].
  destruct n as [|p]; [simpl; lia|].
  destruct (decimal_value_acc _ _ _ (decimal_value_decimal (N.pos p))) as (w & Hw' & _ & Hacc).
  pose proof (Hacc 0) as H0. rewrite decimal_value_decimal in H0. injection H0 as H0.
  unfold decimal in *.
  destruct (to_uint_head (N.pos p)) as [Hnil Hzero]; [lia|].
  pose proof (of_lu_rev_ge (N.to_uint (N.pos p)) Hnil Hzero) as Hge.
  pose proof (DecimalN.Unsigned.of_to (N.pos p)) as Hof.
  unfold N.of_uint in Hof. rewrite of_uint_alt in Hof. rewrite Hof in Hge.
  pose proof (string_of_uint_length (N.to_uint (N.pos p))) as Hlen.
  set (L := usize (N.to_uint (N.pos p))) in *.
  destruct (N.le_gt_cases L (N.of_nat width)) as [Hl|Hg]; [lia|].
  exfalso. assert (10 ^ N.of_nat width ≤ 10 ^ N.pred L);
    [apply N.pow_le_mono_r; lia|lia].
Qed.

(** Rendering the value of a string of digits on as many digits gives the
    string back. *)
Lemma pad_decimal_of_value (s : string) (v : N) :
  s ≠ "" → decimal_value 0 s = Some v → pad_decimal (String.length s) v = s.
Proof.
  intros Hne Hv. destruct (decimal_value_acc _ _ _ Hv) as (w & Hw & _ & Hacc).
  pose proof (Hacc 0) as H0. rewrite Hv in H0. injection H0 as H0.
  assert (0 < String.length s)%nat by (destruct s; [done|simpl; lia]).
  apply (decimal_value_inj _ _ v); [|apply pad_decimal_value|done].
  apply pad_decimal_length; [lia|done].
Qed.

End DecimalStrings.

(** X14.  A one-time code drawn from a number below 900000 is a string of
    exactly six decimal digits that reads as that number plus 100000, so it
    lies between 100000 and 999999 and has no leading zero; different draws
    give different codes, and the code passes the required-field check of the
    reset handler.  A failure of the random source is passed on. *)
Theorem one_time_code_format (n : N) :
  (n < 900000)%N →
  ∃ code, UserRepository.generateOTP (Ok n) = Ok code
    ∧ String.length code = 6%nat
    ∧ utils.all_chars utils.is_digit code = true
    ∧ decimal_value 0 code = Some (n + 100000)%N
    ∧ utils.ValidateRequired code = true
    ∧ (∀ m, UserRepository.generateOTP (Ok m) = Ok code → m = n)
    ∧ (∀ e, UserRepository.generateOTP (Err e) = Err e).
Proof.
  intros Hn. exists (pad_decimal 6 (n + 100000)). split; [done|].
  assert (String.length (pad_decimal 6 (n + 100000)) = 6%nat) as Hlen.
  { apply pad_decimal_length; [simpl; lia|lia]. }
  pose proof (pad_decimal_value 6 (n + 100000)) as Hval.
  destruct (decimal_value_acc _ _ _ Hval) as (_ & _ & Hdigits & _).
  split; [done|]. split; [done|]. split; [done|]. split; [|split].
  - destruct (pad_decimal 6 (n + 100000)) as [|c1 [|c2 [|c3 s]]]; [done..|].
    unfold utils.all_chars in Hdigits. simpl in Hdigits.
    apply andb_true_iff in Hdigits as [Hd _]. unfold utils.is_digit in Hd.
    cbn zeta in Hd. apply andb_true_iff in Hd as [Hlo%N.leb_le Hhi%N.leb_le].
    unfold utils.ValidateRequired. cbn [utils.all_space]. cbv zeta.
    assert ((N_of_ascii c1 <=? 13)%N = false) as -> by (apply N.leb_gt; lia).
    assert ((N_of_ascii c1 =? 32)%N = false) as -> by (apply N.eqb_neq; lia).
    assert ((N_of_ascii c1 =? 194)%N = false) as -> by (apply N.eqb_neq; lia).
    assert ((N_of_ascii c1 =? 225)%N = false) as -> by (apply N.eqb_neq; lia).
    assert ((N_of_ascii c1 =? 226)%N = false) as -> by (apply N.eqb_neq; lia).
    assert ((N_of_ascii c1 =? 227)%N = false) as -> by (apply N.eqb_neq; lia).
    by rewrite andb_false_r.
  - intros m [= Hm]. pose proof (pad_decimal_value 6 (m + 100000)) as Hm'.
    rewrite Hm, Hval in Hm'. injection Hm' as Hm'. lia.
  - done.
Qed.

Lemma one_time_code_format_witness :
  ∃ code, UserRepository.generateOTP (Ok 0%N) = Ok code ∧ String.length code = 6%nat
          ∧ decimal_value 0 code = Some 100000%N.
Proof.
  destruct (one_time_code_format 0) as (code & Hgen & Hlen & _ & Hval & _); [done|].
  by exists code.
Defined.

(** X15.  The date the income and expense handlers store is the one
    [time.Parse] reads from the date of the request.  A string it reads is
    the ten-character rendering [YYYY-MM-DD] of the date it is read as, which
    is a date of the calendar: the month is between 1 and 12 and the day
    between 1 and the number of days of that month in that year.  So two
    strings read as the same date are equal.  A session of the store in the
    UTC time zone files the date under the first seven characters of the
    string and under its year, except for the year 0000, which the store
    knows as 1 BC: it files it under [0001] and under the year -1. *)
Theorem parsed_date_is_a_calendar_date {F : Type} `{Float64 F} :
  (∀ (req : IncomeHandler.IncomeRequest F) d,
     IncomeHandler.validate req = inr d → time_Parse (IncomeHandler.Date req) = Some d)
  ∧ (∀ (req : ExpenseHandler.ExpenseRequest F) d,
       ExpenseHandler.validate req = inr d →
       time_Parse (ExpenseHandler.Date req) = Some d)
  ∧ (∀ s d,
       time_Parse s = Some d →
       s = pad_decimal 4 (year d) ++ "-" ++ pad_decimal 2 (month d)
           ++ "-" ++ pad_decimal 2 (day d)
       ∧ String.length s = 10%nat
       ∧ (1 ≤ month d ≤ 12)%N
       ∧ (1 ≤ day d ≤ daysIn (month d) (year d))%N
       ∧ (daysIn (month d) (year d) ≤ 31)%N
       ∧ (year d ≤ 9999)%N
       ∧ (year d ≠ 0%N →
          utc_YYYY_MM d = substring 0 7 s ∧ utc_year d = Z.of_N (year d))
       ∧ (year d = 0%N →
          utc_YYYY_MM d = "0001" ++ substring 4 3 s ∧ utc_year d = (-1)%Z)
       ∧ (∀ s', time_Parse s' = Some d → s' = s)).
Proof.
  split; [|split].
  { intros req d. unfold IncomeHandler.validate.
    repeat case_match; try done. by intros [= <-]. }
  { intros req d. unfold ExpenseHandler.validate.
    repeat case_match; try done. by intros [= <-]. }
  intros s d.
  assert (∀ s d, time_Parse s = Some d →
            s = pad_decimal 4 (year d) ++ "-" ++ pad_decimal 2 (month d)
                ++ "-" ++ pad_decimal 2 (day d)
            ∧ (1 ≤ month d ≤ 12)%N ∧ (1 ≤ day d ≤ daysIn (month d) (year d))%N
            ∧ (year d < 10 ^ 4)%N) as Hparse.
  { clear s d. intros s d. unfold time_Parse.
    destruct (list_ascii_of_string s)
      as [|y1 [|y2 [|y3 [|y4 [|sep1 [|m1 [|m2 [|sep2 [|d1 [|d2 [|? ?]]]]]]]]]]] eqn:E;
      try done.
    destruct (Ascii.eqb sep1 "-") eqn:E1; [|done].
    destruct (Ascii.eqb sep2 "-") eqn:E2; [|done]. simpl andb. cbv iota.
    apply Ascii.eqb_eq in E1, E2. subst sep1 sep2.
    destruct (decimal_value 0 (string_of_list_ascii [y1; y2; y3; y4])) as [y|] eqn:Hy;
      [|done].
    destruct (decimal_value 0 (string_of_list_ascii [m1; m2])) as [m|] eqn:Hm; [|done].
    destruct (decimal_value 0 (string_of_list_ascii [d1; d2])) as [dd|] eqn:Hd; [|done].
    destruct ((1 <=? m) && (m <=? 12) && (1 <=? dd) && (dd <=? daysIn m y))%N eqn:Hr;
      [|done].
    intros [= <-]. simpl year. simpl month. simpl day.
    apply andb_true_iff in Hr as [[[H1%N.leb_le H2%N.leb_le]%andb_true_iff
                                   H3%N.leb_le]%andb_true_iff H4%N.leb_le].
    destruct (decimal_value_acc _ _ _ Hy) as (w & Hw & _ & Hacc).
    pose proof (Hacc 0%N) as H0. rewrite Hy in H0. injection H0 as H0.
    split; [|simpl in Hw; lia].
    rewrite <- (string_of_list_ascii_of_string s), E.
    pose proof (pad_decimal_of_value (string_of_list_ascii [y1; y2; y3; y4]) y
                  ltac:(simpl; discriminate) Hy) as Py.
    pose proof (pad_decimal_of_value (string_of_list_ascii [m1; m2]) m
                  ltac:(simpl; discriminate) Hm) as Pm.
    pose proof (pad_decimal_of_value (string_of_list_ascii [d1; d2]) dd
                  ltac:(simpl; discriminate) Hd) as Pd.
    cbn [String.length string_of_list_ascii] in Py, Pm, Pd.
    rewrite Py, Pm, Pd. reflexivity. }
  intros Hs. destruct (Hparse s d Hs) as (Heq & Hm & Hd & Hy).
  assert (String.length (pad_decimal 4 (year d)) = 4%nat) as L4
    by (apply pad_decimal_length; [exact Hy|lia]).
  assert (String.length (pad_decimal 2 (month d)) = 2%nat) as L2
    by (apply pad_decimal_length; [simpl; lia|lia]).
  assert (daysIn (month d) (year d) ≤ 31)%N as Hdays.
  { unfold daysIn. repeat case_match; lia. }
  assert (String.length (pad_decimal 2 (day d)) = 2%nat) as L2'
    by (apply pad_decimal_length; [simpl; lia|lia]).
  split; [exact Heq|]. split.
  { rewrite Heq, !string_length_app, L4, L2, L2'. reflexivity. }
  split; [exact Hm|]. split; [exact Hd|]. split; [exact Hdays|].
  split; [simpl in Hy; lia|]. split; [|split].
  - intros Hyear%N.eqb_neq. unfold utc_YYYY_MM, utc_year. rewrite Hyear, Heq.
    split; [|done].
    destruct (pad_decimal 4 (year d)) as [|a1 [|a2 [|a3 [|a4 [|? ?]]]]]; try done.
    destruct (pad_decimal 2 (month d)) as [|b1 [|b2 [|? ?]]]; try done.
  - intros Hyear. unfold utc_YYYY_MM, utc_year. rewrite Heq, Hyear.
    split; [|done]. change (pad_decimal 4 0) with "0000".
    change (pad_decimal 4 1) with "0001".
    destruct (pad_decimal 2 (month d)) as [|b1 [|b2 [|? ?]]]; try done.
  - intros s' Hs'. destruct (Hparse s' d Hs') as (Heq' & _). congruence.
Qed.

Lemma parsed_date_is_a_calendar_date_witness :
  IncomeHandler.validate Examples.income_request
  = inr {| year := 2025; month := 1; day := 10 |}
  ∧ time_Parse "2025-01-10" = Some {| year := 2025; month := 1; day := 10 |}
  ∧ utc_YYYY_MM {| year := 2025; month := 1; day := 10 |} = "2025-01"
  ∧ time_Parse "0000-02-29" = Some {| year := 0; month := 2; day := 29 |}
  ∧ utc_YYYY_MM {| year := 0; month := 2; day := 29 |} = "0001-02".
Proof.
  destruct (parsed_date_is_a_calendar_date (F := float))
    as (Hincome & _ & Hparse).
  split; [reflexivity|].
  split; [exact (Hincome Examples.income_request _ eq_refl)|].
  destruct (Hparse "2025-01-10" {| year := 2025; month := 1; day := 10 |} eq_refl)
    as (_ & _ & _ & _ & _ & _ & Hkey & _).
  split; [exact (proj1 (Hkey ltac:(simpl; discriminate)))|].
  split; [reflexivity|].
  destruct (Hparse "0000-02-29" {| year := 0; month := 2; day := 29 |} eq_refl)
    as (_ & _ & _ & _ & _ & _ & _ & Hkey' & _).
  exact (proj1 (Hkey' eq_refl)).
Defined.

(** ** From the create handlers to the get handlers *)

Section CreateThenGet.
Context {F : Type} `{Float64 F}.

Lemma ParseUint32_decimal_id (n : N) : (n < 2 ^ 32)%N → ParseUint32 (decimal_id n) = Some n.
Proof.
  intros Hn. rewrite decimal_id_decimal. unfold ParseUint32.
  pose proof (decimal_not_empty n). destruct (decimal n) eqn:E; [done|].
  rewrite <- E, decimal_value_decimal. apply N.ltb_lt in Hn. by rewrite Hn.
Qed.

(** What a request that passed the checks of the income handlers holds. *)
Lemma income_validate_inr (req : IncomeHandler.IncomeRequest F) (date : CivilDate) :
  IncomeHandler.validate req = inr date →
  time_Parse (IncomeHandler.Date req) = Some date
  ∧ utils.ValidatePositiveNumber (IncomeHandler.Quantity req) = true
  ∧ utils.ValidatePositiveNumber (IncomeHandler.PricePerUnit req) = true
  ∧ utils.ValidateNonNegativeNumber (IncomeHandler.AmountPaid req) = true
  ∧ IncomeHandler.valid_status (IncomeHandler.PaymentStatus req) = true
  ∧ utils.ValidateRequired (IncomeHandler.MineralType req) = true
  ∧ utils.ValidateRequired (IncomeHandler.Unit req) = true
  ∧ utils.ValidateRequired (IncomeHandler.CustomerName req) = true.
Proof.
  unfold IncomeHandler.validate.
  repeat (match goal with
          | |- context [negb ?b] => destruct b eqn:?; simpl negb; cbv iota; [|done]
          end).
  destruct (time_Parse _) as [d|]; [|done].
  destruct (IncomeHandler.valid_status _) eqn:?; simpl negb; cbv iota; [|done].
  by intros [= <-].
Qed.

Lemma expense_validate_inr (req : ExpenseHandler.ExpenseRequest F) (date : CivilDate) :
  ExpenseHandler.validate req = inr date →
  time_Parse (ExpenseHandler.Date req) = Some date
  ∧ utils.ValidatePositiveNumber (ExpenseHandler.Amount req) = true
  ∧ utils.ValidateNonNegativeNumber (ExpenseHandler.AmountPaid req) = true
  ∧ ExpenseHandler.valid_category (ExpenseHandler.Category req) = true
  ∧ ExpenseHandler.valid_status (ExpenseHandler.PaymentStatus req) = true
  ∧ utils.ValidateRequired (ExpenseHandler.Description req) = true
  ∧ utils.ValidateRequired (ExpenseHandler.SupplierName req) = true.
Proof.
  unfold ExpenseHandler.validate.
  repeat (match goal with
          | |- context [negb ?b] => destruct b eqn:?; simpl negb; cbv iota; [|done]
          end).
  destruct (time_Parse _) as [d|]; [|done].
  destruct (ExpenseHandler.valid_category _) eqn:?; simpl negb; cbv iota; [|done].
  destruct (ExpenseHandler.valid_status _) eqn:?; simpl negb; cbv iota; [|done].
  by intros [= <-].
Qed.

Lemma valid_status_not_empty (status : string) :
  IncomeHandler.valid_status status = true → String.eqb status "" = false.
Proof.
  unfold IncomeHandler.valid_status.
  intros [[->%String.eqb_eq| ->%String.eqb_eq]%orb_true_iff| ->%String.eqb_eq]%orb_true_iff;
    reflexivity.
Qed.

End CreateThenGet.

(** X16.  A record the create handler answers with is served back.  When
    [CreateIncome] (or [CreateExpense]) answers success for a user, the
    record of the answer belongs to that user, is what the repository's
    get-one and the get handler (called with the decimal rendering of the id)
    return on the resulting store, and no other user finds it.  Its date is
    the parsed date of the request, its amounts are those of the request with
    the derived ones recomputed, and it satisfies what the validation
    demands: positive quantity and price (or amount), a non-negative amount
    paid and a known payment status (and category). *)
Theorem created_record_is_served_back {F : Type} `{Float64 F} (now : Time) (userID : N) :
  (∀ (db db' : Table (Income.t F)) req message income,
     IncomeHandler.CreateIncome db now userID (Some req)
     = (utils.WriteSuccessResponse message income, db') →
     userID ≠ 0%N
     ∧ Income.UserID income = userID
     ∧ IncomeRepository.GetOne db' (id_of income) userID = Ok income
     ∧ ((id_of income < 2 ^ 32)%N →
        IncomeHandler.GetIncome db' userID (decimal_id (id_of income))
        = utils.WriteSuccessResponse "Income record retrieved successfully" income)
     ∧ (∀ other, other ≠ userID →
          IncomeRepository.GetOne db' (id_of income) other = Err ErrRecordNotFound)
     ∧ time_Parse (IncomeHandler.Date req) = Some (Income.Date income)
     ∧ income_amounts_consistent income
     ∧ Income.Quantity income = IncomeHandler.Quantity req
     ∧ Income.PricePerUnit income = IncomeHandler.PricePerUnit req
     ∧ Income.AmountPaid income = IncomeHandler.AmountPaid req
     ∧ Income.PaymentStatus income = IncomeHandler.PaymentStatus req
     ∧ utils.ValidatePositiveNumber (Income.Quantity income) = true
     ∧ utils.ValidatePositiveNumber (Income.PricePerUnit income) = true
     ∧ utils.ValidateNonNegativeNumber (Income.AmountPaid income) = true
     ∧ IncomeHandler.valid_status (Income.PaymentStatus income) = true)
  ∧ (∀ (db db' : Table (Expense.t F)) req message expense,
       ExpenseHandler.CreateExpense db now userID (Some req)
       = (utils.WriteSuccessResponse message expense, db') →
       userID ≠ 0%N
       ∧ Expense.UserID expense = userID
       ∧ ExpenseRepository.GetOne db' (id_of expense) userID = Ok expense
       ∧ ((id_of expense < 2 ^ 32)%N →
          ExpenseHandler.GetExpense db' userID (decimal_id (id_of expense))
          = utils.WriteSuccessResponse "Expense record retrieved successfully" expense)
       ∧ (∀ other, other ≠ userID →
            ExpenseRepository.GetOne db' (id_of expense) other = Err ErrRecordNotFound)
       ∧ time_Parse (ExpenseHandler.Date req) = Some (Expense.Date expense)
       ∧ expense_amounts_consistent expense
       ∧ Expense.Amount expense = ExpenseHandler.Amount req
       ∧ Expense.AmountPaid expense = ExpenseHandler.AmountPaid req
       ∧ Expense.Category expense = ExpenseHandler.Category req
       ∧ Expense.PaymentStatus expense = ExpenseHandler.PaymentStatus req
       ∧ utils.ValidatePositiveNumber (Expense.Amount expense) = true
       ∧ utils.ValidateNonNegativeNumber (Expense.AmountPaid expense) = true
       ∧ ExpenseHandler.valid_category (Expense.Category expense) = true
       ∧ ExpenseHandler.valid_status (Expense.PaymentStatus expense) = true).
Proof.
  split.
  - intros db db' req message income. unfold IncomeHandler.CreateIncome.
    destruct (userID =? 0)%N eqn:Hu; [done|]. apply N.eqb_neq in Hu.
    destruct (IncomeHandler.validate req) as [|date] eqn:Hv; [done|].
    apply income_validate_inr in Hv as (Hdate & Hq & Hp & Hpaid & Hst & _).
    match goal with
    | |- context [IncomeRepository.Insert db now ?x] => set (sent := x)
    end.
    destruct (IncomeRepository.Insert db now sent) as [[[r' id] [e|]] t] eqn:Hins; [done|].
    destruct (income_insert_lookup db t now sent r' id Hins eq_refl)
      as (Hget & Hid & Hcons & (Hiq & Hip & Hipaid) & Hother).
    assert (Income.with_Model {| ID := id; CreatedAt := CreatedAt (Income.Model r');
                                 UpdatedAt := UpdatedAt (Income.Model r');
                                 DeletedAt := DeletedAt (Income.Model r') |} r' = r')
      as ->.
    { unfold id_of in Hid. simpl in Hid. destruct r' as [[? ? ? ?] ? ? ? ? ? ? ? ? ? ? ? ? ?].
      simpl in Hid. by subst id. }
    intros [= <- <- <-].
    assert (Income.UserID r' = userID ∧ Income.Date r' = date
            ∧ Income.PaymentStatus r' = IncomeHandler.PaymentStatus req) as (Ho & Hd & Hs).
    { unfold IncomeRepository.Insert in Hins.
      destruct (Create now _ db) as [[x err] t'] eqn:E. injection Hins as -> _ -> _.
      apply Create_stored in E as [_ [m ->]]. simpl.
      by rewrite (valid_status_not_empty _ Hst). }
    simpl in Hget, Hother, Hiq, Hip, Hipaid. rewrite Hid.
    split; [done|]. split; [done|]. split; [done|]. split.
    { intros Hbound. unfold IncomeHandler.GetIncome.
      apply N.eqb_neq in Hu. rewrite Hu, (ParseUint32_decimal_id id Hbound).
      by rewrite Hget. }
    split; [done|]. split; [by rewrite Hd|]. split; [done|].
    rewrite Hiq, Hip, Hipaid, Hs. done.
  - intros db db' req message expense. unfold ExpenseHandler.CreateExpense.
    destruct (userID =? 0)%N eqn:Hu; [done|]. apply N.eqb_neq in Hu.
    destruct (ExpenseHandler.validate req) as [|date] eqn:Hv; [done|].
    apply expense_validate_inr in Hv as (Hdate & Ha & Hpaid & Hcat & Hst & _).
    match goal with
    | |- context [ExpenseRepository.Insert db now ?x] => set (sent := x)
    end.
    destruct (ExpenseRepository.Insert db now sent) as [[[r' id] [e|]] t] eqn:Hins; [done|].
    destruct (expense_insert_lookup db t now sent r' id Hins eq_refl)
      as (Hget & Hid & Hcons & (Hia & Hipaid) & Hother).
    assert (Expense.with_Model {| ID := id; CreatedAt := CreatedAt (Expense.Model r');
                                  UpdatedAt := UpdatedAt (Expense.Model r');
                                  DeletedAt := DeletedAt (Expense.Model r') |} r' = r')
      as ->.
    { unfold id_of in Hid. simpl in Hid. destruct r' as [[? ? ? ?] ? ? ? ? ? ? ? ? ? ? ?].
      simpl in Hid. by subst id. }
    intros [= <- <- <-].
    assert (Expense.UserID r' = userID ∧ Expense.Date r' = date
            ∧ Expense.Category r' = ExpenseHandler.Category req
            ∧ Expense.PaymentStatus r' = ExpenseHandler.PaymentStatus req)
      as (Ho & Hd & Hc & Hs).
    { unfold ExpenseRepository.Insert in Hins.
      destruct (Create now _ db) as [[x err] t'] eqn:E. injection Hins as -> _ -> _.
      apply Create_stored in E as [_ [m ->]]. simpl.
      by rewrite (valid_status_not_empty _ Hst). }
    simpl in Hget, Hother, Hia, Hipaid. rewrite Hid.
    split; [done|]. split; [done|]. split; [done|]. split.
    { intros Hbound. unfold ExpenseHandler.GetExpense.
      apply N.eqb_neq in Hu. rewrite Hu, (ParseUint32_decimal_id id Hbound).
      by rewrite Hget. }
    split; [done|]. split; [by rewrite Hd|]. split; [done|].
    rewrite Hia, Hipaid, Hc, Hs. done.
Qed.

Lemma created_record_is_served_back_witness :
  let '(response, db') :=
    IncomeHandler.CreateIncome Examples.incomes 3000 1 (Some Examples.income_request) in
  ∃ income,
    response = utils.WriteSuccessResponse "Income record created successfully" income
    ∧ IncomeHandler.GetIncome db' 1 "2"
      = utils.WriteSuccessResponse "Income record retrieved successfully" income.
Proof.
  destruct (IncomeHandler.CreateIncome Examples.incomes 3000 1
              (Some Examples.income_request)) as [response db'] eqn:E.
  assert (∃ income,
            response = utils.WriteSuccessResponse "Income record created successfully" income
            ∧ id_of income = 2%N) as (income & -> & Hid).
  { vm_compute in E. injection E as <- _. eexists. split; reflexivity. }
  exists income. split; [done|].
  destruct (proj1 (created_record_is_served_back (F := float) 3000%Z 1%N)
              Examples.incomes db' Examples.income_request _ income E)
    as (_ & _ & _ & Hserved & _).
  rewrite Hid in Hserved. apply Hserved. done.
Defined.

(** ** Orders of the listings *)

Lemma string_leb_trans (a b c : string) :
  String.leb a b = true → String.leb b c = true → String.leb a c = true.
Proof.
  unfold String.leb. revert b c.
  induction a as [|x a IH]; intros [|y b] [|z c]; simpl; try done.
  unfold Ascii.compare.
  destruct (N.compare_spec (N_of_ascii x) (N_of_ascii y)) as [E1|E1|E1];
    destruct (N.compare_spec (N_of_ascii y) (N_of_ascii z)) as [E2|E2|E2];
    destruct (N.compare_spec (N_of_ascii x) (N_of_ascii z)) as [E3|E3|E3];
    try done; try lia.
  apply IH.
Qed.

#[global] Instance example_store_laws : PostgresLaws float.
Proof.
  split.
  - intros a b. apply String.leb_total.
  - intros a b c. apply string_leb_trans.
Qed.

(** X17.  The inventory list of a user never fails and holds exactly the
    stored items that belong to the user and are not soft-deleted, each once,
    in ascending order of their names in the collation of the database, of
    which only that it is a total and transitive order is used. *)
Theorem inventory_list_is_scoped_and_sorted {F : Type} `{Float64 F} `{PostgresLaws F}
  (db : Table (InventoryItem.t F)) (userID : N) :
  ∃ items,
    InventoryRepository.GetAll db userID = Ok items
    ∧ (∀ i, i ∈ items ↔ i ∈ rows db ∧ InventoryItem.UserID i = userID ∧ is_live i = true)
    ∧ Permutation items (Find (InventoryRepository.owned_by userID) db)
    ∧ names_ascending items.
Proof.
  eexists. split; [reflexivity|]. split; [|split].
  - intros i. rewrite order_by_elem_of, Find_elem_of.
    unfold InventoryRepository.owned_by. by rewrite N.eqb_eq.
  - apply order_by_perm.
  - apply (order_by_sorted InventoryRepository.by_name).
    + intros x y. apply text_leb_total.
    + intros x y z. apply text_leb_trans.
Qed.

Lemma inventory_list_is_scoped_and_sorted_witness :
  ∃ items,
    InventoryRepository.GetAll Examples.inventory 1 = Ok items
    ∧ map InventoryItem.Name items = ["cyanide"; "drill bits"; "ore"]
    ∧ names_ascending items.
Proof.
  destruct (inventory_list_is_scoped_and_sorted Examples.inventory 1)
    as (items & Hget & _ & _ & Hsorted).
  exists items. split; [exact Hget|]. split; [|exact Hsorted].
  injection Hget as <-. reflexivity.
Defined.

(** X18.  When the category breakdown succeeds it lists the categories from
    the largest amount to the smallest, in the order of the store. *)
Theorem category_breakdown_largest_first {F : Type} `{Float64Laws F} `{Postgres F}
  (db : Table (Expense.t F)) (userID : N) items :
  ExpenseRepository.GetCategoryBreakdown db userID = Ok items →
  amounts_descending items.
Proof.
  unfold ExpenseRepository.GetCategoryBreakdown, ExpenseRepository.category_rows.
  destruct (collect _ _) as [breakdown|]; [|done]. intros [= <-].
  unfold amounts_descending.
  generalize (ExpenseRepository.total_amount
                (order_by ExpenseRepository.largest_first breakdown)).
  intros total.
  assert (StronglySorted
            (λ a b : CategoryBreakdown.t F,
               sql_leb (CategoryBreakdown.Amount b) (CategoryBreakdown.Amount a) = true)
            (order_by ExpenseRepository.largest_first breakdown)) as Hsorted.
  { apply (order_by_sorted ExpenseRepository.largest_first).
    - intros x y. apply sql_leb_total.
    - intros x y z Hxy Hyz. unfold ExpenseRepository.largest_first in *.
      by eapply sql_leb_trans. }
  induction Hsorted as [|x l Hs IH Hx]; simpl; [constructor|].
  constructor; [done|]. apply Forall_forall.
  intros y (y0 & <- & Hy0%list_elem_of_In)%list_elem_of_In%in_map_iff.
  rewrite !set_percentage_Amount. rewrite Forall_forall in Hx. by apply Hx.
Qed.

Lemma category_breakdown_largest_first_witness :
  ∃ items, ExpenseRepository.GetCategoryBreakdown Examples.three_purchases 1 = Ok items
           ∧ map CategoryBreakdown.Amount items = [120%float; 80%float]
           ∧ amounts_descending items.
Proof.
  eexists. split; [reflexivity|]. split; [reflexivity|].
  apply (category_breakdown_largest_first Examples.three_purchases 1). reflexivity.
Defined.

(** ** What the monthly rollups count *)

Section MonthlySeries.
Context {F : Type} `{Float64 F} `{Postgres F}.

Lemma filter_filter_andb {A} (p q : A → bool) (l : list A) :
  filter (λ x, q x) (filter (λ x, p x) l) = filter (λ x, p x && q x) l.
Proof.
  rewrite list_filter_filter. apply list_filter_iff. intros x.
  rewrite !Is_true_true, andb_true_iff. tauto.
Qed.

(** The group of a month key is the rows the rollup counts for it. *)
Lemma income_month_group (db : Table (Income.t F)) (userID : N) (year_ : Z) k rs :
  (k, rs) ∈ group_by (λ i, to_char_YYYY_MM (Income.Date i))
              (Raw_where (λ i, IncomeRepository.owned_by userID i
                               && (extract_year (Income.Date i) =? year_)%Z) db) ↔
  (∃ i, i ∈ rows db ∧ Income.UserID i = userID ∧ extract_year (Income.Date i) = year_
        ∧ to_char_YYYY_MM (Income.Date i) = k)
  ∧ rs = incomes_of_month db userID year_ k.
Proof.
  rewrite group_by_elem_of. unfold incomes_of_month, Raw_where.
  rewrite (filter_filter_andb
             (λ i, IncomeRepository.owned_by userID i
                   && (extract_year (Income.Date i) =? year_)%Z)
             (λ i, String.eqb (to_char_YYYY_MM (Income.Date i)) k)).
  split; intros [(i & Hi & Hk) ->]; (split; [|done]); exists i.
  - apply list_elem_of_filter in Hi as [Hc Hi]. apply Is_true_true in Hc.
    by apply andb_true_iff in Hc as [Ho%N.eqb_eq Hy%Z.eqb_eq].
  - destruct Hk as (Ho & Hy & Hk). split; [|done].
    apply list_elem_of_filter. split; [|done]. apply Is_true_true, andb_true_iff.
    split; [by apply N.eqb_eq|by apply Z.eqb_eq].
Qed.

Lemma expense_month_group (db : Table (Expense.t F)) (userID : N) (year_ : Z) k rs :
  (k, rs) ∈ group_by (λ e, to_char_YYYY_MM (Expense.Date e))
              (Raw_where (λ e, ExpenseRepository.owned_by userID e
                               && (extract_year (Expense.Date e) =? year_)%Z) db) ↔
  (∃ e, e ∈ rows db ∧ Expense.UserID e = userID ∧ extract_year (Expense.Date e) = year_
        ∧ to_char_YYYY_MM (Expense.Date e) = k)
  ∧ rs = expenses_of_month db userID year_ k.
Proof.
  rewrite group_by_elem_of. unfold expenses_of_month, Raw_where.
  rewrite (filter_filter_andb
             (λ e, ExpenseRepository.owned_by userID e
                   && (extract_year (Expense.Date e) =? year_)%Z)
             (λ e, String.eqb (to_char_YYYY_MM (Expense.Date e)) k)).
  split; intros [(e & He & Hk) ->]; (split; [|done]); exists e.
  - apply list_elem_of_filter in He as [Hc He]. apply Is_true_true in Hc.
    by apply andb_true_iff in Hc as [Ho%N.eqb_eq Hy%Z.eqb_eq].
  - destruct Hk as (Ho & Hy & Hk). split; [|done].
    apply list_elem_of_filter. split; [|done]. apply Is_true_true, andb_true_iff.
    split; [by apply N.eqb_eq|by apply Z.eqb_eq].
Qed.

Lemma income_series_spec (db : Table (Income.t F)) (userID : N) (year_ : Z) items :
  IncomeRepository.GetMonthlyData db userID year_ = Ok items →
  (∀ k, k ∈ map MonthlyData.Month items
        ↔ ∃ i, i ∈ rows db ∧ Income.UserID i = userID
               ∧ extract_year (Income.Date i) = year_
               ∧ to_char_YYYY_MM (Income.Date i) = k)
  ∧ (∀ d, d ∈ items →
          sql_sum (map Income.TotalAmount
                     (incomes_of_month db userID year_ (MonthlyData.Month d)))
          = Ok (MonthlyData.Income d)
          ∧ MonthlyData.Expenses d = fzero ∧ MonthlyData.Profit d = fzero).
Proof.
  unfold IncomeRepository.GetMonthlyData.
  destruct (collect _ _) as [monthlyData|] eqn:E; [|done]. intros [= <-]. split.
  - intros k. rewrite (order_by_perm _ _).
    rewrite (collect_Ok_map _ fst MonthlyData.Month _ _ ltac:(
               by intros g d (Hk & _)%income_month_row_Ok) E).
    rewrite list_elem_of_In, in_map_iff. split.
    + intros ([k' rs] & <- & Hg%list_elem_of_In). simpl.
      by apply income_month_group in Hg as [Hex _].
    + intros Hex. exists (k, incomes_of_month db userID year_ k). split; [done|].
      by apply list_elem_of_In, income_month_group.
  - intros d. rewrite order_by_elem_of, (collect_Ok_elem_of _ _ _ _ E).
    intros ([k rs] & Hg & (Hk & Hsum & He & Hp)%income_month_row_Ok). simpl in *.
    apply income_month_group in Hg as [_ ->]. rewrite Hk. done.
Qed.

Lemma expense_series_spec (db : Table (Expense.t F)) (userID : N) (year_ : Z) items :
  ExpenseRepository.GetMonthlyData db userID year_ = Ok items →
  (∀ k, k ∈ map MonthlyData.Month items
        ↔ ∃ e, e ∈ rows db ∧ Expense.UserID e = userID
               ∧ extract_year (Expense.Date e) = year_
               ∧ to_char_YYYY_MM (Expense.Date e) = k)
  ∧ (∀ d, d ∈ items →
          sql_sum (map Expense.Amount
                     (expenses_of_month db userID year_ (MonthlyData.Month d)))
          = Ok (MonthlyData.Expenses d)
          ∧ MonthlyData.Income d = fzero ∧ MonthlyData.Profit d = fzero).
Proof.
  unfold ExpenseRepository.GetMonthlyData.
  destruct (collect _ _) as [monthlyData|] eqn:E; [|done]. intros [= <-]. split.
  - intros k. rewrite (order_by_perm _ _).
    rewrite (collect_Ok_map _ fst MonthlyData.Month _ _ ltac:(
               by intros g d (Hk & _)%expense_month_row_Ok) E).
    rewrite list_elem_of_In, in_map_iff. split.
    + intros ([k' rs] & <- & Hg%list_elem_of_In). simpl.
      by apply expense_month_group in Hg as [Hex _].
    + intros Hex. exists (k, expenses_of_month db userID year_ k). split; [done|].
      by apply list_elem_of_In, expense_month_group.
  - intros d. rewrite order_by_elem_of, (collect_Ok_elem_of _ _ _ _ E).
    intros ([k rs] & Hg & (Hk & Hsum & He & Hp)%expense_month_row_Ok). simpl in *.
    apply expense_month_group in Hg as [_ ->]. rewrite Hk. done.
Qed.

(** A rollup fails exactly when the sum of one of its months does. *)
Lemma income_series_Err (db : Table (Income.t F)) (userID : N) (year_ : Z) e :
  IncomeRepository.GetMonthlyData db userID year_ = Err e →
  ∃ k, sql_sum (map Income.TotalAmount (incomes_of_month db userID year_ k)) = Err e.
Proof.
  unfold IncomeRepository.GetMonthlyData.
  destruct (collect _ _) as [monthlyData|e'] eqn:E; [done|]. intros [= <-].
  apply collect_Err in E as ([k rs] & Hg & Hrow).
  apply income_month_group in Hg as [_ ->]. exists k.
  unfold IncomeRepository.month_row in Hrow. simpl in Hrow.
  destruct (sql_sum _); congruence.
Qed.

Lemma expense_series_Err (db : Table (Expense.t F)) (userID : N) (year_ : Z) e :
  ExpenseRepository.GetMonthlyData db userID year_ = Err e →
  ∃ k, sql_sum (map Expense.Amount (expenses_of_month db userID year_ k)) = Err e.
Proof.
  unfold ExpenseRepository.GetMonthlyData.
  destruct (collect _ _) as [monthlyData|e'] eqn:E; [done|]. intros [= <-].
  apply collect_Err in E as ([k rs] & Hg & Hrow).
  apply expense_month_group in Hg as [_ ->]. exists k.
  unfold ExpenseRepository.month_row in Hrow. simpl in Hrow.
  destruct (sql_sum _); congruence.
Qed.

Lemma income_series_total (db : Table (Income.t F)) (userID : N) (year_ : Z) :
  (∀ k, is_ok (sql_sum (map Income.TotalAmount (incomes_of_month db userID year_ k)))
        = true) →
  is_ok (IncomeRepository.GetMonthlyData db userID year_) = true.
Proof.
  intros Hall. destruct (IncomeRepository.GetMonthlyData db userID year_) eqn:E; [done|].
  apply income_series_Err in E as [k Hk]. specialize (Hall k). by rewrite Hk in Hall.
Qed.

Lemma expense_series_total (db : Table (Expense.t F)) (userID : N) (year_ : Z) :
  (∀ k, is_ok (sql_sum (map Expense.Amount (expenses_of_month db userID year_ k)))
        = true) →
  is_ok (ExpenseRepository.GetMonthlyData db userID year_) = true.
Proof.
  intros Hall. destruct (ExpenseRepository.GetMonthlyData db userID year_) eqn:E; [done|].
  apply expense_series_Err in E as [k Hk]. specialize (Hall k). by rewrite Hk in Hall.
Qed.

(** What a series contributes to a month, present in it or not. *)
Lemma income_series_value (db : Table (Income.t F)) (userID : N) (year_ : Z) items k :
  IncomeRepository.GetMonthlyData db userID year_ = Ok items →
  sql_sum (map Income.TotalAmount (incomes_of_month db userID year_ k))
  = Ok (series_value MonthlyData.Income items k).
Proof.
  intros Hget. destruct (income_series_spec db userID year_ items Hget) as [Hmonths Hfig].
  unfold series_value. destruct (series_entry k items) as [x|] eqn:E.
  - apply series_entry_Some in E as [Hx <-]. by apply Hfig.
  - apply series_entry_None in E.
    assert (incomes_of_month db userID year_ k = []) as ->; [|done].
    apply elem_of_nil_inv. intros i [Hc Hi]%list_elem_of_filter.
    apply Is_true_true in Hc.
    apply andb_true_iff in Hc as [[Ho%N.eqb_eq Hy%Z.eqb_eq]%andb_true_iff Hk%String.eqb_eq].
    apply E, Hmonths. by exists i.
Qed.

Lemma expense_series_value (db : Table (Expense.t F)) (userID : N) (year_ : Z) items k :
  ExpenseRepository.GetMonthlyData db userID year_ = Ok items →
  sql_sum (map Expense.Amount (expenses_of_month db userID year_ k))
  = Ok (series_value MonthlyData.Expenses items k).
Proof.
  intros Hget. destruct (expense_series_spec db userID year_ items Hget) as [Hmonths Hfig].
  unfold series_value. destruct (series_entry k items) as [x|] eqn:E.
  - apply series_entry_Some in E as [Hx <-]. by apply Hfig.
  - apply series_entry_None in E.
    assert (expenses_of_month db userID year_ k = []) as ->; [|done].
    apply elem_of_nil_inv. intros e [Hc He]%list_elem_of_filter.
    apply Is_true_true in Hc.
    apply andb_true_iff in Hc as [[Ho%N.eqb_eq Hy%Z.eqb_eq]%andb_true_iff Hk%String.eqb_eq].
    apply E, Hmonths. by exists e.
Qed.

End MonthlySeries.

Lemma months_sorted {F : Type} `{PostgresLaws F} (l : list (MonthlyData.t F)) :
  months_ascending (order_by (λ a b, text_leb (MonthlyData.Month a) (MonthlyData.Month b)) l).
Proof.
  apply (order_by_sorted (λ a b, text_leb (MonthlyData.Month a) (MonthlyData.Month b))).
  - intros x y. apply text_leb_total.
  - intros x y z. apply text_leb_trans.
Qed.

Lemma income_series_sorted {F : Type} `{Float64 F} `{PostgresLaws F}
  (db : Table (Income.t F)) (userID : N) (year_ : Z) items :
  IncomeRepository.GetMonthlyData db userID year_ = Ok items → months_ascending items.
Proof.
  unfold IncomeRepository.GetMonthlyData.
  destruct (collect _ _) as [monthlyData|]; [|done]. intros [= <-]. apply months_sorted.
Qed.

Lemma expense_series_sorted {F : Type} `{Float64 F} `{PostgresLaws F}
  (db : Table (Expense.t F)) (userID : N) (year_ : Z) items :
  ExpenseRepository.GetMonthlyData db userID year_ = Ok items → months_ascending items.
Proof.
  unfold ExpenseRepository.GetMonthlyData.
  destruct (collect _ _) as [monthlyData|]; [|done]. intros [= <-]. apply months_sorted.
Qed.

(** X19.  The monthly rollup of a user and a year fails exactly when the store
    fails to sum one of its months, and succeeds when the store sums every
    month.  When it succeeds it holds one entry per month key carried by a
    row of the user that the store dates in that year, soft-deleted rows
    included, and no other; the entries come in ascending order of the month
    key in the collation of the database; the figure of an entry is the
    store's sum of the total amounts (of the amounts, for expenses) of the
    rows of that month, and the other figures of the entry are zero. *)
Theorem monthly_series_contents {F : Type} `{Float64 F} `{PostgresLaws F}
  (userID : N) (year_ : Z) :
  (∀ db : Table (Income.t F),
     (∀ items,
        IncomeRepository.GetMonthlyData db userID year_ = Ok items →
        NoDup (map MonthlyData.Month items)
        ∧ months_ascending items
        ∧ (∀ k, k ∈ map MonthlyData.Month items
                ↔ ∃ i, i ∈ rows db ∧ Income.UserID i = userID
                       ∧ extract_year (Income.Date i) = year_
                       ∧ to_char_YYYY_MM (Income.Date i) = k)
        ∧ (∀ d, d ∈ items →
                sql_sum (map Income.TotalAmount
                           (incomes_of_month db userID year_ (MonthlyData.Month d)))
                = Ok (MonthlyData.Income d)
                ∧ MonthlyData.Expenses d = fzero ∧ MonthlyData.Profit d = fzero))
     ∧ (∀ e, IncomeRepository.GetMonthlyData db userID year_ = Err e →
             ∃ k, sql_sum (map Income.TotalAmount (incomes_of_month db userID year_ k))
                  = Err e)
     ∧ ((∀ k, is_ok (sql_sum (map Income.TotalAmount
                                (incomes_of_month db userID year_ k))) = true) →
        is_ok (IncomeRepository.GetMonthlyData db userID year_) = true))
  ∧ (∀ db : Table (Expense.t F),
       (∀ items,
          ExpenseRepository.GetMonthlyData db userID year_ = Ok items →
          NoDup (map MonthlyData.Month items)
          ∧ months_ascending items
          ∧ (∀ k, k ∈ map MonthlyData.Month items
                  ↔ ∃ e, e ∈ rows db ∧ Expense.UserID e = userID
                         ∧ extract_year (Expense.Date e) = year_
                         ∧ to_char_YYYY_MM (Expense.Date e) = k)
          ∧ (∀ d, d ∈ items →
                  sql_sum (map Expense.Amount
                             (expenses_of_month db userID year_ (MonthlyData.Month d)))
                  = Ok (MonthlyData.Expenses d)
                  ∧ MonthlyData.Income d = fzero ∧ MonthlyData.Profit d = fzero))
       ∧ (∀ e, ExpenseRepository.GetMonthlyData db userID year_ = Err e →
               ∃ k, sql_sum (map Expense.Amount (expenses_of_month db userID year_ k))
                    = Err e)
       ∧ ((∀ k, is_ok (sql_sum (map Expense.Amount
                                  (expenses_of_month db userID year_ k))) = true) →
          is_ok (ExpenseRepository.GetMonthlyData db userID year_) = true)).
Proof.
  split; intros db; (split; [|split]).
  - intros items Hget. split; [by eapply income_series_one_per_month|].
    split; [by eapply income_series_sorted|]. by apply income_series_spec.
  - apply income_series_Err.
  - apply income_series_total.
  - intros items Hget. split; [by eapply expense_series_one_per_month|].
    split; [by eapply expense_series_sorted|]. by apply expense_series_spec.
  - apply expense_series_Err.
  - apply expense_series_total.
Qed.

Lemma monthly_series_contents_witness :
  ∃ items, IncomeRepository.GetMonthlyData Examples.incomes 1 2025 = Ok items
           ∧ map MonthlyData.Month items = ["2025-01"]
           ∧ map MonthlyData.Income items = [500%float]
           ∧ months_ascending items.
Proof.
  destruct (monthly_series_contents (F := float) 1 2025) as [Hincome _].
  destruct (Hincome Examples.incomes) as (Hok & _ & _).
  eexists. split; [reflexivity|]. split; [reflexivity|]. split; [reflexivity|].
  by destruct (Hok _ eq_refl) as (_ & Hsorted & _).
Defined.

(** ** From the update handlers to the get handlers *)

Section SaveLookup.
Context {R : Type} `{SchemaLaws R}.
Implicit Types (t : Table R) (r : R) (cond : R → bool).

(** Saving a row under the key of a live row writes over that row. *)
Lemma Save_live_overwrite now r t existing :
  id_of r ≠ 0%N → unique_ok (set_updated_at now r) (id_of r) (rows t) = true →
  existing ∈ rows t → id_of existing = id_of r → is_live existing = true →
  Save now r t = (set_updated_at now r, None,
                  {| rows := overwrite false (set_updated_at now r) (rows t);
                     last_id := last_id t |}).
Proof.
  intros Hz Hu Hin Hid Hl. unfold Save.
  apply N.eqb_neq in Hz. rewrite Hz, Hu. simpl.
  assert (existsb (λ old, (id_of old =? id_of r)%N && is_live old) (rows t) = true) as ->.
  { apply existsb_exists. exists existing. rewrite <- list_elem_of_In.
    split; [done|]. rewrite Hid, N.eqb_refl. done. }
  done.
Qed.

Lemma overwrite_elem_of keep r (l : list R) x :
  x ∈ overwrite keep r l →
  (x ∈ l ∧ id_of x ≠ id_of r) ∨ (∃ old, old ∈ l ∧ id_of old = id_of r ∧ id_of x = id_of r).
Proof.
  unfold overwrite. rewrite list_elem_of_In, in_map_iff.
  intros (old & Hx & Hin%list_elem_of_In).
  destruct (id_of old =? id_of r)%N eqn:E.
  - right. exists old. apply N.eqb_eq in E. split; [done|]. split; [done|]. subst x.
    destruct keep; [|done]. unfold id_of at 1. by rewrite model_with_model.
  - left. subst x. split; [done|]. by apply N.eqb_neq.
Qed.

(** The row a lookup by key finds after the row of that key was written
    over. *)
Lemma First_overwrite cond r (l : list R) n existing :
  existing ∈ l → id_of existing = id_of r →
  cond r = true → is_live r = true →
  (∀ x, cond x = true → id_of x = id_of r) →
  First cond {| rows := overwrite false r l; last_id := n |} = Ok r.
Proof.
  intros Hin Hid Hc Hl Hkey.
  assert (r ∈ overwrite false r l) as Hr.
  { unfold overwrite. apply list_elem_of_In, in_map_iff. exists existing.
    rewrite Hid, N.eqb_refl. split; [done|]. by apply list_elem_of_In. }
  destruct (First_found cond {| rows := overwrite false r l; last_id := n |} r Hr Hc Hl)
    as [r' Hr']. rewrite Hr'. f_equal.
  apply First_Ok in Hr' as (Hin' & Hc' & _). simpl in Hin'.
  unfold overwrite in Hin'. apply list_elem_of_In, in_map_iff in Hin' as (old & Hx & _).
  destruct (id_of old =? id_of r)%N eqn:E; [done|].
  subst r'. apply Hkey in Hc'. apply N.eqb_neq in E. done.
Qed.

Lemma overwrite_length keep r (l : list R) : length (overwrite keep r l) = length l.
Proof. unfold overwrite. apply length_map. Qed.

End SaveLookup.

(** X20.  An update that the handler answers with success wrote over the
    record it looked up.  The id of the request parses, the caller's get-one
    found a record under it before, and, the id not being zero, the get-one
    afterwards finds the record of the answer: same id, same owner, same
    creation time, [UpdatedAt] set to the time of the call, the date and the
    amounts of the request with the derived amounts recomputed.  No row is
    added and the id sequence is not advanced. *)
Theorem update_then_get_one {F : Type} `{Float64 F} (now : Time) (userID : N)
  (idStr : string) :
  (∀ (db db' : Table (Income.t F)) req message income,
     IncomeHandler.UpdateIncome db now userID idStr (Some req)
     = (utils.WriteSuccessResponse message income, db') →
     ∃ id existing,
       ParseUint32 idStr = Some id
       ∧ IncomeRepository.GetOne db id userID = Ok existing
       ∧ (id ≠ 0%N →
          IncomeRepository.GetOne db' id userID = Ok income
          ∧ id_of income = id ∧ Income.UserID income = userID
          ∧ CreatedAt (Income.Model income) = CreatedAt (Income.Model existing)
          ∧ UpdatedAt (Income.Model income) = now
          ∧ time_Parse (IncomeHandler.Date req) = Some (Income.Date income)
          ∧ income_amounts_consistent income
          ∧ Income.Quantity income = IncomeHandler.Quantity req
          ∧ Income.PricePerUnit income = IncomeHandler.PricePerUnit req
          ∧ Income.AmountPaid income = IncomeHandler.AmountPaid req
          ∧ Income.PaymentStatus income = IncomeHandler.PaymentStatus req
          ∧ length (rows db') = length (rows db) ∧ last_id db' = last_id db))
  ∧ (∀ (db db' : Table (Expense.t F)) req message expense,
       ExpenseHandler.UpdateExpense db now userID idStr (Some req)
       = (utils.WriteSuccessResponse message expense, db') →
       ∃ id existing,
         ParseUint32 idStr = Some id
         ∧ ExpenseRepository.GetOne db id userID = Ok existing
         ∧ (id ≠ 0%N →
            ExpenseRepository.GetOne db' id userID = Ok expense
            ∧ id_of expense = id ∧ Expense.UserID expense = userID
            ∧ CreatedAt (Expense.Model expense) = CreatedAt (Expense.Model existing)
            ∧ UpdatedAt (Expense.Model expense) = now
            ∧ time_Parse (ExpenseHandler.Date req) = Some (Expense.Date expense)
            ∧ expense_amounts_consistent expense
            ∧ Expense.Amount expense = ExpenseHandler.Amount req
            ∧ Expense.AmountPaid expense = ExpenseHandler.AmountPaid req
            ∧ Expense.Category expense = ExpenseHandler.Category req
            ∧ Expense.PaymentStatus expense = ExpenseHandler.PaymentStatus req
            ∧ length (rows db') = length (rows db) ∧ last_id db' = last_id db)).
Proof.
  split.
  - intros db db' req message income. unfold IncomeHandler.UpdateIncome.
    destruct (userID =? 0)%N; [done|].
    destruct (ParseUint32 idStr) as [id|]; [|done].
    destruct (IncomeRepository.GetOne db id userID) as [existing|] eqn:Hget; [|done].
    destruct (IncomeHandler.validate req) as [|date] eqn:Hv; [done|].
    apply income_validate_inr in Hv as (Hdate & _).
    match goal with
    | |- context [IncomeRepository.Update db now ?x] => set (sent := x)
    end.
    intros Hupd. exists id, existing. split; [done|]. split; [done|]. intros Hz.
    unfold IncomeRepository.GetOne in Hget.
    destruct (First _ db) as [x|] eqn:Hfirst; [|done]. injection Hget as ->.
    apply First_Ok in Hfirst as (Hin & [Hi%N.eqb_eq Ho%N.eqb_eq]%andb_true_iff & Hl).
    unfold IncomeRepository.Update in Hupd.
    assert (id_of (IncomeRepository.recalculate sent) = id_of existing) as Hsame by reflexivity.
    rewrite (Save_live_overwrite now _ db existing) in Hupd;
      [|by rewrite Hsame, Hi| |done|done|done].
    2:{ unfold unique_ok. apply forallb_forall. intros ? _. simpl. apply orb_true_r. }
    set (written := set_updated_at now (IncomeRepository.recalculate sent)) in Hupd.
    injection Hupd as _ <- <-.
    assert (is_live written = true) as Hlw by (unfold is_live, deleted_at in *; exact Hl).
    assert (id_of written = id) as Hwi by (rewrite <- Hi; reflexivity).
    assert (Income.UserID written = userID) as Hwo by (rewrite <- Ho; reflexivity).
    split.
    { unfold IncomeRepository.GetOne.
      rewrite (First_overwrite _ written (rows db) (last_id db) existing Hin); [done| | | |].
      - by rewrite Hi, Hwi.
      - unfold IncomeRepository.owned_by. by rewrite Hwi, Hwo, !N.eqb_refl.
      - exact Hlw.
      - intros y [Hy%N.eqb_eq _]%andb_true_iff. by rewrite Hy, Hwi. }
    split; [done|]. split; [done|].
    simpl. rewrite overwrite_length. by rewrite Hdate.
  - intros db db' req message expense. unfold ExpenseHandler.UpdateExpense.
    destruct (userID =? 0)%N; [done|].
    destruct (ParseUint32 idStr) as [id|]; [|done].
    destruct (ExpenseRepository.GetOne db id userID) as [existing|] eqn:Hget; [|done].
    destruct (ExpenseHandler.validate req) as [|date] eqn:Hv; [done|].
    apply expense_validate_inr in Hv as (Hdate & _). cbn zeta.
    match goal with
    | |- context [ExpenseRepository.Update db now ?x] => set (sent := x)
    end.
    intros Hupd. exists id, existing. split; [done|]. split; [done|]. intros Hz.
    unfold ExpenseRepository.GetOne in Hget.
    destruct (First _ db) as [x|] eqn:Hfirst; [|done]. injection Hget as ->.
    apply First_Ok in Hfirst as (Hin & [Hi%N.eqb_eq Ho%N.eqb_eq]%andb_true_iff & Hl).
    unfold ExpenseRepository.Update in Hupd.
    assert (id_of (ExpenseRepository.recalculate sent) = id_of existing) as Hsame by reflexivity.
    rewrite (Save_live_overwrite now _ db existing) in Hupd;
      [|by rewrite Hsame, Hi| |done|done|done].
    2:{ unfold unique_ok. apply forallb_forall. intros ? _. simpl. apply orb_true_r. }
    set (written := set_updated_at now (ExpenseRepository.recalculate sent)) in Hupd.
    injection Hupd as _ <- <-.
    assert (is_live written = true) as Hlw by (unfold is_live, deleted_at in *; exact Hl).
    assert (id_of written = id) as Hwi by (rewrite <- Hi; reflexivity).
    assert (Expense.UserID written = userID) as Hwo by (rewrite <- Ho; reflexivity).
    split.
    { unfold ExpenseRepository.GetOne.
      rewrite (First_overwrite _ written (rows db) (last_id db) existing Hin); [done| | | |].
      - by rewrite Hi, Hwi.
      - unfold ExpenseRepository.owned_by. by rewrite Hwi, Hwo, !N.eqb_refl.
      - exact Hlw.
      - intros y [Hy%N.eqb_eq _]%andb_true_iff. by rewrite Hy, Hwi. }
    split; [done|]. split; [done|].
    simpl. rewrite overwrite_length. by rewrite Hdate.
Qed.

Lemma update_then_get_one_witness :
  let '(response, db') :=
    IncomeHandler.UpdateIncome Examples.incomes 3000 1 "1" (Some Examples.income_request) in
  ∃ income,
    response = utils.WriteSuccessResponse "Income record updated successfully" income
    ∧ IncomeRepository.GetOne db' 1 1 = Ok income
    ∧ UpdatedAt (Income.Model income) = 3000%Z.
Proof.
  destruct (IncomeHandler.UpdateIncome Examples.incomes 3000 1 "1"
              (Some Examples.income_request)) as [response db'] eqn:E.
  assert (∃ income,
            response = utils.WriteSuccessResponse "Income record updated successfully" income)
    as (income & ->).
  { vm_compute in E. injection E as <- _. eexists. reflexivity. }
  exists income. split; [done|].
  destruct (proj1 (update_then_get_one (F := float) 3000%Z 1%N "1")
              Examples.incomes db' Examples.income_request _ income E)
    as (id & existing & Hid & _ & Hafter).
  injection Hid as <-.
  destruct Hafter as (Hget & _ & _ & _ & Hup & _); [done|]. done.
Defined.

(** ** Password reset by id *)

Section UpdatesOther.
Context {R : Type} `{SchemaLaws R}.

(** An update does not change what a query selects that none of the updated
    rows answers, before or after. *)
Lemma Find_Updates_other (cond' cond : R → bool) (f : R → R) now (t : Table R) :
  (∀ r, cond r = true → cond' r = false ∧ cond' (set_updated_at now (f r)) = false) →
  Find cond' (Updates cond f now t) = Find cond' t.
Proof.
  intros Hdisj. unfold Find, Updates. simpl.
  apply (filter_map_changed (λ r, cond' r && is_live r)).
  intros r _ [Hc _]%andb_true_iff. destruct (Hdisj r Hc) as [-> ->]. done.
Qed.

End UpdatesOther.

(** X21.  The password reset by user id.  It fails only when the password
    cannot be hashed, and then changes nothing.  When it reports no error and
    the id finds a user, the id finds that user afterwards with the hash of
    the new password, which bcrypt accepts if it accepts the hashes it makes,
    [UpdatedAt] set to the time of the call and every other field (email,
    name, phone, location, role, creation time, deletion marker) as before, a
    pending one-time code included.  When the id finds no user the store is
    unchanged, and no error is reported either.  Lookups of any other id
    answer as before. *)
Theorem reset_password_by_id `{Bcrypt} (db : Table User.t) (now : Time) (userID : N)
  (newPassword : string) :
  (∀ e db', UserRepository.ResetPassword db now userID newPassword = (Some e, db') →
            db' = db ∧ UserRepository.HashPassword newPassword = Err e)
  ∧ (∀ hashedPassword,
       UserRepository.HashPassword newPassword = Ok hashedPassword →
       ∃ db', UserRepository.ResetPassword db now userID newPassword = (None, db')
         ∧ (∀ u, UserRepository.GetOne db userID = Ok u →
              ∃ u', UserRepository.GetOne db' userID = Ok u'
                ∧ User.Password u' = hashedPassword
                ∧ ((∀ p h, GenerateFromPassword p = Ok h → CompareHashAndPassword h p = true) →
                   UserRepository.PasswordMatches u' newPassword = (true, None))
                ∧ id_of u' = userID ∧ User.Email u' = User.Email u
                ∧ User.Name u' = User.Name u ∧ User.Role u' = User.Role u
                ∧ User.Phone u' = User.Phone u ∧ User.Location u' = User.Location u
                ∧ User.OTPCode u' = User.OTPCode u
                ∧ User.OTPExpiresAt u' = User.OTPExpiresAt u
                ∧ UpdatedAt (User.Model u') = now
                ∧ CreatedAt (User.Model u') = CreatedAt (User.Model u)
                ∧ DeletedAt (User.Model u') = DeletedAt (User.Model u))
         ∧ (∀ e, UserRepository.GetOne db userID = Err e → db' = db)
         ∧ (∀ other, other ≠ userID →
              UserRepository.GetOne db' other = UserRepository.GetOne db other)).
Proof.
  unfold UserRepository.ResetPassword. split.
  - intros e db'. destruct (UserRepository.HashPassword newPassword); [done|].
    by intros [= <- <-].
  - intros h Hh. rewrite Hh. eexists. split; [reflexivity|].
    unfold UserRepository.GetOne. split; [|split].
    + intros u Hu. destruct (First _ db) as [v|] eqn:Hf; [|done]. injection Hu as ->.
      rewrite (First_Updates _ _ now db u); [|by intros []..|done].
      eexists. split; [reflexivity|].
      apply First_Ok in Hf as (_ & Hid%N.eqb_eq & _).
      split; [by destruct u|]. split.
      { intros Hsound. unfold UserRepository.PasswordMatches, UserRepository.HashPassword in *.
        destruct (GenerateFromPassword newPassword) as [h'|] eqn:Hg; [|done].
        injection Hh as ->.
        assert (User.Password (set_updated_at now (User.with_Password h u)) = h) as ->
          by by destruct u.
        by rewrite (Hsound newPassword h Hg). }
      destruct u. by simpl in *.
    + intros e He. destruct (First _ db) as [|e'] eqn:Hf; [done|].
      apply First_Err in Hf as [_ Hno]. by apply Updates_no_match.
    + intros other Hne. unfold First.
      rewrite Find_Updates_other; [done|].
      intros r Hr%N.eqb_eq.
      assert ((id_of r =? other)%N = false) as Hout by (apply N.eqb_neq; congruence).
      split; [done|]. by destruct r.
Qed.

Lemma reset_password_by_id_witness :
  ∃ db' u',
    UserRepository.ResetPassword (H := Examples.example_bcrypt) Examples.users 3000 1
      "a new password" = (None, db')
    ∧ UserRepository.GetOne db' 1 = Ok u'
    ∧ UserRepository.PasswordMatches (H := Examples.example_bcrypt) u' "a new password"
      = (true, None).
Proof.
  destruct (proj2 (reset_password_by_id (H := Examples.example_bcrypt) Examples.users
                     3000%Z 1%N "a new password") _ eq_refl)
    as (db' & Hreset & Hfound & _).
  destruct (Hfound Examples.alice eq_refl) as (u' & Hget & _ & Hmatch & _).
  exists db', u'. split; [done|]. split; [done|]. apply Hmatch, example_bcrypt_sound.
Defined.

(** ** Registration with an email that is taken *)

(** X22.  A registration whose fields pass validation and whose email a live
    user holds is answered 400 "Email already registered" and changes
    nothing.  When only soft-deleted users hold the email, the lookup misses
    them but the unique index on the email does not: the registration is
    answered 500 "Failed to create user" and no row is added, so the email of
    a deleted account cannot be registered again. *)
Theorem signup_with_a_taken_email `{Bcrypt} `{utils.Jwt}
  (db : Table User.t) (now : Time) (req : AuthHandler.SignupRequest) (u : User.t) :
  utils.ValidateEmail (AuthHandler.signup_Email req) = true →
  utils.ValidateRequired (AuthHandler.signup_Name req) = true →
  utils.ValidatePassword (AuthHandler.signup_Password req) = true →
  AuthHandler.signup_Phone req = "" ∨ utils.ValidatePhone (AuthHandler.signup_Phone req) = true →
  u ∈ rows db → User.Email u = AuthHandler.signup_Email req →
  (is_live u = true →
   AuthHandler.Signup db now (Some req)
   = (utils.WriteErrorResponse "Email already registered" utils.StatusBadRequest, db))
  ∧ ((∀ v, v ∈ rows db → User.Email v = AuthHandler.signup_Email req → is_live v = false) →
     AuthHandler.signup_AdminCode req = ""
     ∨ AuthHandler.signup_AdminCode req = "MINING2025ADMIN" →
     (AuthHandler.Signup db now (Some req)).1
     = utils.WriteErrorResponse "Failed to create user" utils.StatusInternalServerError
     ∧ rows (AuthHandler.Signup db now (Some req)).2 = rows db).
Proof.
  intros Hv1 Hv2 Hv3 Hv4 Hin He. unfold AuthHandler.Signup. rewrite Hv1, Hv2, Hv3.
  simpl negb. cbv iota.
  assert (negb (String.eqb (AuthHandler.signup_Phone req) "")
          && negb (utils.ValidatePhone (AuthHandler.signup_Phone req)) = false) as ->.
  { destruct Hv4 as [-> | ->]; [done|apply andb_false_r]. }
  unfold UserRepository.GetByEmail. split.
  - intros Hl.
    destruct (First_found (UserRepository.has_email (AuthHandler.signup_Email req)) db u)
      as [v ->]; [done|by apply has_email_iff|done|done].
  - intros Hdead Hcode. rewrite First_not_found.
    2:{ intros v Hv Hm%has_email_iff. by apply Hdead. }
    assert (negb (String.eqb (AuthHandler.signup_AdminCode req) "")
            && negb (String.eqb (AuthHandler.signup_AdminCode req) "MINING2025ADMIN")
            = false) as ->.
    { destruct Hcode as [-> | ->]; reflexivity. }
    match goal with
    | |- context [UserRepository.Insert db now ?x] => set (user := x)
    end.
    unfold UserRepository.Insert.
    destruct (UserRepository.HashPassword (User.Password user)) as [h|]; [|done].
    unfold Create.
    set (id := if (ID (model (User.with_Password h user)) =? 0)%N then _ else _).
    set (row := with_model _ (column_defaults (User.with_Password h user))).
    assert (has_id id (rows db) || negb (unique_ok row id (rows db)) = true) as ->; [|done].
    destruct (has_id id (rows db)) eqn:Hid; [done|]. simpl.
    apply negb_true_iff. apply not_true_is_false. unfold unique_ok.
    rewrite forallb_forall. intros Hall. specialize (Hall u).
    rewrite <- list_elem_of_In in Hall. specialize (Hall Hin).
    rewrite (has_id_false id (rows db) Hid u Hin) in Hall.
    change (negb (String.eqb (User.Email row) (User.Email u)) = true) in Hall.
    assert (String.eqb (User.Email row) (User.Email u) = true) as Hsame.
    { apply String.eqb_eq. rewrite He. unfold row. simpl. by repeat case_match. }
    by rewrite Hsame in Hall.
Qed.

Lemma signup_with_a_taken_email_witness :
  (AuthHandler.Signup (H := Examples.example_bcrypt) (signer := Examples.example_jwt)
     Examples.users_without_bob 3000 (Some Examples.bob_again)).1
  = utils.WriteErrorResponse "Failed to create user" utils.StatusInternalServerError
  ∧ UserRepository.GetByEmail Examples.users_without_bob "bob@mine.io"
    = Err ErrRecordNotFound.
Proof.
  split; [|reflexivity].
  apply (signup_with_a_taken_email (H := Examples.example_bcrypt)
           (H0 := Examples.example_jwt) Examples.users_without_bob 3000%Z Examples.bob_again
           (set_deleted_at (Some 2000%Z) Examples.bob)).
  - reflexivity.
  - reflexivity.
  - reflexivity.
  - by left.
  - unfold Examples.users_without_bob, Examples.users. simpl. set_solver.
  - reflexivity.
  - intros v Hv. unfold Examples.users_without_bob, Examples.users in Hv. simpl in Hv.
    apply elem_of_cons in Hv as [->|Hv]; [done|].
    apply list_elem_of_singleton in Hv as ->. done.
  - by left.
Defined.

(** ** Inventory items through the handlers *)

Section InventoryWritten.
Context {F : Type} `{Float64 F}.



End InventoryWritten.



(** ** The financial summary *)

(** X24.  The financial summary of the analytics handler, for an
    authenticated user.  The store is asked for four sums: the total amounts
    and the amounts due of the user's live incomes, the latter over those
    whose payment status is unpaid or partial, and the same two of the user's
    live expenses.  When it returns the four, the handler hands to the
    success writer the summary made of them: total income and total
    expenses; net profit, their difference; receivables and payables (the
    payables reach the answer through the [TotalReceivables] field of the
    expense summary); the profit margin, net profit over total income times
    100 when total income is greater than zero, and zero otherwise.  When a
    sum over the incomes fails the answer is 500 "Failed to retrieve income
    summary"; when those succeed and a sum over the expenses fails it is 500
    "Failed to retrieve expense summary".  Without a user id the answer is
    401. *)
Theorem financial_summary_contents {F : Type} `{Float64 F} `{Postgres F}
  (incomes : Table (Income.t F)) (expenses : Table (Expense.t F)) (userID : N) :
  userID ≠ 0%N →
  let income_sum := sql_sum (map Income.TotalAmount (live_incomes incomes userID)) in
  let receivable_sum :=
    sql_sum (map Income.AmountDue (outstanding_incomes (live_incomes incomes userID))) in
  let expense_sum := sql_sum (map Expense.Amount (live_expenses expenses userID)) in
  let payable_sum :=
    sql_sum (map Expense.AmountDue
               (outstanding_expenses (live_expenses expenses userID))) in
  (∀ totalIncome totalReceivables totalExpenses totalPayables,
     income_sum = Ok totalIncome → receivable_sum = Ok totalReceivables →
     expense_sum = Ok totalExpenses → payable_sum = Ok totalPayables →
     AnalyticsHandler.GetFinancialSummary incomes expenses userID
     = utils.WriteSuccessResponse "Financial summary retrieved successfully"
         {| FinancialSummary.TotalIncome := totalIncome;
            FinancialSummary.TotalExpenses := totalExpenses;
            FinancialSummary.NetProfit := (totalIncome - totalExpenses)%F;
            FinancialSummary.TotalReceivables := totalReceivables;
            FinancialSummary.TotalPayables := totalPayables;
            FinancialSummary.ProfitMargin :=
              if (totalIncome >? fzero)%F
              then ((totalIncome - totalExpenses) / totalIncome * f100)%F
              else fzero |})
  ∧ (is_ok income_sum && is_ok receivable_sum = false →
     AnalyticsHandler.GetFinancialSummary incomes expenses userID
     = utils.WriteErrorResponse "Failed to retrieve income summary"
         utils.StatusInternalServerError)
  ∧ (is_ok income_sum && is_ok receivable_sum = true →
     is_ok expense_sum && is_ok payable_sum = false →
     AnalyticsHandler.GetFinancialSummary incomes expenses userID
     = utils.WriteErrorResponse "Failed to retrieve expense summary"
         utils.StatusInternalServerError)
  ∧ AnalyticsHandler.GetFinancialSummary incomes expenses 0
    = utils.WriteErrorResponse "User not authenticated" utils.StatusUnauthorized.
Proof.
  intros Hu%N.eqb_neq. cbn zeta.
  unfold AnalyticsHandler.GetFinancialSummary. rewrite Hu.
  unfold IncomeRepository.GetFinancialSummary, ExpenseRepository.GetFinancialSummary.
  assert (Find (λ i : Income.t F, IncomeRepository.owned_by userID i && is_live i) incomes
          = live_incomes incomes userID) as ->.
  { unfold Find, live_incomes, Raw_where. apply list_filter_iff. intros i.
    rewrite !Is_true_true, !andb_true_iff. tauto. }
  assert (Find (ExpenseRepository.owned_by userID) expenses
          = live_expenses expenses userID) as -> by reflexivity.
  assert (Find (λ i : Income.t F,
                  IncomeRepository.owned_by userID i && is_live i
                  && IncomeRepository.is_outstanding (Income.PaymentStatus i)) incomes
          = outstanding_incomes (live_incomes incomes userID)) as ->.
  { unfold Find, outstanding_incomes, live_incomes, Raw_where.
    rewrite list_filter_filter. apply list_filter_iff. intros i.
    rewrite !Is_true_true, !andb_true_iff. tauto. }
  assert (Find (λ e : Expense.t F,
                  ExpenseRepository.owned_by userID e
                  && ExpenseRepository.is_outstanding (Expense.PaymentStatus e)) expenses
          = outstanding_expenses (live_expenses expenses userID)) as ->.
  { unfold Find, outstanding_expenses, live_expenses, Raw_where.
    rewrite list_filter_filter. apply list_filter_iff. intros e.
    rewrite !Is_true_true, !andb_true_iff. tauto. }
  split; [|split; [|split; [|done]]].
  - by intros ti tr te tp -> -> -> ->.
  - destruct (sql_sum (map Income.TotalAmount _)); [|done].
    by destruct (sql_sum (map Income.AmountDue _)).
  - destruct (sql_sum (map Income.TotalAmount _)); [|done].
    destruct (sql_sum (map Income.AmountDue _)); [|done]. intros _.
    destruct (sql_sum (map Expense.Amount _)); [|done].
    by destruct (sql_sum (map Expense.AmountDue _)).
Qed.

Lemma financial_summary_contents_witness :
  AnalyticsHandler.GetFinancialSummary Examples.incomes Examples.expenses 1
  = utils.WriteSuccessResponse "Financial summary retrieved successfully"
      {| FinancialSummary.TotalIncome := 500%float;
         FinancialSummary.TotalExpenses := 120%float;
         FinancialSummary.NetProfit := 380%float;
         FinancialSummary.TotalReceivables := 200%float;
         FinancialSummary.TotalPayables := 100%float;
         FinancialSummary.ProfitMargin := 76%float |}.
Proof.
  destruct (financial_summary_contents Examples.incomes Examples.expenses 1)
    as (Hok & _); [done|].
  exact (Hok 500%float 200%float 120%float 100%float eq_refl eq_refl eq_refl eq_refl).
Defined.

(** ** The profile update *)

Section SaveOk.
Context {R : Type} `{SchemaLaws R}.

(** A save that succeeds under the non-zero key of a live row wrote over it. *)
Lemma Save_ok_live now (r x existing : R) (t t' : Table R) :
  Save now r t = (x, None, t') →
  id_of r ≠ 0%N → existing ∈ rows t → id_of existing = id_of r → is_live existing = true →
  x = set_updated_at now r
  ∧ t' = {| rows := overwrite false (set_updated_at now r) (rows t); last_id := last_id t |}.
Proof.
  intros Hsave Hz Hin Hid Hl. unfold Save in Hsave.
  apply N.eqb_neq in Hz. rewrite Hz in Hsave.
  destruct (negb (unique_ok _ _ _)); [done|].
  assert (existsb (λ old, (id_of old =? id_of r)%N && is_live old) (rows t) = true) as Hex.
  { apply existsb_exists. exists existing. rewrite <- list_elem_of_In.
    split; [done|]. rewrite Hid, N.eqb_refl. done. }
  rewrite Hex in Hsave. by injection Hsave as <- <-.
Qed.

End SaveOk.

(** X25.  A profile update that the handler answers with success changed the
    name, the phone and the location of the caller's user to those of the
    request and nothing of its identity: the lookup by the caller's id finds
    a user before and after, with the same id, email, role, creation time and
    pending one-time code; [UpdatedAt] is the time of the call, the answer
    carries the id, email and role of the user and the three fields of the
    request, the name of the request is not blank, and no row is added. *)
Theorem profile_update_fields `{Bcrypt} (db db' : Table User.t) (now : Time) (userID : N)
  (req : AuthHandler.ProfileRequest) (message : string) (profile : AuthHandler.Profile) :
  AuthHandler.UpdateProfile db now userID (Some req)
  = (utils.WriteSuccessResponse message profile, db') →
  ∃ u u',
    UserRepository.GetOne db userID = Ok u
    ∧ UserRepository.GetOne db' userID = Ok u'
    ∧ profile = {| AuthHandler.id := userID; AuthHandler.email := User.Email u;
                   AuthHandler.name := AuthHandler.Name req;
                   AuthHandler.phone := AuthHandler.Phone req;
                   AuthHandler.location := AuthHandler.Location req;
                   AuthHandler.role := User.Role u |}
    ∧ id_of u' = userID ∧ User.Email u' = User.Email u ∧ User.Role u' = User.Role u
    ∧ User.Name u' = AuthHandler.Name req ∧ User.Phone u' = AuthHandler.Phone req
    ∧ User.Location u' = AuthHandler.Location req
    ∧ User.OTPCode u' = User.OTPCode u ∧ User.OTPExpiresAt u' = User.OTPExpiresAt u
    ∧ CreatedAt (User.Model u') = CreatedAt (User.Model u)
    ∧ UpdatedAt (User.Model u') = now
    ∧ utils.ValidateRequired (AuthHandler.Name req) = true
    ∧ length (rows db') = length (rows db).
Proof.
  unfold AuthHandler.UpdateProfile.
  destruct (userID =? 0)%N eqn:Hz; [done|]. apply N.eqb_neq in Hz.
  destruct (utils.ValidateRequired (AuthHandler.Name req)) eqn:Hname; [|done].
  simpl negb. cbv iota.
  destruct (match AuthHandler.Phone req with Some _ => _ | None => _ end); [done|].
  destruct (UserRepository.GetOne db userID) as [u|] eqn:Hget; [|done].
  unfold UserRepository.GetOne in Hget.
  destruct (First _ db) as [x|] eqn:Hfirst; [|done]. injection Hget as ->.
  apply First_Ok in Hfirst as (Hin & Hi%N.eqb_eq & Hl).
  set (changed := User.with_profile _ _ _ u).
  destruct (UserRepository.Update db now changed) as [[x e] t] eqn:Hupd.
  destruct e; [done|]. intros [= <- <- <-].
  assert (∃ r, Save now r db = (x, None, t) ∧ id_of r = userID
               ∧ User.Email r = User.Email u ∧ User.Role r = User.Role u
               ∧ User.Name r = AuthHandler.Name req ∧ User.Phone r = AuthHandler.Phone req
               ∧ User.Location r = AuthHandler.Location req
               ∧ User.OTPCode r = User.OTPCode u
               ∧ User.OTPExpiresAt r = User.OTPExpiresAt u
               ∧ CreatedAt (User.Model r) = CreatedAt (User.Model u)
               ∧ DeletedAt (User.Model r) = DeletedAt (User.Model u))
    as (r & Hsave & Hri & Hre & Hrr & Hrn & Hrp & Hrl & Hro & Hrx & Hrc & Hrd).
  { unfold UserRepository.Update in Hupd.
    destruct (negb (String.eqb (User.Password changed) "")).
    - destruct (UserRepository.HashPassword _) as [h|]; [|done].
      exists (User.with_Password h changed). split; [done|]. by destruct u.
    - exists changed. split; [done|]. by destruct u. }
  destruct (Save_ok_live now r x u db t Hsave) as [-> ->];
    [by rewrite Hri|done|by rewrite Hi, Hri|done|].
  exists u, (set_updated_at now r).
  assert (is_live (set_updated_at now r) = true) as Hlw.
  { rewrite is_live_set_updated_at. unfold is_live, deleted_at in *. simpl in *.
    by rewrite Hrd. }
  split; [done|]. split.
  { unfold UserRepository.GetOne.
    rewrite (First_overwrite _ (set_updated_at now r) (rows db) (last_id db) u Hin);
      [done| | | |].
    - by rewrite id_of_set_updated_at, Hi, Hri.
    - rewrite id_of_set_updated_at, Hri. apply N.eqb_refl.
    - exact Hlw.
    - intros y Hy%N.eqb_eq. by rewrite id_of_set_updated_at, Hri. }
  rewrite id_of_set_updated_at, Hri. simpl. rewrite overwrite_length.
  rewrite Hre, Hrr, Hrn, Hrp, Hrl, Hro, Hrx, Hrc. done.
Qed.

Lemma profile_update_fields_witness :
  let '(response, db') :=
    AuthHandler.UpdateProfile (H := Examples.example_bcrypt) Examples.users 3000 1
      (Some Examples.rename_request) in
  ∃ profile u',
    response = utils.WriteSuccessResponse "Profile updated successfully" profile
    ∧ UserRepository.GetOne db' 1 = Ok u'
    ∧ User.Name u' = "Alice M." ∧ User.Email u' = "alice@mine.io".
Proof.
  destruct (AuthHandler.UpdateProfile (H := Examples.example_bcrypt) Examples.users 3000 1
              (Some Examples.rename_request)) as [response db'] eqn:E.
  assert (∃ profile,
            response = utils.WriteSuccessResponse "Profile updated successfully" profile)
    as (profile & ->).
  { vm_compute in E. injection E as <- _. eexists. reflexivity. }
  destruct (profile_update_fields (H := Examples.example_bcrypt) Examples.users db' 3000%Z
              1%N Examples.rename_request _ profile E)
    as (u & u' & Hu & Hu' & _ & _ & He & _ & Hn & _).
  exists profile, u'. split; [done|]. split; [done|]. split; [done|].
  rewrite He. by injection Hu as <-.
Defined.

(** ** The monthly report, end to end *)

Lemma requested_year_range (yearStr : string) (current_year y : Z) :
  AnalyticsHandler.requested_year yearStr current_year = Some y →
  (yearStr = "" ∧ y = current_year)
  ∨ (yearStr ≠ "" ∧ Atoi yearStr = Some y ∧ (2000 ≤ y ≤ 3000)%Z).
Proof.
  unfold AnalyticsHandler.requested_year.
  destruct (String.eqb_spec yearStr "") as [->|Hne]; [intros [= <-]; by left|].
  destruct (Atoi yearStr) as [z|]; [|done].
  destruct ((z <? 2000)%Z || (3000 <? z)%Z) eqn:E; [done|]. intros [= <-].
  apply orb_false_iff in E as [E1%Z.ltb_ge E2%Z.ltb_ge]. right. split; [done|].
  split; [done|lia].
Qed.

(** X26.  The monthly report of the analytics handler, for an authenticated
    user and a year parameter that is absent (the current year is taken) or a
    number from 2000 to 3000.  When the store fails to sum the incomes of a
    month of that year the answer is 500 "Failed to retrieve monthly income
    data"; when it sums those and fails on the expenses of a month, 500
    "Failed to retrieve monthly expense data".  When it sums every month, the
    handler hands to the success writer one entry per month in which the user
    has an income or an expense that the store dates in that year,
    soft-deleted records included; the income of an entry is the store's sum
    of the total amounts of the user's incomes of that month, its expenses
    the sum of the amounts of the user's expenses of that month (zero when
    there is none), and its profit is the income minus the expenses.  The
    order of the entries is not determined. *)
Theorem monthly_report_contents {F : Type} `{Float64 F} `{Postgres F}
  (incomes : Table (Income.t F)) (expenses : Table (Expense.t F))
  (userID : N) (yearStr : string) (current_year y : Z)
  (resp : utils.response (list (MonthlyData.t F))) :
  userID ≠ 0%N →
  AnalyticsHandler.requested_year yearStr current_year = Some y →
  AnalyticsHandler.GetMonthlyData incomes expenses userID yearStr current_year resp →
  let income_sum k := sql_sum (map Income.TotalAmount (incomes_of_month incomes userID y k)) in
  let expense_sum k := sql_sum (map Expense.Amount (expenses_of_month expenses userID y k)) in
  ((∃ k, is_ok (income_sum k) = false) →
   resp = utils.WriteErrorResponse "Failed to retrieve monthly income data"
            utils.StatusInternalServerError)
  ∧ ((∀ k, is_ok (income_sum k) = true) → (∃ k, is_ok (expense_sum k) = false) →
     resp = utils.WriteErrorResponse "Failed to retrieve monthly expense data"
              utils.StatusInternalServerError)
  ∧ ((∀ k, is_ok (income_sum k) = true) → (∀ k, is_ok (expense_sum k) = true) →
     ∃ result,
       resp = utils.WriteSuccessResponse "Monthly data retrieved successfully" result
       ∧ NoDup (map MonthlyData.Month result)
       ∧ (∀ k, k ∈ map MonthlyData.Month result
               ↔ (∃ i, i ∈ rows incomes ∧ Income.UserID i = userID
                       ∧ extract_year (Income.Date i) = y
                       ∧ to_char_YYYY_MM (Income.Date i) = k)
                 ∨ (∃ e, e ∈ rows expenses ∧ Expense.UserID e = userID
                         ∧ extract_year (Expense.Date e) = y
                         ∧ to_char_YYYY_MM (Expense.Date e) = k))
       ∧ (∀ d, d ∈ result →
               income_sum (MonthlyData.Month d) = Ok (MonthlyData.Income d)
               ∧ expense_sum (MonthlyData.Month d) = Ok (MonthlyData.Expenses d)
               ∧ MonthlyData.Profit d
                 = (MonthlyData.Income d - MonthlyData.Expenses d)%F))
  ∧ ((yearStr = "" ∧ y = current_year) ∨ (yearStr ≠ "" ∧ (2000 ≤ y ≤ 3000)%Z)).
Proof.
  intros Hu Hy Hresp. cbn zeta.
  assert (∀ incomeData, IncomeRepository.GetMonthlyData incomes userID y = Ok incomeData →
            ∀ k, is_ok (sql_sum (map Income.TotalAmount
                                   (incomes_of_month incomes userID y k))) = true)
    as Hincome_ok.
  { intros incomeData Hi k. by rewrite (income_series_value _ _ _ _ k Hi). }
  assert (∀ expenseData,
            ExpenseRepository.GetMonthlyData expenses userID y = Ok expenseData →
            ∀ k, is_ok (sql_sum (map Expense.Amount
                                   (expenses_of_month expenses userID y k))) = true)
    as Hexpense_ok.
  { intros expenseData He k. by rewrite (expense_series_value _ _ _ _ k He). }
  pose proof Hresp as Hresp'. unfold AnalyticsHandler.GetMonthlyData in Hresp'.
  apply N.eqb_neq in Hu as Hu'. rewrite Hu', Hy in Hresp'.
  split; [|split; [|split]].
  - intros [k Hk].
    destruct (IncomeRepository.GetMonthlyData incomes userID y) as [incomeData|] eqn:Hi;
      [|done].
    by rewrite (Hincome_ok incomeData eq_refl k) in Hk.
  - intros Hall [k Hk].
    pose proof (income_series_total incomes userID y Hall) as Hi.
    destruct (IncomeRepository.GetMonthlyData incomes userID y) as [incomeData|]; [|done].
    destruct (ExpenseRepository.GetMonthlyData expenses userID y)
      as [expenseData|] eqn:He; [|done].
    by rewrite (Hexpense_ok expenseData eq_refl k) in Hk.
  - intros Halli Halle.
    pose proof (income_series_total incomes userID y Halli) as Hi.
    pose proof (expense_series_total expenses userID y Halle) as He.
    destruct (IncomeRepository.GetMonthlyData incomes userID y)
      as [incomeData|] eqn:Hi'; [|done].
    destruct (ExpenseRepository.GetMonthlyData expenses userID y)
      as [expenseData|] eqn:He'; [|done].
    destruct Hresp' as (result & Hr & ->).
    exists result. split; [done|].
    set (m := AnalyticsHandler.combine incomeData expenseData) in *.
    destruct (income_series_spec incomes userID y incomeData Hi') as [Him _].
    destruct (expense_series_spec expenses userID y expenseData He') as [Hem _].
    split; [|split].
    + assert (map MonthlyData.Month (map snd (map_to_list m)) = map fst (map_to_list m))
        as Hkeys.
      { rewrite map_map. apply map_ext_in. intros [k d] Hin%list_elem_of_In. simpl.
        apply elem_of_map_to_list in Hin. by apply combine_entry in Hin as [-> _]. }
      unfold AnalyticsHandler.ranges_over in Hr. rewrite Hr, Hkeys.
      apply (NoDup_fst_map_to_list m).
    + intros k. rewrite <- Him, <- Hem, <- combine_months. fold m.
      rewrite list_elem_of_In, in_map_iff. split.
      * intros (d & <- & Hd%list_elem_of_In).
        apply (ranges_over_elem_of m result d Hr) in Hd as [k Hk].
        pose proof Hk as Hk'. apply combine_entry in Hk' as [-> _]. by exists d.
      * intros [d Hd]. exists d. pose proof Hd as Hd'.
        apply combine_entry in Hd' as [-> _]. split; [done|].
        apply list_elem_of_In, (ranges_over_elem_of m result d Hr). by eexists.
    + intros d Hd. apply (ranges_over_elem_of m result d Hr) in Hd as [k Hk].
      apply combine_entry in Hk as (<- & Hinc & Hexp & Hprofit).
      rewrite Hinc, Hexp.
      split; [by apply income_series_value|]. split; [by apply expense_series_value|].
      by rewrite <- Hinc, <- Hexp.
  - destruct (requested_year_range yearStr current_year y Hy) as [?|(? & _ & ?)]; auto.
Qed.

Lemma monthly_report_contents_witness :
  let report :=
    [{| MonthlyData.Month := "2025-01"; MonthlyData.Income := 500%float;
        MonthlyData.Expenses := 120%float; MonthlyData.Profit := 380%float |}] in
  AnalyticsHandler.GetMonthlyData Examples.incomes Examples.expenses 1 "2025" 2026
    (utils.WriteSuccessResponse "Monthly data retrieved successfully" report)
  ∧ NoDup (map MonthlyData.Month report).
Proof.
  cbn zeta.
  assert (AnalyticsHandler.GetMonthlyData Examples.incomes Examples.expenses 1 "2025" 2026
            (utils.WriteSuccessResponse "Monthly data retrieved successfully"
               [{| MonthlyData.Month := "2025-01"; MonthlyData.Income := 500%float;
                   MonthlyData.Expenses := 120%float;
                   MonthlyData.Profit := 380%float |}])) as Hresp.
  { eexists. split; [|reflexivity]. vm_compute. reflexivity. }
  split; [exact Hresp|].
  destruct (monthly_report_contents Examples.incomes Examples.expenses 1 "2025" 2026%Z
              2025%Z _ ltac:(done) eq_refl Hresp) as (_ & _ & Hok & _).
  destruct Hok as (result & Heq & Hnd & _).
  - intros k. destruct (String.eqb_spec k "2025-01") as [->|Hne]; [reflexivity|].
    assert (incomes_of_month Examples.incomes 1 2025 k = []) as ->; [|reflexivity].
    unfold incomes_of_month. simpl. rewrite filter_cons.
    destruct (decide _) as [Hd|]; [|done]. apply Is_true_true in Hd.
    apply andb_true_iff in Hd as [_ Hk%String.eqb_eq]. by destruct Hne.
  - intros k. destruct (String.eqb_spec k "2025-01") as [->|Hne]; [reflexivity|].
    assert (expenses_of_month Examples.expenses 1 2025 k = []) as ->; [|reflexivity].
    unfold expenses_of_month. simpl. rewrite filter_cons.
    destruct (decide _) as [Hd|]; [|done]. apply Is_true_true in Hd.
    apply andb_true_iff in Hd as [_ Hk%String.eqb_eq]. by destruct Hne.
  - injection Heq as <-. exact Hnd.
Defined.
